(** * Pipeline lifecycle manager of the collection agent

    A shallow embedding of [pluginmanager/plugin_manager.go]: the registry of
    running pipelines, the two staging slots, the deadline-bound stop, the
    set of disabled (quarantined) pipelines and the teardown that breaks the
    reference cycles of a stopped pipeline.

    Go objects live in explicit heaps addressed by pointers, package
    variables are fields of one [State] record, and every function of the
    file is a state transformer in a small monad that also records run-time
    panics, process exit and blocking on the registry lock. *)

From stdpp Require Import base option list gmap strings fin_maps fin_sets.
From Stdlib Require Import ZArith Lia.

Local Open Scope string_scope.

(** ** Data model *)

(** Addresses of heap objects.  A pointer that is not in the domain of its
    heap stands for a nil (or otherwise invalid) pointer. *)
Abbreviation ptr := positive (only parsing).

(** [*LogstoreConfig]: the pipeline object.  [Context_] and [PluginRunner]
    are interface values ([None] is the nil interface). *)
Record LogstoreConfig := mkLogstoreConfig {
  Context_ : option ptr;
  PluginRunner : option ptr;
  ConfigName : string;
  ConfigNameWithSuffix : string
}.

(** Dynamic type of the value stored in [LogstoreConfig.Context]; the
    teardown only distinguishes [*ContextImp] from everything else. *)
Inductive ContextObj :=
| ContextImp (logstoreC : option ptr)
| OtherContext.

(** A plugin instance wrapper (metric, service, processor, aggregator or
    flusher, of either runner generation): only its back-reference to the
    owning pipeline is used by this file. *)
Record PluginWrapper := mkPluginWrapper {
  Config : option ptr
}.

(** The five role collections and the back-reference of a runner. *)
Record RunnerFields := mkRunnerFields {
  MetricPlugins : list ptr;
  ServicePlugins : list ptr;
  ProcessorPlugins : list ptr;
  AggregatorPlugins : list ptr;
  FlusherPlugins : list ptr;
  RunnerLogstoreConfig : option ptr;
  withInputPlugin : bool
}.

(** Dynamic type of a [PluginRunner] interface value. *)
Inductive RunnerObj :=
| pluginv1Runner (f : RunnerFields)
| pluginv2Runner (f : RunnerFields)
| otherRunner (withInput : bool).

(** [PluginRunner.IsWithInputPlugin()].  The method bodies are not part of
    this file; the answer is carried by the runner object. *)
Definition IsWithInputPlugin (r : RunnerObj) : bool :=
  match r with
  | pluginv1Runner f | pluginv2Runner f => withInputPlugin f
  | otherRunner b => b
  end.

(** All plugin instances of a runner, over the five roles. *)
Definition runnerPlugins (r : RunnerObj) : list ptr :=
  match r with
  | pluginv1Runner f | pluginv2Runner f =>
      MetricPlugins f ++ ServicePlugins f ++ ProcessorPlugins f
        ++ AggregatorPlugins f ++ FlusherPlugins f
  | otherRunner _ => []
  end.

Inductive LogRecord :=
| LogInfo (msg : string)
| LogError (alarm : string) (msg : string).

(** Phase of the goroutine launched by [timeoutStop]. *)
Inductive GoPhase :=
| InStop       (* inside [config.Stop(removedFlag)] *)
| DoneClosed   (* [close(done)] executed, reconciliation still to run *)
| Exited.

Record Goroutine := mkGoroutine {
  gConfig : ptr;
  gRemovedFlag : bool;
  gPhase : GoPhase
}.

(** The heaps and the package-level variables. *)
Record State := mkState {
  configs : gmap ptr LogstoreConfig;
  contexts : gmap ptr ContextObj;
  runners : gmap ptr RunnerObj;
  plugins : gmap ptr PluginWrapper;
  LogtailConfigLock : bool;                       (* write-locked *)
  LogtailConfig : gmap string ptr;
  ToStartPipelineConfigWithInput : option ptr;
  ToStartPipelineConfigWithoutInput : option ptr;
  DisabledLogtailConfig : gset ptr;
  LastUnsendBuffer : gmap string (option ptr);
  goroutines : list Goroutine;
  logs : list LogRecord
}.

Definition set_configs (f : gmap ptr LogstoreConfig → gmap ptr LogstoreConfig) (st : State) : State :=
  mkState (f (configs st)) (contexts st) (runners st) (plugins st)
    (LogtailConfigLock st) (LogtailConfig st) (ToStartPipelineConfigWithInput st)
    (ToStartPipelineConfigWithoutInput st) (DisabledLogtailConfig st)
    (LastUnsendBuffer st) (goroutines st) (logs st).

Definition set_contexts (f : gmap ptr ContextObj → gmap ptr ContextObj) (st : State) : State :=
  mkState (configs st) (f (contexts st)) (runners st) (plugins st)
    (LogtailConfigLock st) (LogtailConfig st) (ToStartPipelineConfigWithInput st)
    (ToStartPipelineConfigWithoutInput st) (DisabledLogtailConfig st)
    (LastUnsendBuffer st) (goroutines st) (logs st).

Definition set_runners (f : gmap ptr RunnerObj → gmap ptr RunnerObj) (st : State) : State :=
  mkState (configs st) (contexts st) (f (runners st)) (plugins st)
    (LogtailConfigLock st) (LogtailConfig st) (ToStartPipelineConfigWithInput st)
    (ToStartPipelineConfigWithoutInput st) (DisabledLogtailConfig st)
    (LastUnsendBuffer st) (goroutines st) (logs st).

Definition set_plugins (f : gmap ptr PluginWrapper → gmap ptr PluginWrapper) (st : State) : State :=
  mkState (configs st) (contexts st) (runners st) (f (plugins st))
    (LogtailConfigLock st) (LogtailConfig st) (ToStartPipelineConfigWithInput st)
    (ToStartPipelineConfigWithoutInput st) (DisabledLogtailConfig st)
    (LastUnsendBuffer st) (goroutines st) (logs st).

Definition set_lock (b : bool) (st : State) : State :=
  mkState (configs st) (contexts st) (runners st) (plugins st)
    b (LogtailConfig st) (ToStartPipelineConfigWithInput st)
    (ToStartPipelineConfigWithoutInput st) (DisabledLogtailConfig st)
    (LastUnsendBuffer st) (goroutines st) (logs st).

Definition set_LogtailConfig (f : gmap string ptr → gmap string ptr) (st : State) : State :=
  mkState (configs st) (contexts st) (runners st) (plugins st)
    (LogtailConfigLock st) (f (LogtailConfig st)) (ToStartPipelineConfigWithInput st)
    (ToStartPipelineConfigWithoutInput st) (DisabledLogtailConfig st)
    (LastUnsendBuffer st) (goroutines st) (logs st).

Definition set_ToStartWithInput (o : option ptr) (st : State) : State :=
  mkState (configs st) (contexts st) (runners st) (plugins st)
    (LogtailConfigLock st) (LogtailConfig st) o
    (ToStartPipelineConfigWithoutInput st) (DisabledLogtailConfig st)
    (LastUnsendBuffer st) (goroutines st) (logs st).

Definition set_ToStartWithoutInput (o : option ptr) (st : State) : State :=
  mkState (configs st) (contexts st) (runners st) (plugins st)
    (LogtailConfigLock st) (LogtailConfig st) (ToStartPipelineConfigWithInput st)
    o (DisabledLogtailConfig st)
    (LastUnsendBuffer st) (goroutines st) (logs st).

Definition set_Disabled (f : gset ptr → gset ptr) (st : State) : State :=
  mkState (configs st) (contexts st) (runners st) (plugins st)
    (LogtailConfigLock st) (LogtailConfig st) (ToStartPipelineConfigWithInput st)
    (ToStartPipelineConfigWithoutInput st) (f (DisabledLogtailConfig st))
    (LastUnsendBuffer st) (goroutines st) (logs st).

Definition set_LastUnsendBuffer (f : gmap string (option ptr) → gmap string (option ptr)) (st : State) : State :=
  mkState (configs st) (contexts st) (runners st) (plugins st)
    (LogtailConfigLock st) (LogtailConfig st) (ToStartPipelineConfigWithInput st)
    (ToStartPipelineConfigWithoutInput st) (DisabledLogtailConfig st)
    (f (LastUnsendBuffer st)) (goroutines st) (logs st).

Definition set_goroutines (f : list Goroutine → list Goroutine) (st : State) : State :=
  mkState (configs st) (contexts st) (runners st) (plugins st)
    (LogtailConfigLock st) (LogtailConfig st) (ToStartPipelineConfigWithInput st)
    (ToStartPipelineConfigWithoutInput st) (DisabledLogtailConfig st)
    (LastUnsendBuffer st) (f (goroutines st)) (logs st).

Definition add_log (r : LogRecord) (st : State) : State :=
  mkState (configs st) (contexts st) (runners st) (plugins st)
    (LogtailConfigLock st) (LogtailConfig st) (ToStartPipelineConfigWithInput st)
    (ToStartPipelineConfigWithoutInput st) (DisabledLogtailConfig st)
    (LastUnsendBuffer st) (goroutines st) (logs st ++ [r]).

(** ** Control effects *)

(** Result of running a piece of Go code on a state. *)
Inductive Result (A : Type) : Type :=
| Ok (a : A) (st : State)   (* normal completion *)
| Panic (st : State)        (* a run-time panic unwinds the current goroutine *)
| Exit                      (* a panic left a goroutine unrecovered: the process terminates *)
| Block.                    (* the code never comes back: a held lock, a hanging call *)
Arguments Ok {A} a st.
Arguments Panic {A} st.
Arguments Exit {A}.
Arguments Block {A}.

Definition M (A : Type) : Type := State → Result A.

#[global] Instance M_ret : MRet M := λ A a st, Ok a st.

#[global] Instance M_bind : MBind M := λ A B k m st,
  match m st with
  | Ok a st' => k a st'
  | Panic st' => Panic st'
  | Exit => Exit
  | Block => Block
  end.

Definition ret {A} (a : A) : M A := mret a.

Definition modify (f : State → State) : M unit := λ st, Ok tt (f st).
Definition panic {A} : M A := λ st, Panic st.

(** Dereference of a [*LogstoreConfig]; a nil pointer panics. *)
Definition deref (config : ptr) : M LogstoreConfig := λ st,
  match configs st !! config with
  | Some lc => Ok lc st
  | None => Panic st
  end.

(** [config.Context.GetRuntimeContext()], the first argument of most logger
    calls: a method call on the interface value, which panics when the
    interface is nil. *)
Definition GetRuntimeContext (config : ptr) : M unit :=
  lc ← deref config;
  match Context_ lc with
  | Some _ => ret tt
  | None => panic
  end.

Definition logger (r : LogRecord) : M unit := modify (add_log r).

(** [panicRecover], lines 91-97, as the deferred call of a function whose
    result is [zero] unless the body returned: a panic of the body is
    recovered and logged with its stack trace. *)
Definition panicRecover {A} (pluginType : string) (zero : A) (body : M A) : M A := λ st,
  match body st with
  | Panic st' => Ok zero (add_log (LogError "PLUGIN_RUNTIME_ALARM" pluginType) st')
  | r => r
  end.

(** [go f()]: the body runs on a goroutine of its own, which has no deferred
    recovery; a panic there ends the process. *)
Definition go {A} (body : M A) : M A := λ st,
  match body st with
  | Panic _ => Exit
  | r => r
  end.

(** [LogtailConfigLock]: a write lock that is already held blocks every
    further [Lock] and [RLock].  Read locks of this file are released before
    anything else happens, so they leave no trace in the state. *)
Definition Lock : M unit := λ st,
  if LogtailConfigLock st then Block else Ok tt (set_lock true st).
Definition Unlock : M unit := modify (set_lock false).
Definition RLock : M unit := λ st,
  if LogtailConfigLock st then Block else Ok tt st.
Definition RUnlock : M unit := ret tt.

(** ** Teardown: [DeleteLogstoreConfig], lines 192-236 *)

Definition clearLogstoreC (o : ContextObj) : ContextObj :=
  match o with
  | ContextImp _ => ContextImp None
  | OtherContext => OtherContext
  end.

Definition clearPluginConfig (w : PluginWrapper) : PluginWrapper :=
  {| Config := None |}.

(** [for _, obj := range l { obj.Config = nil }] *)
Definition clearPlugins (l : list ptr) (h : gmap ptr PluginWrapper) : gmap ptr PluginWrapper :=
  foldl (λ h obj, alter clearPluginConfig obj h) h l.

Definition clearRunnerFields (f : RunnerFields) : RunnerFields :=
  {| MetricPlugins := MetricPlugins f;
     ServicePlugins := ServicePlugins f;
     ProcessorPlugins := ProcessorPlugins f;
     AggregatorPlugins := AggregatorPlugins f;
     FlusherPlugins := FlusherPlugins f;
     RunnerLogstoreConfig := None;
     withInputPlugin := withInputPlugin f |}.

Definition clearRunner (r : RunnerObj) : RunnerObj :=
  match r with
  | pluginv1Runner f => pluginv1Runner (clearRunnerFields f)
  | pluginv2Runner f => pluginv2Runner (clearRunnerFields f)
  | otherRunner b => otherRunner b
  end.

Definition setContext (config : ptr) (v : option ptr) : M unit :=
  modify (set_configs (alter (λ lc,
    {| Context_ := v; PluginRunner := PluginRunner lc;
       ConfigName := ConfigName lc;
       ConfigNameWithSuffix := ConfigNameWithSuffix lc |}) config)).

Definition setPluginRunner (config : ptr) (v : option ptr) : M unit :=
  modify (set_configs (alter (λ lc,
    {| Context_ := Context_ lc; PluginRunner := v;
       ConfigName := ConfigName lc;
       ConfigNameWithSuffix := ConfigNameWithSuffix lc |}) config)).

(** Lines 197-231: the type switch on the runner and the five loops. *)
Definition breakRunnerCycle (runner : option ptr) : M unit := λ st,
  match runner with
  | Some r =>
      match runners st !! r with
      | Some (pluginv1Runner f) | Some (pluginv2Runner f) =>
          Ok tt (set_runners (alter clearRunner r)
                   (set_plugins
                      (λ h, clearPlugins (FlusherPlugins f)
                              (clearPlugins (AggregatorPlugins f)
                                 (clearPlugins (ProcessorPlugins f)
                                    (clearPlugins (ServicePlugins f)
                                       (clearPlugins (MetricPlugins f) h))))) st))
      | _ => Ok tt st
      end
  | None => Ok tt st
  end.

Definition DeleteLogstoreConfig (config : ptr) (removedFlag : bool) : M unit :=
  lc ← deref config;
  (* 193-195 *)
  match Context_ lc with
  | Some x => modify (set_contexts (alter clearLogstoreC x))
  | None => ret tt
  end;;
  (* 196 *)
  setContext config None;;
  (* 197-231 *)
  breakRunnerCycle (PluginRunner lc);;
  (* 232-234 *)
  (if removedFlag then ret tt
   else modify (set_LastUnsendBuffer (<[ConfigName lc := PluginRunner lc]>)));;
  (* 235 *)
  setPluginRunner config None.

(** ** Collaborators outside this file *)

(** What [LogstoreConfig.Stop(removedFlag)] does when it is called on a
    pipeline: it returns after some nanoseconds, never returns, or panics.
    It does not touch the state modelled here. *)
Inductive StopBehaviour :=
| StopReturns (elapsed : Z)
| StopHangs
| StopPanics (elapsed : Z).

(** What [LogstoreConfig.Start()] does. *)
Inductive StartBehaviour :=
| StartReturns
| StartPanics.

(** [time.Second], a [time.Duration] in nanoseconds. *)
Definition Second : Z := 1000000000.

(** The deadline of the [select] in [timeoutStop], line 144. *)
Definition stopDeadline : Z := 30 * Second.

Definition get : M State := λ st, Ok st st.
Definition exit {A} : M A := λ _, Exit.
Definition block {A} : M A := λ _, Block.

(** The [error] result of the exported functions: [None] is [nil]. *)
Abbreviation error := (option string) (only parsing).

Section Manager.

(** Behaviour of the stop and start procedures of each pipeline. *)
Variable stopProc : ptr → bool → StopBehaviour.
Variable startProc : ptr → StartBehaviour.

(** The case that [select] picks when both channels are ready. *)
Variable selectPicksDone : bool.

(** The order in which [range] visits the entries of the registry. *)
Variable mapRange : gmap string ptr → list (string * ptr).

(** *** [timeoutStop], lines 121-147 *)

(** Lines 122-126: the goroutine is launched and enters [config.Stop]. *)
Definition spawnStop (config : ptr) (removedFlag : bool) : M nat :=
  go (GetRuntimeContext config;;
      logger (LogInfo "Stop config in goroutine begin"));;
  st ← get;
  modify (set_goroutines (λ l, (l ++ [mkGoroutine config removedFlag InStop])%list));;
  ret (length (goroutines st)).

Definition setPhase (p : GoPhase) (g : Goroutine) : Goroutine :=
  {| gConfig := gConfig g; gRemovedFlag := gRemovedFlag g; gPhase := p |}.

(** Line 127: [config.Stop] has returned and [done] is closed. *)
Definition closeDone (g : nat) : M unit :=
  modify (set_goroutines (alter (setPhase DoneClosed) g)).

(** Lines 128-139: the rest of the goroutine. *)
Definition reconcileDisabled (config : ptr) (removedFlag : bool) : M unit :=
  logger (LogInfo "Stop config in goroutine end");;
  st ← get;
  if decide (config ∈ DisabledLogtailConfig st) then
    deref config;;
    logger (LogInfo "Valid but slow stop config");;
    DeleteLogstoreConfig config removedFlag;;
    modify (set_Disabled (λ s, s ∖ {[config]}))
  else ret tt.

(** Lines 141-146: which case of the [select] is taken when [done] is
    closed [elapsed] nanoseconds after the launch. *)
Definition selectDone (elapsed : Z) : bool :=
  if decide (elapsed < stopDeadline)%Z then true
  else if decide (elapsed = stopDeadline)%Z then selectPicksDone
  else false.

Definition timeoutStop (config : ptr) (removedFlag : bool) : M bool :=
  g ← spawnStop config removedFlag;
  match stopProc config removedFlag with
  | StopReturns elapsed =>
      if selectDone elapsed then closeDone g;; ret true else ret false
  | StopHangs => ret false
  | StopPanics elapsed =>
      if decide (elapsed ≤ stopDeadline)%Z then exit else ret false
  end.

(** The goroutine number [g], left behind by a [timeoutStop] that has
    returned, runs to its end. *)
Definition finishGoroutine (g : nat) : M unit :=
  st ← get;
  match goroutines st !! g with
  | Some (mkGoroutine config removedFlag InStop) =>
      match stopProc config removedFlag with
      | StopReturns _ =>
          go (reconcileDisabled config removedFlag);;
          modify (set_goroutines (alter (setPhase Exited) g))
      | StopHangs => block
      | StopPanics _ => exit
      end
  | Some (mkGoroutine config removedFlag DoneClosed) =>
      go (reconcileDisabled config removedFlag);;
      modify (set_goroutines (alter (setPhase Exited) g))
  | _ => ret tt
  end.

(** *** [Stop], lines 273-298 *)

Definition errNotFound (configName : string) : string :=
  "config not found: " +:+ configName.

(** Lines 279-283. *)
Definition quarantine (config : ptr) : M unit :=
  GetRuntimeContext config;;
  logger (LogError "CONFIG_STOP_TIMEOUT_ALARM" "timeout when stop config, goroutine might leak");;
  modify (set_Disabled (λ s, {[config]} ∪ s)).

(** Lines 284-286. *)
Definition forget (configName : string) : M unit :=
  Lock;;
  modify (set_LogtailConfig (delete configName));;
  Unlock.

(** Lines 288-292. *)
Definition stopNow (configName : string) (config : ptr) (removedFlag : bool) : M unit :=
  GetRuntimeContext config;;
  logger (LogInfo "Stop config now");;
  Lock;;
  DeleteLogstoreConfig config removedFlag;;
  modify (set_LogtailConfig (delete configName));;
  Unlock.

Definition Stop (configName : string) (removedFlag : bool) : M error :=
  panicRecover "Run plugin" None (
    RLock;;
    st ← get;
    match LogtailConfig st !! configName with
    | Some config =>
        RUnlock;;
        hasStopped ← timeoutStop config removedFlag;
        if negb hasStopped : bool then
          quarantine config;;
          forget configName;;
          ret None
        else
          stopNow configName config removedFlag;;
          ret None
    | None =>
        RUnlock;;
        ret (Some (errNotFound configName))
    end).

(** *** [DeleteLogstoreConfigFromLogtailConfig], lines 238-245 *)

Definition DeleteLogstoreConfigFromLogtailConfig (configName : string) (removedFlag : bool) : M unit :=
  Lock;;
  st ← get;
  match LogtailConfig st !! configName with
  | Some config =>
      DeleteLogstoreConfig config removedFlag;;
      modify (set_LogtailConfig (delete configName))
  | None => ret tt
  end;;
  Unlock.

(** *** [Start], lines 301-327 *)

(** [slot != nil && slot.ConfigNameWithSuffix == configName] *)
Definition slotMatches (slot : option ptr) (configName : string) : M bool :=
  match slot with
  | None => ret false
  | Some p =>
      lc ← deref p;
      ret (bool_decide (ConfigNameWithSuffix lc = configName))
  end.

(** A use of one of the two package variables as a non-nil pointer. *)
Definition derefSlot (slot : State → option ptr) : M (ptr * LogstoreConfig) :=
  st ← get;
  match slot st with
  | Some p => lc ← deref p; ret (p, lc)
  | None => panic
  end.

(** [slot.Start()] *)
Definition startPipeline (slot : State → option ptr) : M unit :=
  pl ← derefSlot slot;
  match startProc pl.1 with
  | StartReturns => ret tt
  | StartPanics => panic
  end.

(** Lines 305-308 and 312-315. *)
Definition promote (slot : State → option ptr) (clear : State → State) : M unit :=
  Lock;;
  pl ← derefSlot slot;
  modify (set_LogtailConfig (<[ConfigNameWithSuffix pl.2 := pl.1]>));;
  Unlock;;
  modify clear.

(** Lines 319-326. *)
Definition errUnmatch (configName : string) : M string :=
  st ← get;
  loaded1 ← match ToStartPipelineConfigWithInput st with
            | Some p => lc ← deref p; ret (ConfigNameWithSuffix lc)
            | None => ret EmptyString
            end;
  loaded2 ← match ToStartPipelineConfigWithoutInput st with
            | Some p => lc ← deref p; ret (loaded1 +:+ " " +:+ ConfigNameWithSuffix lc)
            | None => ret loaded1
            end;
  ret ("config unmatch with the loaded pipeline: given " +:+ configName
         +:+ ", expect " +:+ loaded2).

Definition Start (configName : string) : M error :=
  panicRecover "Run plugin" None (
    st ← get;
    withInput ← slotMatches (ToStartPipelineConfigWithInput st) configName;
    if withInput : bool then
      startPipeline ToStartPipelineConfigWithInput;;
      promote ToStartPipelineConfigWithInput (set_ToStartWithInput None);;
      ret None
    else
      withoutInput ← slotMatches (ToStartPipelineConfigWithoutInput st) configName;
      if withoutInput : bool then
        startPipeline ToStartPipelineConfigWithoutInput;;
        promote ToStartPipelineConfigWithoutInput (set_ToStartWithoutInput None);;
        ret None
      else
        msg ← errUnmatch configName;
        ret (Some msg)).

(** *** [StopAllPipelines], lines 152-190 *)

(** Lines 157-168. *)
Definition needStop (withInput : bool) (config : ptr) : M bool :=
  lc ← deref config;
  st ← get;
  match PluginRunner lc with
  | Some r =>
      match runners st !! r with
      | Some o =>
          ret (if withInput then IsWithInputPlugin o else negb (IsWithInputPlugin o))
      | None => panic
      end
  | None => panic
  end.

(** Lines 170-181, for one entry that needs to be stopped. *)
Definition stopEntry (config : ptr) : M unit :=
  GetRuntimeContext config;;
  logger (LogInfo "Stop config");;
  hasStopped ← timeoutStop config true;
  if negb hasStopped then quarantine config
  else DeleteLogstoreConfig config true.

(** Lines 156-184: the loop over the registry. *)
Fixpoint stopAllLoop (withInput : bool) (entries : list (string * ptr))
    (toDeleteConfigNames : gset string) : M (gset string) :=
  match entries with
  | [] => ret toDeleteConfigNames
  | (configName, logstoreConfig) :: rest =>
      b ← needStop withInput logstoreConfig;
      if b : bool then
        stopEntry logstoreConfig;;
        stopAllLoop withInput rest ({[configName]} ∪ toDeleteConfigNames)
      else stopAllLoop withInput rest toDeleteConfigNames
  end.

(** Lines 185-187. *)
Definition deleteNames (toDeleteConfigNames : gset string) : M unit :=
  modify (set_LogtailConfig (λ m, foldr delete m (elements toDeleteConfigNames))).

Definition StopAllPipelines (withInput : bool) : M error :=
  panicRecover "Run plugin" None (
    Lock;;
    st ← get;
    toDelete ← stopAllLoop withInput (mapRange (LogtailConfig st)) ∅;
    deleteNames toDelete;;
    Unlock;;
    ret None).

End Manager.

(** ** The lifecycle as a step relation

    The exported functions are called by concurrent clients.  A call in
    progress is a [Thread]: a program point of [Stop], [StopAllPipelines],
    [Start] or [DeleteLogstoreConfigFromLogtailConfig] together with its
    local variables.  One step of a thread is one critical section of one
    of the two locks, or one statement outside a critical section: for an
    [if] the evaluation of its condition, for a call of [timeoutStop] the
    [go] statement and then the [select].  [StopAllPipelines] holds the
    registry lock from line 154 to line 188; its steps are the statements in
    between, since the pipeline objects and the disabled set are not
    protected by that lock. *)

Inductive Thread :=
(* Stop *)
| StopCalled (configName : string) (removedFlag : bool)                 (* line 275 *)
| StopLaunch (configName : string) (removedFlag : bool) (config : ptr)  (* lines 278, 123 *)
| StopSelect (configName : string) (removedFlag : bool) (config : ptr) (g : nat) (* line 141 *)
| StopTimedOut (configName : string) (config : ptr)                     (* line 279 *)
| StopDisable (configName : string) (config : ptr)                      (* line 281 *)
| StopQuarantined (configName : string) (config : ptr)                  (* line 284 *)
| StopInTime (configName : string) (removedFlag : bool) (config : ptr)  (* line 288 *)
| StopDelete (configName : string) (removedFlag : bool) (config : ptr)  (* line 289 *)
(* StopAllPipelines, with the entries still to visit and the names collected *)
| StopAllCalled (withInput : bool)                                      (* line 154 *)
| StopAllLoop (withInput : bool) (entries : list (string * ptr))
    (toDeleteConfigNames : gset string)                                 (* line 156 *)
| StopAllEntry (withInput : bool) (configName : string) (config : ptr)
    (entries : list (string * ptr)) (toDeleteConfigNames : gset string) (* line 170 *)
| StopAllLaunch (withInput : bool) (configName : string) (config : ptr)
    (entries : list (string * ptr)) (toDeleteConfigNames : gset string) (* lines 171, 123 *)
| StopAllSelect (withInput : bool) (configName : string) (config : ptr) (g : nat)
    (entries : list (string * ptr)) (toDeleteConfigNames : gset string) (* line 141 *)
| StopAllTimedOut (withInput : bool) (configName : string) (config : ptr)
    (entries : list (string * ptr)) (toDeleteConfigNames : gset string) (* line 173 *)
| StopAllDisable (withInput : bool) (configName : string) (config : ptr)
    (entries : list (string * ptr)) (toDeleteConfigNames : gset string) (* line 176 *)
| StopAllInTime (withInput : bool) (configName : string) (config : ptr)
    (entries : list (string * ptr)) (toDeleteConfigNames : gset string) (* line 180 *)
(* Start *)
| StartCalled (configName : string)                                     (* line 303 *)
| StartElse (configName : string)                                       (* line 310 *)
| StartMatched (withInput : bool)                                       (* lines 304, 311 *)
| StartPromote (withInput : bool)                                       (* lines 305, 312 *)
| StartInserted (withInput : bool)                                      (* lines 308, 315 *)
| StartExpect (configName : string)                                     (* line 320 *)
| StartExpectRead (configName : string)                                 (* line 321 *)
| StartExpect2 (configName : string) (loadedConfigName : string)        (* line 323 *)
| StartExpect2Read (configName : string) (loadedConfigName : string)    (* line 324 *)
(* DeleteLogstoreConfigFromLogtailConfig *)
| DeleteCalled (configName : string) (removedFlag : bool)               (* line 239 *)
(* the call is over *)
| Returned (err : error)
| Recovered (at_ : Thread)   (* returned by [panicRecover], from program point [at_] *)
| Unwound.                   (* left by a panic that nothing in this file recovers *)

Record Machine := mkMachine {
  globals : State;
  threads : list Thread
}.

(** The two staging slots, by the kind of pipeline they hold. *)
Definition slotOf (withInput : bool) (st : State) : option ptr :=
  if withInput then ToStartPipelineConfigWithInput st
  else ToStartPipelineConfigWithoutInput st.

Definition setSlot (withInput : bool) (v : option ptr) (st : State) : State :=
  if withInput then set_ToStartWithInput v st else set_ToStartWithoutInput v st.

(** Line 326. *)
Definition unmatchError (configName loadedConfigName : string) : string :=
  "config unmatch with the loaded pipeline: given " +:+ configName
    +:+ ", expect " +:+ loadedConfigName.

Section Lifecycle.

Variable stopProc : ptr → bool → StopBehaviour.
Variable startProc : ptr → StartBehaviour.
Variable mapRange : gmap string ptr → list (string * ptr).

(** The [select] of [timeoutStop] as seen by the waiting caller: the
    deadline may pass at any moment; the other case needs [done] closed. *)
Definition awaitDone {A} (deadlinePassed : bool) (g : nat) (onTimeout onDone : A) : M A :=
  if deadlinePassed then ret onTimeout
  else
    st ← get;
    match gPhase <$> goroutines st !! g with
    | Some DoneClosed | Some Exited => ret onDone
    | _ => block
    end.

(** The code between two program points. *)
Definition threadStep (deadlinePassed : bool) (t : Thread) : M Thread :=
  match t with
  (* Stop: 275-277 or 275-276, 296-297 *)
  | StopCalled configName removedFlag =>
      RLock;;
      st ← get;
      match LogtailConfig st !! configName with
      | Some config =>
          RUnlock;;
          ret (StopLaunch configName removedFlag config)
      | None =>
          RUnlock;;
          ret (Returned (Some (errNotFound configName)))
      end
  (* 122-125 *)
  | StopLaunch configName removedFlag config =>
      g ← spawnStop config removedFlag;
      ret (StopSelect configName removedFlag config g)
  (* 141-146 *)
  | StopSelect configName removedFlag config g =>
      awaitDone deadlinePassed g
        (StopTimedOut configName config) (StopInTime configName removedFlag config)
  (* 279-280 *)
  | StopTimedOut configName config =>
      GetRuntimeContext config;;
      logger (LogError "CONFIG_STOP_TIMEOUT_ALARM" "timeout when stop config, goroutine might leak");;
      ret (StopDisable configName config)
  (* 281-283 *)
  | StopDisable configName config =>
      modify (set_Disabled (λ s, {[config]} ∪ s));;
      ret (StopQuarantined configName config)
  (* 284-286, 294 *)
  | StopQuarantined configName config =>
      forget configName;;
      ret (Returned None)
  (* 288 *)
  | StopInTime configName removedFlag config =>
      GetRuntimeContext config;;
      logger (LogInfo "Stop config now");;
      ret (StopDelete configName removedFlag config)
  (* 289-292, 294 *)
  | StopDelete configName removedFlag config =>
      Lock;;
      DeleteLogstoreConfig config removedFlag;;
      modify (set_LogtailConfig (delete configName));;
      Unlock;;
      ret (Returned None)
  (* StopAllPipelines: 154-156 *)
  | StopAllCalled withInput =>
      Lock;;
      st ← get;
      ret (StopAllLoop withInput (mapRange (LogtailConfig st)) ∅)
  (* 185-189 *)
  | StopAllLoop withInput [] toDelete =>
      deleteNames toDelete;;
      Unlock;;
      ret (Returned None)
  (* 156-169 *)
  | StopAllLoop withInput ((configName, config) :: rest) toDelete =>
      b ← needStop withInput config;
      ret (if b : bool then StopAllEntry withInput configName config rest toDelete
           else StopAllLoop withInput rest toDelete)
  (* 170 *)
  | StopAllEntry withInput configName config rest toDelete =>
      GetRuntimeContext config;;
      logger (LogInfo "Stop config");;
      ret (StopAllLaunch withInput configName config rest toDelete)
  (* 171, 122-125 *)
  | StopAllLaunch withInput configName config rest toDelete =>
      g ← spawnStop config true;
      ret (StopAllSelect withInput configName config g rest toDelete)
  (* 141-146 *)
  | StopAllSelect withInput configName config g rest toDelete =>
      awaitDone deadlinePassed g
        (StopAllTimedOut withInput configName config rest toDelete)
        (StopAllInTime withInput configName config rest toDelete)
  (* 173-174 *)
  | StopAllTimedOut withInput configName config rest toDelete =>
      GetRuntimeContext config;;
      logger (LogError "CONFIG_STOP_TIMEOUT_ALARM" "timeout when stop config, goroutine might leak");;
      ret (StopAllDisable withInput configName config rest toDelete)
  (* 176-178, 182 *)
  | StopAllDisable withInput configName config rest toDelete =>
      modify (set_Disabled (λ s, {[config]} ∪ s));;
      ret (StopAllLoop withInput rest ({[configName]} ∪ toDelete))
  (* 180, 182 *)
  | StopAllInTime withInput configName config rest toDelete =>
      DeleteLogstoreConfig config true;;
      ret (StopAllLoop withInput rest ({[configName]} ∪ toDelete))
  (* Start: 303 *)
  | StartCalled configName =>
      st ← get;
      withInput ← slotMatches (ToStartPipelineConfigWithInput st) configName;
      ret (if withInput : bool then StartMatched true else StartElse configName)
  (* 310 *)
  | StartElse configName =>
      st ← get;
      withoutInput ← slotMatches (ToStartPipelineConfigWithoutInput st) configName;
      ret (if withoutInput : bool then StartMatched false else StartExpect configName)
  (* 304, 311 *)
  | StartMatched withInput =>
      startPipeline startProc (slotOf withInput);;
      ret (StartPromote withInput)
  (* 305-307, 312-314 *)
  | StartPromote withInput =>
      Lock;;
      pl ← derefSlot (slotOf withInput);
      modify (set_LogtailConfig (<[ConfigNameWithSuffix pl.2 := pl.1]>));;
      Unlock;;
      ret (StartInserted withInput)
  (* 308-309, 315-316 *)
  | StartInserted withInput =>
      modify (setSlot withInput None);;
      ret (Returned None)
  (* 319-320 *)
  | StartExpect configName =>
      st ← get;
      ret (match ToStartPipelineConfigWithInput st with
           | Some _ => StartExpectRead configName
           | None => StartExpect2 configName EmptyString
           end)
  (* 321 *)
  | StartExpectRead configName =>
      pl ← derefSlot ToStartPipelineConfigWithInput;
      ret (StartExpect2 configName (ConfigNameWithSuffix pl.2))
  (* 323, 326 *)
  | StartExpect2 configName loaded =>
      st ← get;
      ret (match ToStartPipelineConfigWithoutInput st with
           | Some _ => StartExpect2Read configName loaded
           | None => Returned (Some (unmatchError configName loaded))
           end)
  (* 324, 326 *)
  | StartExpect2Read configName loaded =>
      pl ← derefSlot ToStartPipelineConfigWithoutInput;
      ret (Returned (Some (unmatchError configName
                             (loaded +:+ " " +:+ ConfigNameWithSuffix pl.2))))
  (* 239-245 *)
  | DeleteCalled configName removedFlag =>
      DeleteLogstoreConfigFromLogtailConfig configName removedFlag;;
      ret (Returned None)
  | Returned _ | Recovered _ | Unwound => block
  end.

(** [Start], [Stop] and [StopAllPipelines] defer [panicRecover];
    [DeleteLogstoreConfigFromLogtailConfig] does not. *)
Definition threadRun (deadlinePassed : bool) (t : Thread) : M Thread :=
  match t with
  | DeleteCalled _ _ => λ st,
      match threadStep deadlinePassed t st with
      | Panic st' => Ok Unwound st'
      | r => r
      end
  | _ => panicRecover "Run plugin" (Recovered t) (threadStep deadlinePassed t)
  end.

(** A call of an exported function begins. *)
Definition isCall (t : Thread) : bool :=
  match t with
  | StopCalled _ _ | StopAllCalled _ | StartCalled _ | DeleteCalled _ _ => true
  | _ => false
  end.

(** The goroutine [g] returns from [config.Stop] and closes [done]. *)
Definition stopReturns (g : nat) : M unit :=
  st ← get;
  match goroutines st !! g with
  | Some (mkGoroutine config removedFlag InStop) =>
      match stopProc config removedFlag with
      | StopReturns _ => closeDone g
      | StopHangs => block
      | StopPanics _ => exit
      end
  | _ => block
  end.

(** The goroutine [g] runs lines 128-139 and ends. *)
Definition goroutineEnds (g : nat) : M unit :=
  st ← get;
  match goroutines st !! g with
  | Some (mkGoroutine config removedFlag DoneClosed) =>
      go (reconcileDisabled config removedFlag);;
      modify (set_goroutines (alter (setPhase Exited) g))
  | _ => block
  end.

(** Modelled from the spec: the configuration loader, which is not in this
    file, "builds a new pipeline object and places it into a staging
    slot".  The object [p] is new: nothing is allocated at [p] yet.  The
    loader also allocates the context, the runner and the plugin
    instances of the pipeline. *)
Definition stage (withInput : bool) (p : ptr) (lc : LogstoreConfig)
    (ctxs : gmap ptr ContextObj) (rnrs : gmap ptr RunnerObj)
    (plgs : gmap ptr PluginWrapper) (st : State) : State :=
  (if withInput then set_ToStartWithInput (Some p) else set_ToStartWithoutInput (Some p))
    (set_plugins (λ h, h ∪ plgs)
       (set_runners (λ h, h ∪ rnrs)
          (set_contexts (λ h, h ∪ ctxs)
             (set_configs (<[p := lc]>) st)))).

(** What can happen next: a client calls an exported function, the call
    number [i] takes its next step, a goroutine takes one of its two steps,
    or the loader stages a pipeline. *)
Inductive Action :=
| Call (t : Thread)
| Run (i : nat) (deadlinePassed : bool)
| StopReturnsIn (g : nat)
| GoroutineEnds (g : nat)
| Stage (withInput : bool) (p : ptr) (lc : LogstoreConfig)
    (ctxs : gmap ptr ContextObj) (rnrs : gmap ptr RunnerObj)
    (plgs : gmap ptr PluginWrapper).

Inductive step : Action → Machine → Machine → Prop :=
| step_call m t :
    isCall t = true →
    step (Call t) m (mkMachine (globals m) (threads m ++ [t]))
| step_thread m i t deadlinePassed t' st' :
    threads m !! i = Some t →
    threadRun deadlinePassed t (globals m) = Ok t' st' →
    step (Run i deadlinePassed) m (mkMachine st' (<[i := t']> (threads m)))
| step_stop_returns m g st' :
    stopReturns g (globals m) = Ok tt st' →
    step (StopReturnsIn g) m (mkMachine st' (threads m))
| step_goroutine_ends m g st' :
    goroutineEnds g (globals m) = Ok tt st' →
    step (GoroutineEnds g) m (mkMachine st' (threads m))
| step_stage m withInput p lc ctxs rnrs plgs :
    configs (globals m) !! p = None →
    step (Stage withInput p lc ctxs rnrs plgs) m
      (mkMachine (stage withInput p lc ctxs rnrs plgs (globals m)) (threads m)).

(** Package initialisation: empty maps, nothing staged, no call running. *)
Definition initState : State :=
  mkState ∅ ∅ ∅ ∅ false ∅ None None ∅ ∅ [] [].

Definition initMachine : Machine := mkMachine initState [].

(** Reachable by any interleaving of the clients, the goroutines and the
    loader. *)
Definition next (m1 m2 : Machine) : Prop := ∃ a, step a m1 m2.

Definition reachable (m : Machine) : Prop := rtc next initMachine m.

(** A call of [Start] is in progress. *)
Definition inStart (t : Thread) : bool :=
  match t with
  | StartCalled _ | StartElse _ | StartMatched _ | StartPromote _ | StartInserted _
  | StartExpect _ | StartExpectRead _ | StartExpect2 _ _ | StartExpect2Read _ _ => true
  | _ => false
  end.

Definition startIdle (m : Machine) : bool :=
  forallb (λ t, negb (inStart t)) (threads m).

(** The actions of the reload path: staging a pipeline and calling
    [Start]. *)
Definition reloads (a : Action) : bool :=
  match a with
  | Call t => inStart t
  | Stage _ _ _ _ _ _ => true
  | _ => false
  end.

(** Modelled from the spec: "Config loader produces ready pipeline objects
    and places them into the two staging slots before calling
    [Start(name)]".  The reload path is one sequence of stagings and
    [Start] calls: it stages a pipeline, or calls [Start], only when no
    [Start] call is in progress.  The calls of [Stop], [StopAllPipelines]
    and [DeleteLogstoreConfigFromLogtailConfig] and the goroutines
    interleave with it, and with one another, in every way. *)
Definition inTurn (a : Action) (m : Machine) : Prop :=
  reloads a = true → startIdle m = true.

Definition nextInTurn (m1 m2 : Machine) : Prop :=
  ∃ a, step a m1 m2 ∧ inTurn a m1.

Definition serial (m : Machine) : Prop := rtc nextInTurn initMachine m.

(** The thread is inside [Stop] or [StopAllPipelines], has put a pipeline
    registered as [configName] into the disabled set, or torn it down, and
    has not yet run the deletion of [configName] from the registry that
    follows. *)
Definition deletionPending (t : Thread) (configName : string) : Prop :=
  match t with
  | StopQuarantined n _ => n = configName
  | StopAllLoop _ _ toDelete
  | StopAllEntry _ _ _ _ toDelete
  | StopAllLaunch _ _ _ _ toDelete
  | StopAllSelect _ _ _ _ _ toDelete
  | StopAllTimedOut _ _ _ _ toDelete
  | StopAllDisable _ _ _ _ toDelete
  | StopAllInTime _ _ _ _ toDelete => configName ∈ toDelete
  | _ => False
  end.


(** The deletion of [configName] is pending, or was pending when a
    recovered panic ended the call. *)
Definition owes (t : Thread) (configName : string) : Prop :=
  match t with
  | Recovered t0 => deletionPending t0 configName
  | _ => deletionPending t configName
  end.

End Lifecycle.

(** ** Notions used in the statements *)

(** A pipeline object after teardown. *)
Definition tornDown (lc : LogstoreConfig) : LogstoreConfig :=
  {| Context_ := None; PluginRunner := None;
     ConfigName := ConfigName lc;
     ConfigNameWithSuffix := ConfigNameWithSuffix lc |}.

(** The state after the teardown of the pipeline [lc] stored at [config]. *)
Definition tornState (config : ptr) (lc : LogstoreConfig) (removedFlag : bool)
    (st : State) : State :=
  mkState
    (<[config := tornDown lc]> (configs st))
    (match Context_ lc with
     | Some x => alter clearLogstoreC x (contexts st)
     | None => contexts st
     end)
    (match PluginRunner lc with
     | Some r => alter clearRunner r (runners st)
     | None => runners st
     end)
    (match PluginRunner lc ≫= (runners st !!.) with
     | Some o => clearPlugins (runnerPlugins o) (plugins st)
     | None => plugins st
     end)
    (LogtailConfigLock st) (LogtailConfig st)
    (ToStartPipelineConfigWithInput st) (ToStartPipelineConfigWithoutInput st)
    (DisabledLogtailConfig st)
    (if removedFlag then LastUnsendBuffer st
     else <[ConfigName lc := PluginRunner lc]> (LastUnsendBuffer st))
    (goroutines st) (logs st).

(** The pipeline [config] is registered, under some name. *)
Definition registered (st : State) (config : ptr) : Prop :=
  ∃ n, LogtailConfig st !! n = Some config.

(** The plugin instance [p] has a nil back-reference. *)
Definition backRefNil (st : State) (p : ptr) : Prop :=
  ∀ w, plugins st !! p = Some w → Config w = None.

(** The pipeline still has its context and a runner that exists. *)
Definition live (st : State) (config : ptr) : Prop :=
  ∃ lc x r o, configs st !! config = Some lc ∧ Context_ lc = Some x
    ∧ PluginRunner lc = Some r ∧ runners st !! r = Some o.

(** [IsWithInputPlugin()] of the runner of the pipeline [config]. *)
Definition reportsWithInput (st : State) (config : ptr) : option bool :=
  lc ← configs st !! config;
  r ← PluginRunner lc;
  o ← runners st !! r;
  Some (IsWithInputPlugin o).

(** The stop procedure does not come back before the deadline. *)
Definition exceedsDeadline (b : StopBehaviour) : Prop :=
  match b with
  | StopReturns elapsed | StopPanics elapsed => (stopDeadline < elapsed)%Z
  | StopHangs => True
  end.

(** The staging slot holds a pipeline whose name with suffix is [n]. *)
Definition slotNamed (st : State) (slot : option ptr) (n : string) : Prop :=
  ∃ p lc, slot = Some p ∧ configs st !! p = Some lc ∧ ConfigNameWithSuffix lc = n.

(** A staging slot is nil or points to a pipeline object. *)
Definition slotValid (st : State) (slot : option ptr) : Prop :=
  ∀ p, slot = Some p → is_Some (configs st !! p).

(** The name with suffix of the object at [config]. *)
Definition cname (st : State) (config : ptr) : option string :=
  ConfigNameWithSuffix <$> configs st !! config.

(** The registry entries a thread has in its local variables. *)
Definition threadPipelines (t : Thread) : list (string * ptr) :=
  match t with
  | StopLaunch n _ c | StopSelect n _ c _ | StopTimedOut n c | StopDisable n c
  | StopQuarantined n c | StopInTime n _ c | StopDelete n _ c => [(n, c)]
  | StopAllLoop _ es _ => es
  | StopAllEntry _ n c es _ | StopAllLaunch _ n c es _ | StopAllSelect _ n c _ es _
  | StopAllTimedOut _ n c es _ | StopAllDisable _ n c es _
  | StopAllInTime _ n c es _ => (n, c) :: es
  | _ => []
  end.

(** The slot that a [Start] call has promoted and not yet cleared. *)
Definition inserted (t : Thread) : option bool :=
  match t with
  | StartInserted withInput => Some withInput
  | _ => None
  end.

(** The pipeline is in no registry entry, not in the disabled set and in
    no local variable of a call. *)
Definition untouched (m : Machine) (p : ptr) : Prop :=
  (∀ n, LogtailConfig (globals m) !! n ≠ Some p)
  ∧ (p ∉ DisabledLogtailConfig (globals m))
  ∧ (∀ t n, t ∈ threads m → ¬ (n, p) ∈ threadPipelines t).

(** The invariant of the runs with a sequential reload path. *)
Record Inv (m : Machine) : Prop := mkInv {
  inv_registry : ∀ n c,
    LogtailConfig (globals m) !! n = Some c → cname (globals m) c = Some n;
  inv_threads : ∀ t n c,
    t ∈ threads m → (n, c) ∈ threadPipelines t → cname (globals m) c = Some n;
  inv_disabled : ∀ c,
    c ∈ DisabledLogtailConfig (globals m) → is_Some (cname (globals m) c);
  inv_turn : ∀ i j ti tj,
    threads m !! i = Some ti → threads m !! j = Some tj →
    inStart ti = true → inStart tj = true → i = j;
  inv_staged : ∀ withInput p, slotOf withInput (globals m) = Some p →
    is_Some (cname (globals m) p)
    ∧ (StartInserted withInput ∈ threads m ∨ untouched m p);
  inv_slots : ∀ p,
    ToStartPipelineConfigWithInput (globals m) = Some p →
    ToStartPipelineConfigWithoutInput (globals m) ≠ Some p;
  inv_window : ∀ n c,
    LogtailConfig (globals m) !! n = Some c →
    c ∈ DisabledLogtailConfig (globals m) →
    ∃ t, t ∈ threads m ∧ owes t n
}.

(** A pipeline with a generation-1 runner and three plugin instances,
    registered as "p/1", and a second one without input plugins, registered
    as "q/1". *)
Definition demoRunner1 : RunnerObj :=
  pluginv1Runner (mkRunnerFields [10%positive] [11%positive] [] [] [12%positive]
                    (Some 1%positive) true).

Definition demoRunner2 : RunnerObj :=
  pluginv2Runner (mkRunnerFields [] [] [20%positive] [] [21%positive]
                    (Some 4%positive) false).

Definition demoState : State :=
  mkState
    {[ 1%positive := mkLogstoreConfig (Some 3%positive) (Some 2%positive) "p" "p/1";
       4%positive := mkLogstoreConfig (Some 6%positive) (Some 5%positive) "q" "q/1" ]}
    {[ 3%positive := ContextImp (Some 1%positive);
       6%positive := ContextImp (Some 4%positive) ]}
    {[ 2%positive := demoRunner1; 5%positive := demoRunner2 ]}
    {[ 10%positive := mkPluginWrapper (Some 1%positive);
       11%positive := mkPluginWrapper (Some 1%positive);
       12%positive := mkPluginWrapper (Some 1%positive);
       20%positive := mkPluginWrapper (Some 4%positive);
       21%positive := mkPluginWrapper (Some 4%positive) ]}
    false
    {[ "p/1" := 1%positive; "q/1" := 4%positive ]}
    None None ∅ ∅ [] [].

(** Both staging slots hold a pipeline named "r/1". *)
Definition demoStaged : State :=
  mkState
    {[ 7%positive := mkLogstoreConfig (Some 3%positive) (Some 2%positive) "r" "r/1";
       8%positive := mkLogstoreConfig (Some 6%positive) (Some 5%positive) "r" "r/1" ]}
    {[ 3%positive := ContextImp (Some 7%positive);
       6%positive := ContextImp (Some 8%positive) ]}
    {[ 2%positive := demoRunner1; 5%positive := demoRunner2 ]}
    ∅ false ∅ (Some 7%positive) (Some 8%positive) ∅ ∅ [] [].

(** Stop procedures that return after 5 seconds, after 31 seconds, or panic
    after 5 seconds. *)
Definition stopsQuickly : ptr → bool → StopBehaviour :=
  λ _ _, StopReturns (5 * Second).
Definition stopsSlowly : ptr → bool → StopBehaviour :=
  λ _ _, StopReturns (31 * Second).
Definition stopPanics : ptr → bool → StopBehaviour :=
  λ _ _, StopPanics (5 * Second).
Definition startsFine : ptr → StartBehaviour := λ _, StartReturns.

(** The stop procedure panics while the caller of [timeoutStop] still
    waits in the [select]. *)
Definition panicsInTime (b : StopBehaviour) : Prop :=
  match b with
  | StopPanics elapsed => (elapsed ≤ stopDeadline)%Z
  | _ => False
  end.

(** The state right after the launch of the stop goroutine. *)
Definition spawned (config : ptr) (removedFlag : bool) (st : State) : State :=
  set_goroutines (λ l, (l ++ [mkGoroutine config removedFlag InStop])%list)
    (add_log (LogInfo "Stop config in goroutine begin") st).

(** What the visits of the loop of [StopAllPipelines] leave alone: the
    registry, its lock, the answers of the runners, and every pipeline
    object that was not visited. *)
Definition keeps (visited : ptr → Prop) (st st' : State) : Prop :=
  LogtailConfig st' = LogtailConfig st
  ∧ LogtailConfigLock st' = LogtailConfigLock st
  ∧ (∀ r, IsWithInputPlugin <$> runners st' !! r = IsWithInputPlugin <$> runners st !! r)
  ∧ (∀ c, ¬ visited c → configs st' !! c = configs st !! c).

(** No pipeline object changed its name. *)
Definition sameNames (st st' : State) : Prop := ∀ c, cname st' c = cname st c.

(** The step left the registry, the disabled set and the slots alone. *)
Definition steady (st st' : State) : Prop :=
  sameNames st st'
  ∧ LogtailConfig st' = LogtailConfig st
  ∧ DisabledLogtailConfig st' = DisabledLogtailConfig st
  ∧ ToStartPipelineConfigWithInput st' = ToStartPipelineConfigWithInput st
  ∧ ToStartPipelineConfigWithoutInput st' = ToStartPipelineConfigWithoutInput st.

(** What one step of a thread does to the registry, the disabled set and
    the slots: nothing, a quarantine, a deletion of names, the insertion of
    the pipeline of a slot, or the clearing of a slot. *)
Inductive effect (st : State) (t : Thread) (st' : State) (t' : Thread) : Prop :=
| eff_local :
    steady st st' →
    (∀ n c, (n, c) ∈ threadPipelines t' →
            (n, c) ∈ threadPipelines t ∨ LogtailConfig st !! n = Some c) →
    (∀ n, owes t n → owes t' n) →
    (inStart t' = true → inStart t = true) →
    inserted t = None → inserted t' = None →
    effect st t st' t'
| eff_quarantine n c :
    sameNames st st' →
    LogtailConfig st' = LogtailConfig st →
    DisabledLogtailConfig st' = {[c]} ∪ DisabledLogtailConfig st →
    ToStartPipelineConfigWithInput st' = ToStartPipelineConfigWithInput st →
    ToStartPipelineConfigWithoutInput st' = ToStartPipelineConfigWithoutInput st →
    (n, c) ∈ threadPipelines t →
    (∀ e, e ∈ threadPipelines t' → e ∈ threadPipelines t) →
    owes t' n →
    (∀ n', owes t n' → owes t' n') →
    inStart t' = false →
    inserted t = None →
    effect st t st' t'
| eff_delete (N : gset string) :
    sameNames st st' →
    (∀ n, LogtailConfig st' !! n = if decide (n ∈ N) then None else LogtailConfig st !! n) →
    DisabledLogtailConfig st' = DisabledLogtailConfig st →
    ToStartPipelineConfigWithInput st' = ToStartPipelineConfigWithInput st →
    ToStartPipelineConfigWithoutInput st' = ToStartPipelineConfigWithoutInput st →
    threadPipelines t' = [] →
    (∀ n, owes t n → n ∈ N) →
    inStart t' = false →
    inserted t = None →
    effect st t st' t'
| eff_insert withInput p lc :
    t = StartPromote withInput →
    t' = StartInserted withInput →
    slotOf withInput st = Some p →
    configs st !! p = Some lc →
    sameNames st st' →
    LogtailConfig st' = <[ConfigNameWithSuffix lc := p]> (LogtailConfig st) →
    DisabledLogtailConfig st' = DisabledLogtailConfig st →
    ToStartPipelineConfigWithInput st' = ToStartPipelineConfigWithInput st →
    ToStartPipelineConfigWithoutInput st' = ToStartPipelineConfigWithoutInput st →
    effect st t st' t'
| eff_clear withInput :
    t = StartInserted withInput →
    t' = Returned None →
    sameNames st st' →
    LogtailConfig st' = LogtailConfig st →
    DisabledLogtailConfig st' = DisabledLogtailConfig st →
    slotOf withInput st' = None →
    slotOf (negb withInput) st' = slotOf (negb withInput) st →
    effect st t st' t'.

(** The result that the caller of [Start], [Stop] or [StopAllPipelines]
    gets from a call that is over: after a recovered panic it is the zero
    value of [error]. *)
Definition callResult (t : Thread) : option error :=
  match t with
  | Returned e => Some e
  | Recovered _ => Some None
  | _ => None
  end.

(** The machine as a function, for concrete runs: [perform] does the
    action when it is enabled and nothing otherwise; [performInTurn] does
    it when, in addition, the reload path takes its turns. *)
Definition perform (stopProc : ptr → bool → StopBehaviour)
    (startProc : ptr → StartBehaviour)
    (mapRange : gmap string ptr → list (string * ptr))
    (a : Action) (m : Machine) : Machine :=
  match a with
  | Call t => if isCall t then mkMachine (globals m) (threads m ++ [t]) else m
  | Run i deadlinePassed =>
      match threads m !! i with
      | Some t =>
          match threadRun startProc mapRange deadlinePassed t (globals m) with
          | Ok t' st' => mkMachine st' (<[i := t']> (threads m))
          | _ => m
          end
      | None => m
      end
  | StopReturnsIn g =>
      match stopReturns stopProc g (globals m) with
      | Ok _ st' => mkMachine st' (threads m)
      | _ => m
      end
  | GoroutineEnds g =>
      match goroutineEnds g (globals m) with
      | Ok _ st' => mkMachine st' (threads m)
      | _ => m
      end
  | Stage withInput p lc ctxs rnrs plgs =>
      match configs (globals m) !! p with
      | None => mkMachine (stage withInput p lc ctxs rnrs plgs (globals m)) (threads m)
      | Some _ => m
      end
  end.

Definition performInTurn (stopProc : ptr → bool → StopBehaviour)
    (startProc : ptr → StartBehaviour)
    (mapRange : gmap string ptr → list (string * ptr))
    (a : Action) (m : Machine) : Machine :=
  if reloads a && negb (startIdle m) then m
  else perform stopProc startProc mapRange a m.

(** A run from the machine [m]: the actions in the order given. *)
Definition performAll (stopProc : ptr → bool → StopBehaviour)
    (startProc : ptr → StartBehaviour)
    (mapRange : gmap string ptr → list (string * ptr))
    (l : list Action) (m : Machine) : Machine :=
  foldl (λ m a, perform stopProc startProc mapRange a m) m l.

Definition performAllInTurn (stopProc : ptr → bool → StopBehaviour)
    (startProc : ptr → StartBehaviour)
    (mapRange : gmap string ptr → list (string * ptr))
    (l : list Action) (m : Machine) : Machine :=
  foldl (λ m a, performInTurn stopProc startProc mapRange a m) m l.

(** The first pipeline of [demoState]. *)
Definition demoPipeline : LogstoreConfig :=
  mkLogstoreConfig (Some 3%positive) (Some 2%positive) "p" "p/1".

(** [demoState] after [DeleteLogstoreConfig] of "p/1" with the removed flag
    unset. *)
Definition demoTornDown : State := tornState 1 demoPipeline false demoState.

(** [demoState] after a [Stop] of "p/1" that ran into the deadline. *)
Definition demoQuarantined : State :=
  match Stop stopsSlowly true "p/1" true demoState with
  | Ok _ st => st
  | _ => demoState
  end.

(** A run of the machine: the loader stages "p/1", [Start] promotes it, and
    a [Stop] of it passes the deadline and executes lines 279-283. *)
Definition stageDemoPipeline : Action :=
  Stage true 1 demoPipeline
    {[ 3%positive := ContextImp (Some 1%positive) ]}
    {[ 2%positive := demoRunner1 ]}
    {[ 10%positive := mkPluginWrapper (Some 1%positive);
       11%positive := mkPluginWrapper (Some 1%positive);
       12%positive := mkPluginWrapper (Some 1%positive) ]}.

Definition demoLoaded : Machine :=
  performInTurn stopsSlowly startsFine map_to_list stageDemoPipeline initMachine.

Definition demoStarted : Machine :=
  performAllInTurn stopsSlowly startsFine map_to_list
    [Call (StartCalled "p/1"); Run 0 false; Run 0 false; Run 0 false; Run 0 false]
    demoLoaded.

Definition demoWindow : Machine :=
  performAllInTurn stopsSlowly startsFine map_to_list
    [Call (StopCalled "p/1" true); Run 1 false; Run 1 false; Run 1 true;
     Run 1 false; Run 1 false]
    demoStarted.

(** A run in which two calls of [Start] overlap: the first has registered
    "p/1" (line 306) and not yet cleared the slot (line 308) when a [Stop]
    of "p/1" runs into the deadline and returns, and a second [Start] of
    "p/1" promotes the pipeline from the slot once more. *)
Definition demoOverlap : Machine :=
  performAll stopsSlowly startsFine map_to_list
    [Call (StartCalled "p/1"); Run 0 false; Run 0 false; Run 0 false;
     Call (StopCalled "p/1" true); Run 1 false; Run 1 false; Run 1 true;
     Run 1 false; Run 1 false; Run 1 false;
     Call (StartCalled "p/1"); Run 2 false; Run 2 false; Run 2 false;
     Run 0 false; Run 2 false]
    demoLoaded.

(** A run in which a recovered panic ends a call of [StopAllPipelines]:
    "p/1" and a pipeline "0/1" without a runner are started; the call
    visits "p/1" first, runs into the deadline and executes lines 173-178,
    and then panics on the nil runner of "0/1" (line 160). *)
Definition demoCutShort : Machine :=
  performAllInTurn stopsSlowly startsFine map_to_list
    [Stage true 9 (mkLogstoreConfig (Some 3%positive) None "0" "0/1") ∅ ∅ ∅;
     Call (StartCalled "0/1"); Run 1 false; Run 1 false; Run 1 false; Run 1 false;
     Call (StopAllCalled true); Run 2 false; Run 2 false; Run 2 false; Run 2 false;
     Run 2 true; Run 2 false; Run 2 false; Run 2 false]
    demoStarted.

(** [demoStaged] after [Start] of "r/1". *)
Definition demoPromoted : State :=
  set_ToStartWithInput None (set_LogtailConfig (<["r/1" := 7%positive]>) demoStaged).

(** Start procedures that panic. *)
Definition startPanics : ptr → StartBehaviour := λ _, StartPanics.

(** ** The built-in pipelines: [StopBuiltInModulesConfig], lines 247-270 *)

(** The package variables [AlarmConfig] and [ContainerConfig], beside the
    state of the manager. *)
Record Package := mkPackage {
  manager : State;
  AlarmConfig : option ptr;
  ContainerConfig : option ptr
}.

Definition set_manager (st : State) (pk : Package) : Package :=
  mkPackage st (AlarmConfig pk) (ContainerConfig pk).
Definition set_AlarmConfig (v : option ptr) (pk : Package) : Package :=
  mkPackage (manager pk) v (ContainerConfig pk).
Definition set_ContainerConfig (v : option ptr) (pk : Package) : Package :=
  mkPackage (manager pk) (AlarmConfig pk) v.

(** Result of running code that also uses the two variables. *)
Inductive Outcome (A : Type) : Type :=
| Done (a : A) (pk : Package)
| Panicked (pk : Package)   (* a panic that unwinds into the caller *)
| Ended                     (* the process terminates *)
| Hung.                     (* the code never comes back *)
Arguments Done {A} a pk.
Arguments Panicked {A} pk.
Arguments Ended {A}.
Arguments Hung {A}.

Definition PM (A : Type) : Type := Package → Outcome A.

#[global] Instance PM_ret : MRet PM := λ A a pk, Done a pk.

#[global] Instance PM_bind : MBind PM := λ A B k m pk,
  match m pk with
  | Done a pk' => k a pk'
  | Panicked pk' => Panicked pk'
  | Ended => Ended
  | Hung => Hung
  end.

(** Code of the manager, run on the manager's part of the package. *)
Definition liftM {A} (m : M A) : PM A := λ pk,
  match m (manager pk) with
  | Ok a st => Done a (set_manager st pk)
  | Panic st => Panicked (set_manager st pk)
  | Exit => Ended
  | Block => Hung
  end.

Definition getPackage : PM Package := λ pk, Done pk pk.
Definition modifyPackage (f : Package → Package) : PM unit := λ pk, Done tt (f pk).
Definition panicked {A} : PM A := λ pk, Panicked pk.

(** What a call into another package does: it returns, never returns, or
    panics.  It does not touch the state modelled here. *)
Inductive CallBehaviour :=
| CallReturns
| CallHangs
| CallPanics.

Definition call (b : CallBehaviour) : PM unit := λ pk,
  match b with
  | CallReturns => Done tt pk
  | CallHangs => Hung
  | CallPanics => Panicked pk
  end.

(** A direct call of [config.Stop(removedFlag)], on the caller's
    goroutine and with no deadline. *)
Definition callStop (b : StopBehaviour) : PM unit := λ pk,
  match b with
  | StopReturns _ => Done tt pk
  | StopHangs => Hung
  | StopPanics _ => Panicked pk
  end.

Section BuiltIn.

Variable stopProc : ptr → bool → StopBehaviour.

(** [*flags.ForceSelfCollect] *)
Variable ForceSelfCollect : bool.

(** [PluginRunner.RunPlugins(pluginMetricInput, control)] of a runner, and
    [control.WaitCancel()] after it. *)
Variable runPlugins : ptr → CallBehaviour.
Variable waitCancel : ptr → CallBehaviour.

(** [CheckPointManager.Stop()] *)
Variable checkpointStop : CallBehaviour.

(** Lines 250-256 and 260-266, for the pipeline [config] that the variable
    holds. *)
Definition stopBuiltIn (msg : string) (config : ptr) : PM unit :=
  (if ForceSelfCollect then
     liftM (logger (LogInfo msg));;
     lc ← liftM (deref config);
     match PluginRunner lc with
     | Some r => call (runPlugins r);; call (waitCancel r)
     | None => panicked
     end
   else mret tt);;
  callStop (stopProc config true).

Definition StopBuiltInModulesConfig : PM unit :=
  pk ← getPackage;
  match AlarmConfig pk with
  | Some config =>
      stopBuiltIn "force collect the alarm metrics" config;;
      modifyPackage (set_AlarmConfig None)
  | None => mret tt
  end;;
  pk ← getPackage;
  match ContainerConfig pk with
  | Some config =>
      stopBuiltIn "force collect the container metrics" config;;
      modifyPackage (set_ContainerConfig None)
  | None => mret tt
  end;;
  call checkpointStop.

End BuiltIn.

(** ** More demo states *)

(** [demoState] with a registry entry "z/1" that holds a nil pointer. *)
Definition demoNilEntry : State :=
  set_LogtailConfig (<["z/1" := 99%positive]>) demoState.

(** One registered pipeline, "z/1", whose runner is nil. *)
Definition demoNoRunner : State :=
  mkState {[ 9%positive := mkLogstoreConfig (Some 3%positive) None "z" "z/1" ]}
    {[ 3%positive := ContextImp (Some 9%positive) ]} ∅ ∅ false
    {[ "z/1" := 9%positive ]} None None ∅ ∅ [] [].

(** [demoState] with only the pipeline "q/1", which has no input plugins,
    registered. *)
Definition demoOnlyQ : State := set_LogtailConfig (delete "p/1") demoState.

(** [demoStaged] with the name "r/1" registered already, for the pipeline
    object 8. *)
Definition demoRestaged : State :=
  set_LogtailConfig (<["r/1" := 8%positive]>) demoStaged.

(** [demoState] after [StopAllPipelines] of the pipelines with input. *)
Definition demoStoppedAll : State :=
  match StopAllPipelines stopsQuickly true map_to_list true demoState with
  | Ok _ st => st
  | _ => demoState
  end.

(** A stop procedure that never returns. *)
Definition neverReturns : ptr → bool → StopBehaviour := λ _ _, StopHangs.

(** The two pipelines of [demoState] as the built-in pipelines. *)
Definition demoPackage : Package :=
  mkPackage demoState (Some 1%positive) (Some 4%positive).

(** ** Proof automation *)

Ltac msimpl :=
  repeat (progress (unfold mbind, M_bind, mret, M_ret, ret, modify, get, panic,
                      exit, block, logger, Lock, Unlock, RLock, RUnlock, deref;
                    simpl)).

Ltac msimpl_in H :=
  repeat (progress (unfold mbind, M_bind, mret, M_ret, ret, modify, get, panic,
                      exit, block, logger, Lock, Unlock, RLock, RUnlock, deref in H;
                    simpl in H)).

(** Run the code on the facts at hand. *)
Ltac mrun :=
  msimpl;
  repeat (match goal with
          | H : ?x = _ |- context [match ?x with _ => _ end] => rewrite H
          end; msimpl).

Ltac unfold_code_in H :=
  unfold quarantine, forget, stopNow, spawnStop, go, GetRuntimeContext, needStop,
    awaitDone, deleteNames, slotMatches, startPipeline, derefSlot, promote, errUnmatch,
    DeleteLogstoreConfigFromLogtailConfig, closeDone, reconcileDisabled in H.

(** Invert a run of the code: case analysis on what the code examines,
    innermost first; [teardown] is the inversion lemma of the teardown. *)
Ltac inv_step teardown H :=
  repeat (unfold_code_in H; msimpl_in H;
          match type of H with
          | context [DeleteLogstoreConfig ?c ?rf ?st] =>
              let E := fresh "E" in
              destruct (teardown c rf st _ eq_refl)
                as [(? & ? & E)|[? E]]; rewrite E in H; clear E
          | context [match ?x with _ => _ end] =>
              lazymatch x with
              | context [match _ with _ => _ end] => fail
              | _ => let E := fresh "E" in destruct x eqn:E
              end
          end);
  msimpl_in H; simplify_eq.

(** The names of the pipeline objects are as before: [same] and [torn] are
    the lemmas for an untouched heap and for a heap after a teardown. *)
Ltac names_tac same torn :=
  first [ apply same; reflexivity
        | eapply torn; [eassumption|reflexivity] ].

(** The registry entries held by a thread after a step were held before or
    were read from the registry. *)
Ltac pipes_tac :=
  simpl; intros;
  repeat match goal with
         | H : _ ∈ [] |- _ => by apply elem_of_nil in H
         | H : _ ∈ _ :: _ |- _ => apply elem_of_cons in H as [?|?]
         end; simplify_eq;
  first [ by left; set_solver | by right; eauto | set_solver ].

Ltac unfold_code :=
  unfold quarantine, forget, stopNow, spawnStop, go, GetRuntimeContext, needStop,
    awaitDone, deleteNames, slotMatches, startPipeline, derefSlot, promote, errUnmatch,
    DeleteLogstoreConfigFromLogtailConfig, closeDone, reconcileDisabled.

(** Evaluate one step of a thread, or of a goroutine, on the facts at
    hand; [teardown] is the lemma for the teardown of an allocated
    pipeline. *)
Ltac thread_run teardown :=
  unfold threadRun, panicRecover, threadStep;
  repeat (progress (unfold_code; mrun));
  rewrite ?list_lookup_alter_eq, ?lookup_app_r, ?Nat.sub_diag by done; mrun;
  try (erewrite teardown by (simpl; eassumption)); mrun;
  reflexivity.

Ltac goroutine_run :=
  unfold stopReturns; unfold_code; mrun;
  rewrite ?lookup_app_r, ?Nat.sub_diag by done; mrun; reflexivity.

(** One step of the only thread of a machine; [solo] is the lemma for
    such a step. *)
Ltac solo_run solo dp teardown :=
  eapply (solo dp); [thread_run teardown|].

(** Run code that uses the variables of the built-in pipelines. *)
Ltac psimpl :=
  repeat (progress (unfold mbind, PM_bind, mret, PM_ret, getPackage, modifyPackage,
                      panicked, call, callStop, liftM, logger, modify, deref;
                    simpl)).

(** Two facts about one lookup name the same value. *)
Ltac dedup :=
  repeat match goal with
         | H1 : ?a = Some ?x, H2 : ?a = Some ?y |- _ =>
             assert (y = x) by congruence; subst y; clear H2
         end.

(** ** Teardown *)

Lemma clearPlugins_app l1 l2 h :
  clearPlugins (l1 ++ l2)%list h = clearPlugins l2 (clearPlugins l1 h).
Proof. unfold clearPlugins. apply foldl_app. Qed.

Lemma clearPlugins_lookup l (h : gmap ptr PluginWrapper) p :
  clearPlugins l h !! p
  = if decide (p ∈ l) then clearPluginConfig <$> h !! p else h !! p.
Proof.
  revert h. induction l as [|x l IH]; intros h.
  - by rewrite decide_False by (by intros ?%elem_of_nil).
  - change (clearPlugins (x :: l) h)
      with (clearPlugins l (alter clearPluginConfig x h)).
    rewrite IH, lookup_alter.
    destruct (decide (x = p)) as [->|Hne].
    + rewrite (decide_True (P := p ∈ p :: l)) by apply list_elem_of_here.
      destruct (decide (p ∈ l)); [|done]. by destruct (h !! p).
    + destruct (decide (p ∈ l)) as [Hin|Hin].
      * by rewrite decide_True by by apply list_elem_of_further.
      * rewrite decide_False; [done|].
        intros [?|?]%elem_of_cons; congruence.
Qed.

Lemma alter_clearRunner_other r (h : gmap ptr RunnerObj) :
  (∀ f, h !! r ≠ Some (pluginv1Runner f)) →
  (∀ f, h !! r ≠ Some (pluginv2Runner f)) →
  alter clearRunner r h = h.
Proof.
  intros H1 H2. apply map_eq. intros i. rewrite lookup_alter.
  destruct (decide (r = i)) as [<-|]; [|done].
  destruct (h !! r) as [[f|f|b]|] eqn:E; simpl; try done.
  - by destruct (H1 f).
  - by destruct (H2 f).
Qed.

Lemma alter_torn c lc (h : gmap ptr LogstoreConfig) :
  h !! c = Some lc →
  alter (λ lc0, {| Context_ := Context_ lc0; PluginRunner := None;
                   ConfigName := ConfigName lc0;
                   ConfigNameWithSuffix := ConfigNameWithSuffix lc0 |}) c
    (alter (λ lc0, {| Context_ := None; PluginRunner := PluginRunner lc0;
                      ConfigName := ConfigName lc0;
                      ConfigNameWithSuffix := ConfigNameWithSuffix lc0 |}) c h)
  = <[c := tornDown lc]> h.
Proof.
  intros Hc. apply map_eq. intros i.
  rewrite !lookup_alter, lookup_insert.
  destruct (decide (c = i)) as [<-|]; [|done].
  rewrite decide_True by done. by rewrite Hc.
Qed.

(** The teardown of an allocated pipeline returns, in the state [tornState]. *)
Lemma DeleteLogstoreConfig_ok c rf st lc :
  configs st !! c = Some lc →
  DeleteLogstoreConfig c rf st = Ok tt (tornState c lc rf st).
Proof.
  intros Hc.
  unfold DeleteLogstoreConfig, deref, setContext, setPluginRunner, breakRunnerCycle, tornState.
  msimpl. rewrite Hc.
  destruct (Context_ lc) as [x|]; simpl;
    (destruct (PluginRunner lc) as [r|]; simpl;
     [destruct (runners st !! r) as [[f|f|b]|] eqn:Hr; simpl|]);
    destruct rf; simpl; f_equal;
    unfold set_configs, set_contexts, set_runners, set_plugins, set_LastUnsendBuffer; simpl;
    f_equal;
    try (by apply alter_torn); try done;
    rewrite ?clearPlugins_app; try done;
    symmetry; apply alter_clearRunner_other; congruence.
Qed.

(** The teardown through a nil pointer panics at line 193. *)
Lemma DeleteLogstoreConfig_nil c rf st :
  configs st !! c = None → DeleteLogstoreConfig c rf st = Panic st.
Proof.
  intros Hc. unfold DeleteLogstoreConfig, deref. msimpl. by rewrite Hc.
Qed.

Lemma DeleteLogstoreConfig_inv c rf st r :
  DeleteLogstoreConfig c rf st = r →
  (∃ lc, configs st !! c = Some lc ∧ r = Ok tt (tornState c lc rf st))
  ∨ (configs st !! c = None ∧ r = Panic st).
Proof.
  intros <-. destruct (configs st !! c) as [lc|] eqn:Hc.
  - left. exists lc. split; [done|]. by apply DeleteLogstoreConfig_ok.
  - right. split; [done|]. by apply DeleteLogstoreConfig_nil.
Qed.


Example DeleteLogstoreConfig_demo :
  DeleteLogstoreConfig 1 false demoState = Ok tt demoTornDown
  ∧ configs demoTornDown !! 1%positive = Some (mkLogstoreConfig None None "p" "p/1")
  ∧ plugins demoTornDown !! 10%positive = Some (mkPluginWrapper None)
  ∧ plugins demoTornDown !! 20%positive = Some (mkPluginWrapper (Some 4%positive))
  ∧ LastUnsendBuffer demoTornDown !! "p" = Some (Some 2%positive).
Proof. split; [by apply DeleteLogstoreConfig_ok|]. by vm_compute. Qed.

(** C4, as the spec states it, fails: the second teardown with the removed
    flag unset stores the pipeline's runner reference, which is nil by
    then, into the last-unsent-buffer map, over the runner that the first
    teardown preserved there. *)
Lemma DeleteLogstoreConfig_overwrites_buffer :
  DeleteLogstoreConfig 1 false demoState = Ok tt demoTornDown
  ∧ LastUnsendBuffer demoTornDown !! "p" = Some (Some 2%positive)
  ∧ DeleteLogstoreConfig 1 false demoTornDown
    = Ok tt (set_LastUnsendBuffer (<["p" := None]>) demoTornDown)
  ∧ LastUnsendBuffer (set_LastUnsendBuffer (<["p" := None]>) demoTornDown) !! "p"
    = Some None
  ∧ DeleteLogstoreConfig 1 false demoTornDown ≠ Ok tt demoTornDown.
Proof.
  assert (H2 : DeleteLogstoreConfig 1 false demoTornDown
               = Ok tt (set_LastUnsendBuffer (<["p" := None]>) demoTornDown)).
  { erewrite DeleteLogstoreConfig_ok by (by vm_compute). by vm_compute. }
  split; [by apply DeleteLogstoreConfig_ok|].
  split; [by vm_compute|]. split; [done|]. split; [by vm_compute|].
  rewrite H2. intros H.
  assert (H' := f_equal (λ r, match r with
                              | Ok _ st => LastUnsendBuffer st !! "p"
                              | _ => None
                              end) H).
  vm_compute in H'. discriminate.
Qed.

(** C4, amended: a second teardown of a torn-down pipeline, with any flags,
    returns without panic and leaves the whole state as it is (pipeline,
    context, runner, plugin instances, registry, disabled set), except that
    with the removed flag unset it sets the entry of the pipeline's name in
    the last-unsent-buffer map to the nil runner. *)
Theorem DeleteLogstoreConfig_again st c rf1 rf2 st1 :
  DeleteLogstoreConfig c rf1 st = Ok tt st1 →
  ∃ lc, configs st1 !! c = Some lc
    ∧ DeleteLogstoreConfig c rf2 st1
      = Ok tt (if rf2 then st1
               else set_LastUnsendBuffer (<[ConfigName lc := None]>) st1).
Proof.
  intros H1.
  destruct (configs st !! c) as [lc|] eqn:Hc.
  2: { rewrite DeleteLogstoreConfig_nil in H1 by done. discriminate. }
  rewrite (DeleteLogstoreConfig_ok _ _ _ lc) in H1 by done.
  injection H1 as <-.
  exists (tornDown lc). split.
  { simpl. apply lookup_insert_eq. }
  rewrite (DeleteLogstoreConfig_ok _ _ _ (tornDown lc)) by (simpl; apply lookup_insert_eq).
  f_equal. unfold tornState at 1. simpl.
  rewrite insert_insert_eq.
  destruct rf2; simpl; reflexivity.
Qed.

Lemma DeleteLogstoreConfig_again_witness :
  ∃ lc, configs demoTornDown !! 1%positive = Some lc
    ∧ DeleteLogstoreConfig 1 true demoTornDown = Ok tt demoTornDown.
Proof.
  apply (DeleteLogstoreConfig_again demoState 1 false true demoTornDown).
  by apply DeleteLogstoreConfig_ok.
Defined.

(** ** The deadline-bound stop *)

Lemma GetRuntimeContext_Ok c st lc :
  configs st !! c = Some lc → is_Some (Context_ lc) →
  GetRuntimeContext c st = Ok tt st.
Proof.
  intros Hc [x Hx]. unfold GetRuntimeContext. mrun. done.
Qed.

Lemma bind_Ok {A B} (m : M A) (k : A → M B) st a st' :
  m st = Ok a st' → (m ≫= k) st = k a st'.
Proof. intros H. unfold mbind, M_bind. by rewrite H. Qed.

Section StopProofs.

Variable stopProc : ptr → bool → StopBehaviour.
Variable selectPicksDone : bool.

Lemma spawnStop_Ok c rf st lc :
  configs st !! c = Some lc → is_Some (Context_ lc) →
  spawnStop c rf st = Ok (length (goroutines st)) (spawned c rf st).
Proof.
  intros Hc [x Hx]. unfold spawnStop, go, GetRuntimeContext. mrun. done.
Qed.

Lemma timeoutStop_false c rf st lc :
  configs st !! c = Some lc → is_Some (Context_ lc) →
  exceedsDeadline (stopProc c rf) →
  timeoutStop stopProc selectPicksDone c rf st = Ok false (spawned c rf st).
Proof.
  intros Hc Hx Hslow. unfold timeoutStop.
  erewrite bind_Ok by eauto using spawnStop_Ok.
  unfold exceedsDeadline in Hslow.
  destruct (stopProc c rf) as [d| |d]; try done.
  - unfold selectDone. rewrite !decide_False by lia. done.
  - rewrite decide_False by lia. done.
Qed.

Lemma timeoutStop_true c rf st lc d :
  configs st !! c = Some lc → is_Some (Context_ lc) →
  stopProc c rf = StopReturns d → (d < stopDeadline)%Z →
  timeoutStop stopProc selectPicksDone c rf st
  = Ok true (set_goroutines (alter (setPhase DoneClosed) (length (goroutines st)))
               (spawned c rf st)).
Proof.
  intros Hc Hx Hd Hlt. unfold timeoutStop.
  erewrite bind_Ok by eauto using spawnStop_Ok.
  rewrite Hd. unfold selectDone. rewrite decide_True by done. done.
Qed.

(** What [timeoutStop] answers, against the time the stop procedure takes. *)
Lemma timeoutStop_answer c rf st b st1 :
  timeoutStop stopProc selectPicksDone c rf st = Ok b st1 →
  (exceedsDeadline (stopProc c rf) → b = false)
  ∧ (b = false → ∀ d, stopProc c rf = StopReturns d → (stopDeadline ≤ d)%Z)
  ∧ (b = true → ∃ d, stopProc c rf = StopReturns d ∧ (d ≤ stopDeadline)%Z).
Proof.
  unfold timeoutStop, closeDone. intros H.
  unfold mbind at 1, M_bind at 1 in H.
  destruct (spawnStop c rf st) as [g st0| | |]; try done.
  unfold exceedsDeadline, selectDone in *.
  destruct (stopProc c rf) as [d| |d].
  - destruct (decide (d < stopDeadline)%Z);
      [|destruct (decide (d = stopDeadline)); [destruct selectPicksDone|]];
      msimpl_in H; simplify_eq.
    all: split; [intros ?; first [done|lia]|].
    all: split; [intros ? d' [= <-]; first [done|lia]|].
    all: intros ?; first [done|eexists; split; [done|lia]].
  - msimpl_in H. simplify_eq. split; [done|]. split; [done|]. done.
  - destruct (decide (d ≤ stopDeadline)%Z); msimpl_in H; simplify_eq.
    split; [done|]. split; [done|]. done.
Qed.

(** C6: [Stop] of a name that is not registered returns the error
    "config not found: <name>" and changes nothing at all: not the
    registry, not the disabled set, not the last-unsent-buffer map. *)
Theorem Stop_not_found st configName removedFlag :
  LogtailConfigLock st = false →
  LogtailConfig st !! configName = None →
  Stop stopProc selectPicksDone configName removedFlag st
  = Ok (Some ("config not found: " +:+ configName)) st.
Proof.
  intros Hl Hn. unfold Stop, panicRecover. mrun. done.
Qed.

Lemma Stop_found st configName removedFlag c :
  LogtailConfigLock st = false →
  LogtailConfig st !! configName = Some c →
  Stop stopProc selectPicksDone configName removedFlag st
  = panicRecover "Run plugin" None
      (hasStopped ← timeoutStop stopProc selectPicksDone c removedFlag;
       if negb hasStopped : bool then
         quarantine c;; forget configName;; ret None
       else stopNow configName c removedFlag;; ret None) st.
Proof.
  intros Hl Hn. unfold Stop, panicRecover, RLock, RUnlock.
  unfold mbind at 1 2 3, M_bind at 1 2 3; unfold get. simpl. rewrite Hl, Hn.
  reflexivity.
Qed.

(** C1: when the stop procedure of a registered pipeline exceeds the 30
    second deadline, [Stop] returns nil, the name is gone from the registry
    (and with it the pipeline), the pipeline is in the disabled set and the
    timeout alarm is logged.  [timeoutStop] answers false when the stop
    procedure exceeds the deadline, and answers false only if the stop
    procedure did not return before the deadline; it answers true only if
    it returned within the deadline. *)
Theorem Stop_timed_out st configName removedFlag c lc :
  LogtailConfigLock st = false →
  LogtailConfig st !! configName = Some c →
  configs st !! c = Some lc → is_Some (Context_ lc) →
  (∀ b st1, timeoutStop stopProc selectPicksDone c removedFlag st = Ok b st1 →
     (exceedsDeadline (stopProc c removedFlag) → b = false)
     ∧ (b = false → ∀ d, stopProc c removedFlag = StopReturns d → (stopDeadline ≤ d)%Z)
     ∧ (b = true → ∃ d, stopProc c removedFlag = StopReturns d ∧ (d ≤ stopDeadline)%Z))
  ∧ (exceedsDeadline (stopProc c removedFlag) →
     ∃ st', Stop stopProc selectPicksDone configName removedFlag st = Ok None st'
       ∧ LogtailConfig st' = delete configName (LogtailConfig st)
       ∧ ((∀ n, LogtailConfig st !! n = Some c → n = configName) → ¬ registered st' c)
       ∧ DisabledLogtailConfig st' = {[c]} ∪ DisabledLogtailConfig st
       ∧ LogError "CONFIG_STOP_TIMEOUT_ALARM"
           "timeout when stop config, goroutine might leak" ∈ logs st').
Proof.
  intros Hl Hn Hc Hx. split; [apply timeoutStop_answer|]. intros Hslow.
  rewrite (Stop_found _ _ _ c) by done.
  unfold panicRecover.
  erewrite bind_Ok by eauto using timeoutStop_false. simpl.
  destruct Hx as [x Hx].
  unfold quarantine, forget, GetRuntimeContext. mrun.
  eexists. split; [reflexivity|]. simpl. split; [done|]. split; [|split; [done|]].
  - intros Honly [n Hn']. simpl in Hn'. apply lookup_delete_Some in Hn' as [Hne Hn'].
    apply Honly in Hn'. done.
  - rewrite !elem_of_app. right. apply list_elem_of_here.
Qed.

(** C2: when the stop procedure of a registered pipeline returns before the
    deadline, then after [Stop] the pipeline is not in the registry, not in
    the disabled set, its context and runner references are nil, and the
    back-reference of every plugin instance of its runner is nil. *)
Theorem Stop_in_time st configName removedFlag c lc elapsed :
  LogtailConfigLock st = false →
  LogtailConfig st !! configName = Some c →
  c ∉ DisabledLogtailConfig st →
  configs st !! c = Some lc → is_Some (Context_ lc) →
  stopProc c removedFlag = StopReturns elapsed → (elapsed < stopDeadline)%Z →
  ∃ st', Stop stopProc selectPicksDone configName removedFlag st = Ok None st'
    ∧ LogtailConfig st' = delete configName (LogtailConfig st)
    ∧ ((∀ n, LogtailConfig st !! n = Some c → n = configName) → ¬ registered st' c)
    ∧ (c ∉ DisabledLogtailConfig st')
    ∧ configs st' !! c = Some (tornDown lc)
    ∧ (∀ r o p, PluginRunner lc = Some r → runners st !! r = Some o →
                p ∈ runnerPlugins o → backRefNil st' p).
Proof.
  intros Hl Hn Hd Hc Hx Hret Hlt.
  rewrite (Stop_found _ _ _ c) by done.
  unfold panicRecover.
  erewrite bind_Ok by eauto using timeoutStop_true. simpl.
  destruct Hx as [x Hx].
  unfold stopNow, GetRuntimeContext. mrun.
  erewrite DeleteLogstoreConfig_ok by (simpl; exact Hc). simpl.
  eexists. split; [reflexivity|]. simpl. split; [done|].
  split; [|split; [done|split; [apply lookup_insert_eq|]]].
  - intros Honly [n Hn']. simpl in Hn'. apply lookup_delete_Some in Hn' as [Hne Hn'].
    apply Honly in Hn'. done.
  - intros r o p Hr Ho Hp w. simpl. rewrite Hr. simpl. rewrite Ho.
    rewrite clearPlugins_lookup, decide_True by done.
    destruct (plugins st !! p); simpl; [|done]. by intros [= <-].
Qed.

(** A panic of the stop procedure is raised on the goroutine that
    [timeoutStop] launched, where nothing recovers it: while the caller
    still waits in the [select], the process terminates and [Stop] does
    not return. *)
Lemma Stop_panic_exits st configName removedFlag c lc elapsed :
  LogtailConfigLock st = false →
  LogtailConfig st !! configName = Some c →
  configs st !! c = Some lc → is_Some (Context_ lc) →
  stopProc c removedFlag = StopPanics elapsed → (elapsed ≤ stopDeadline)%Z →
  Stop stopProc selectPicksDone configName removedFlag st = Exit.
Proof.
  intros Hl Hn Hc Hx Hp Hle.
  rewrite (Stop_found _ _ _ c) by done.
  unfold panicRecover, timeoutStop.
  unfold mbind at 1, M_bind at 1.
  unfold mbind at 1, M_bind at 1.
  erewrite spawnStop_Ok by done. rewrite Hp, decide_True by done. done.
Qed.

End StopProofs.

Lemma Stop_not_found_witness :
  Stop stopsQuickly true "r/1" false demoState
  = Ok (Some "config not found: r/1") demoState.
Proof. apply (Stop_not_found stopsQuickly true demoState "r/1" false); by vm_compute. Defined.

Lemma Stop_timed_out_witness :
  ∃ st', Stop stopsSlowly true "p/1" false demoState = Ok None st'
    ∧ LogtailConfig st' = delete "p/1" (LogtailConfig demoState)
    ∧ ((∀ n, LogtailConfig demoState !! n = Some 1%positive → n = "p/1") →
       ¬ registered st' 1)
    ∧ DisabledLogtailConfig st' = {[1%positive]} ∪ DisabledLogtailConfig demoState
    ∧ LogError "CONFIG_STOP_TIMEOUT_ALARM"
        "timeout when stop config, goroutine might leak" ∈ logs st'.
Proof.
  apply (Stop_timed_out stopsSlowly true demoState "p/1" false 1 demoPipeline);
    first [by vm_compute | by eexists].
Defined.

Lemma Stop_in_time_witness :
  ∃ st', Stop stopsQuickly true "p/1" false demoState = Ok None st'
    ∧ LogtailConfig st' = delete "p/1" (LogtailConfig demoState)
    ∧ ((∀ n, LogtailConfig demoState !! n = Some 1%positive → n = "p/1") →
       ¬ registered st' 1)
    ∧ (1%positive ∉ DisabledLogtailConfig st')
    ∧ configs st' !! 1%positive = Some (tornDown demoPipeline)
    ∧ (∀ r o p, PluginRunner demoPipeline = Some r → runners demoState !! r = Some o →
                p ∈ runnerPlugins o → backRefNil st' p).
Proof.
  apply (Stop_in_time stopsQuickly true demoState "p/1" false 1 demoPipeline (5 * Second));
    first [by vm_compute | by eexists].
Defined.

(** C5 fails on the code: the stop procedure of "p/1" panics 5 seconds
    after the launch, on the goroutine of [timeoutStop]; the deferred
    [panicRecover] of [Stop] and [StopAllPipelines] runs on the caller's
    goroutine and never sees the panic, so the process terminates instead
    of the call returning. *)
Theorem stop_panic_ends_process :
  Stop stopPanics true "p/1" true demoState = Exit
  ∧ StopAllPipelines stopPanics true map_to_list true demoState = Exit.
Proof. split; by vm_compute. Qed.

(** ** The background stop task *)

Section GoroutineProofs.

Variable stopProc : ptr → bool → StopBehaviour.


End GoroutineProofs.

Example Stop_leaves_goroutine :
  Stop stopsSlowly true "p/1" true demoState = Ok None demoQuarantined
  ∧ goroutines demoQuarantined !! 0 = Some (mkGoroutine 1 true InStop)
  ∧ 1%positive ∈ DisabledLogtailConfig demoQuarantined
  ∧ LogtailConfig demoQuarantined !! "p/1" = None
  ∧ configs demoQuarantined !! 1%positive = Some demoPipeline.
Proof.
  repeat split; by vm_compute.
Qed.


(** ** Promotion of a staged pipeline *)

Lemma add_log_neq r st st' : logs st' = logs st → st' ≠ add_log r st.
Proof.
  intros H ->. simpl in H. apply (f_equal length) in H.
  rewrite length_app in H. simpl in H. lia.
Qed.

Lemma slotNamed_dec st slot n : Decision (slotNamed st slot n).
Proof.
  destruct slot as [p|]; [|right; by intros (?&?&?&?)].
  destruct (configs st !! p) as [lc|] eqn:E; [|right].
  - destruct (decide (ConfigNameWithSuffix lc = n)); [left|right].
    + by exists p, lc.
    + intros (?&?&?&?&?). naive_solver.
  - intros (?&?&?&?&?). naive_solver.
Qed.

Section StartProofs.

Variable startProc : ptr → StartBehaviour.

(** [Start] of the name of the pipeline in the with-input slot. *)
Lemma Start_with_input st configName p1 lc1 :
  ToStartPipelineConfigWithInput st = Some p1 →
  configs st !! p1 = Some lc1 → ConfigNameWithSuffix lc1 = configName →
  Start startProc configName st
  = match startProc p1 with
    | StartReturns =>
        if LogtailConfigLock st then Block
        else Ok None (set_ToStartWithInput None
                        (set_lock false (set_LogtailConfig (<[configName := p1]>)
                           (set_lock true st))))
    | StartPanics => Ok None (add_log (LogError "PLUGIN_RUNTIME_ALARM" "Run plugin") st)
    end.
Proof.
  intros H1 Hc1 Hn1.
  assert (Hb : bool_decide (ConfigNameWithSuffix lc1 = configName) = true)
    by by apply bool_decide_eq_true_2.
  unfold Start, panicRecover, slotMatches, startPipeline, promote, derefSlot.
  mrun. destruct (startProc p1); mrun; [|done].
  destruct (LogtailConfigLock st); mrun; [done|]. by rewrite Hn1.
Qed.

(** [Start] of the name of the pipeline in the without-input slot, when
    the with-input slot does not have that name. *)
Lemma Start_without_input st configName p2 lc2 :
  ¬ slotNamed st (ToStartPipelineConfigWithInput st) configName →
  slotValid st (ToStartPipelineConfigWithInput st) →
  ToStartPipelineConfigWithoutInput st = Some p2 →
  configs st !! p2 = Some lc2 → ConfigNameWithSuffix lc2 = configName →
  Start startProc configName st
  = match startProc p2 with
    | StartReturns =>
        if LogtailConfigLock st then Block
        else Ok None (set_ToStartWithoutInput None
                        (set_lock false (set_LogtailConfig (<[configName := p2]>)
                           (set_lock true st))))
    | StartPanics => Ok None (add_log (LogError "PLUGIN_RUNTIME_ALARM" "Run plugin") st)
    end.
Proof.
  intros Hn Hv H2 Hc2 Hn2.
  assert (Hb : bool_decide (ConfigNameWithSuffix lc2 = configName) = true)
    by by apply bool_decide_eq_true_2.
  unfold Start, panicRecover, slotMatches, startPipeline, promote, derefSlot.
  destruct (ToStartPipelineConfigWithInput st) as [p1|] eqn:H1.
  - destruct (Hv p1 eq_refl) as [lc1 Hc1].
    assert (Hb1 : bool_decide (ConfigNameWithSuffix lc1 = configName) = false).
    { apply bool_decide_eq_false_2. intros ?. apply Hn. by exists p1, lc1. }
    mrun. destruct (startProc p2); mrun; [|done].
    destruct (LogtailConfigLock st); mrun; [done|]. by rewrite Hn2.
  - mrun. destruct (startProc p2); mrun; [|done].
    destruct (LogtailConfigLock st); mrun; [done|]. by rewrite Hn2.
Qed.

(** [Start] of a name that neither staged pipeline has. *)
Lemma Start_unmatched st configName :
  slotValid st (ToStartPipelineConfigWithInput st) →
  slotValid st (ToStartPipelineConfigWithoutInput st) →
  ¬ slotNamed st (ToStartPipelineConfigWithInput st) configName →
  ¬ slotNamed st (ToStartPipelineConfigWithoutInput st) configName →
  ∃ msg, Start startProc configName st = Ok (Some msg) st.
Proof.
  intros Hv1 Hv2 Hn1 Hn2.
  unfold Start, panicRecover, slotMatches, errUnmatch.
  destruct (ToStartPipelineConfigWithInput st) as [p1|] eqn:H1;
    destruct (ToStartPipelineConfigWithoutInput st) as [p2|] eqn:H2.
  all: try (destruct (Hv1 p1 eq_refl) as [lc1 Hc1];
    assert (Hb1 : bool_decide (ConfigNameWithSuffix lc1 = configName) = false)
      by (apply bool_decide_eq_false_2; intros ?; apply Hn1; by exists p1, lc1)).
  all: try (destruct (Hv2 p2 eq_refl) as [lc2 Hc2];
    assert (Hb2 : bool_decide (ConfigNameWithSuffix lc2 = configName) = false)
      by (apply bool_decide_eq_false_2; intros ?; apply Hn2; by exists p2, lc2)).
  all: mrun; eauto.
Qed.

(** [Start] with a staging slot that points to no pipeline object examines
    it, panics, and [panicRecover] turns that into a nil result. *)
Lemma Start_invalid_slot st configName p :
  (ToStartPipelineConfigWithInput st = Some p
   ∨ (ToStartPipelineConfigWithoutInput st = Some p
      ∧ ¬ slotNamed st (ToStartPipelineConfigWithInput st) configName
      ∧ slotValid st (ToStartPipelineConfigWithInput st))) →
  configs st !! p = None →
  Start startProc configName st
  = Ok None (add_log (LogError "PLUGIN_RUNTIME_ALARM" "Run plugin") st).
Proof.
  intros [H1|(H2 & Hn & Hv)] Hc.
  - unfold Start, panicRecover, slotMatches. mrun. done.
  - unfold Start, panicRecover, slotMatches.
    destruct (ToStartPipelineConfigWithInput st) as [p1|] eqn:H1.
    + destruct (Hv p1 eq_refl) as [lc1 Hc1].
      assert (Hb1 : bool_decide (ConfigNameWithSuffix lc1 = configName) = false).
      { apply bool_decide_eq_false_2. intros ?. apply Hn. by exists p1, lc1. }
      mrun. done.
    + mrun. done.
Qed.

(** C10: when both slots hold a pipeline of the requested name, [Start]
    returns nil, registers the pipeline of the with-input slot under that
    name, clears that slot only, and the without-input slot still holds its
    pipeline, of the same name. *)
Theorem Start_prefers_with_input st configName p1 p2 lc1 lc2 :
  LogtailConfigLock st = false →
  ToStartPipelineConfigWithInput st = Some p1 →
  ToStartPipelineConfigWithoutInput st = Some p2 →
  configs st !! p1 = Some lc1 → ConfigNameWithSuffix lc1 = configName →
  configs st !! p2 = Some lc2 → ConfigNameWithSuffix lc2 = configName →
  startProc p1 = StartReturns →
  ∃ st', Start startProc configName st = Ok None st'
    ∧ LogtailConfig st' = <[configName := p1]> (LogtailConfig st)
    ∧ ToStartPipelineConfigWithInput st' = None
    ∧ ToStartPipelineConfigWithoutInput st' = Some p2
    ∧ slotNamed st' (ToStartPipelineConfigWithoutInput st') configName.
Proof.
  intros Hl H1 H2 Hc1 Hn1 Hc2 Hn2 Hs.
  rewrite (Start_with_input _ _ p1 lc1) by done. rewrite Hs, Hl.
  eexists. split; [done|]. simpl. repeat split; try done.
  exists p2, lc2. done.
Qed.

(** C7, amended: if [Start] returns nil without having logged a recovered
    panic, the name is in the registry and the with-input slot does not
    hold a pipeline of that name; the without-input slot does not either,
    unless both slots held a pipeline of that name, in which case it is
    left as it was.  If both slots are nil or valid and neither holds a
    pipeline of that name, [Start] returns an error and changes nothing. *)
Theorem Start_outcome st configName :
  (∀ st', Start startProc configName st = Ok None st' → logs st' = logs st →
     is_Some (LogtailConfig st' !! configName)
     ∧ ¬ slotNamed st' (ToStartPipelineConfigWithInput st') configName
     ∧ (¬ slotNamed st' (ToStartPipelineConfigWithoutInput st') configName
        ∨ (slotNamed st (ToStartPipelineConfigWithInput st) configName
           ∧ slotNamed st (ToStartPipelineConfigWithoutInput st) configName
           ∧ ToStartPipelineConfigWithoutInput st'
             = ToStartPipelineConfigWithoutInput st)))
  ∧ (slotValid st (ToStartPipelineConfigWithInput st) →
     slotValid st (ToStartPipelineConfigWithoutInput st) →
     ¬ slotNamed st (ToStartPipelineConfigWithInput st) configName →
     ¬ slotNamed st (ToStartPipelineConfigWithoutInput st) configName →
     ∃ msg, Start startProc configName st = Ok (Some msg) st).
Proof.
  split; [|apply Start_unmatched].
  intros st' HS Hlog.
  assert (Hnolog : st' ≠ add_log (LogError "PLUGIN_RUNTIME_ALARM" "Run plugin") st)
    by by apply add_log_neq.
  destruct (slotNamed_dec st (ToStartPipelineConfigWithInput st) configName)
    as [(p1 & lc1 & H1 & Hc1 & Hn1)|Hno1].
  { rewrite (Start_with_input _ _ p1 lc1) in HS by done.
    destruct (startProc p1); [|congruence].
    destruct (LogtailConfigLock st); [done|]. injection HS as <-. simpl.
    rewrite lookup_insert_eq. split; [done|]. split; [by intros (?&?&?&?)|].
    destruct (slotNamed_dec st (ToStartPipelineConfigWithoutInput st) configName)
      as [Hy|Hno2]; [right|left; done].
    split; [|done]. by exists p1, lc1. }
  assert (Hv1 : slotValid st (ToStartPipelineConfigWithInput st)).
  { intros p Hp. destruct (configs st !! p) eqn:Hc; [done|].
    rewrite (Start_invalid_slot _ _ p) in HS by auto. congruence. }
  destruct (slotNamed_dec st (ToStartPipelineConfigWithoutInput st) configName)
    as [(p2 & lc2 & H2 & Hc2 & Hn2)|Hno2].
  { rewrite (Start_without_input _ _ p2 lc2) in HS by done.
    destruct (startProc p2); [|congruence].
    destruct (LogtailConfigLock st); [done|]. injection HS as <-. simpl.
    rewrite lookup_insert_eq. split; [done|]. split; [done|].
    left. by intros (?&?&?&?). }
  assert (Hv2 : slotValid st (ToStartPipelineConfigWithoutInput st)).
  { intros p Hp. destruct (configs st !! p) eqn:Hc; [done|].
    rewrite (Start_invalid_slot _ _ p) in HS by auto. congruence. }
  destruct (Start_unmatched st configName) as [msg Hmsg]; try done.
  congruence.
Qed.

End StartProofs.

Example Start_demo :
  Start startsFine "r/1" demoStaged = Ok None demoPromoted
  ∧ LogtailConfig demoPromoted !! "r/1" = Some 7%positive
  ∧ ToStartPipelineConfigWithInput demoPromoted = None.
Proof. repeat split; by vm_compute. Qed.

(** C7, as the spec states it, fails: with a pipeline named "r/1" in both
    slots, [Start] of "r/1" succeeds and the name is still in the
    without-input slot. *)
Lemma Start_leaves_without_input_slot :
  Start startsFine "r/1" demoStaged = Ok None demoPromoted
  ∧ is_Some (LogtailConfig demoPromoted !! "r/1")
  ∧ slotNamed demoPromoted (ToStartPipelineConfigWithoutInput demoPromoted) "r/1".
Proof.
  split; [by vm_compute|]. split; [vm_compute; by eexists|].
  exists 8%positive, (mkLogstoreConfig (Some 6%positive) (Some 5%positive) "r" "r/1").
  repeat split; by vm_compute.
Qed.

(** A second way in which [Start] returns nil: the start procedure of the
    staged pipeline panics, [panicRecover] logs it, and nothing is
    registered. *)
Lemma Start_recovers_panic :
  Start startPanics "r/1" demoStaged
  = Ok None (add_log (LogError "PLUGIN_RUNTIME_ALARM" "Run plugin") demoStaged)
  ∧ LogtailConfig (add_log (LogError "PLUGIN_RUNTIME_ALARM" "Run plugin") demoStaged)
      !! "r/1" = None.
Proof. split; by vm_compute. Qed.

Lemma Start_prefers_with_input_witness :
  ∃ st', Start startsFine "r/1" demoStaged = Ok None st'
    ∧ LogtailConfig st' = <["r/1" := 7%positive]> (LogtailConfig demoStaged)
    ∧ ToStartPipelineConfigWithInput st' = None
    ∧ ToStartPipelineConfigWithoutInput st' = Some 8%positive
    ∧ slotNamed st' (ToStartPipelineConfigWithoutInput st') "r/1".
Proof.
  apply (Start_prefers_with_input startsFine demoStaged "r/1" 7 8
           (mkLogstoreConfig (Some 3%positive) (Some 2%positive) "r" "r/1")
           (mkLogstoreConfig (Some 6%positive) (Some 5%positive) "r" "r/1"));
    by vm_compute.
Defined.

Lemma Start_outcome_witness :
  is_Some (LogtailConfig demoPromoted !! "r/1")
  ∧ ¬ slotNamed demoPromoted (ToStartPipelineConfigWithInput demoPromoted) "r/1"
  ∧ (∃ msg, Start startsFine "r/1" demoState = Ok (Some msg) demoState).
Proof.
  destruct (Start_outcome startsFine demoStaged "r/1") as [H1 _].
  destruct (H1 demoPromoted) as (Ha & Hb & _); [by vm_compute|by vm_compute|].
  destruct (Start_outcome startsFine demoState "r/1") as [_ H2].
  split; [done|]. split; [done|].
  apply H2; try (by intros ? [=]); by intros (? & ? & [=] & _).
Defined.

(** ** Stopping all pipelines *)

Lemma keeps_trans (P Q : ptr → Prop) st1 st2 st3 :
  keeps P st1 st2 → keeps Q st2 st3 → keeps (λ c, P c ∨ Q c) st1 st3.
Proof.
  intros (?&?&Hr1&Hc1) (?&?&Hr2&Hc2).
  split; [congruence|]. split; [congruence|]. split.
  - intros r. by rewrite Hr2.
  - intros c Hc. rewrite Hc2, Hc1; tauto.
Qed.

Lemma keeps_reportsWithInput P st st' c :
  keeps P st st' → ¬ P c → reportsWithInput st' c = reportsWithInput st c.
Proof.
  intros (_&_&Hr&Hc) HP. unfold reportsWithInput. rewrite Hc by done.
  destruct (configs st !! c) as [lc|]; simpl; [|done].
  destruct (PluginRunner lc) as [r|]; simpl; [|done].
  specialize (Hr r). destruct (runners st' !! r), (runners st !! r); naive_solver.
Qed.

Lemma live_preserved st st' c :
  configs st' !! c = configs st !! c →
  (∀ r, IsWithInputPlugin <$> runners st' !! r = IsWithInputPlugin <$> runners st !! r) →
  live st c → live st' c.
Proof.
  intros Hc Hr (lc & x & r & o & H1 & H2 & H3 & H4).
  specialize (Hr r). rewrite H4 in Hr.
  destruct (runners st' !! r) as [o'|] eqn:Ho'; [|done].
  exists lc, x, r, o'. rewrite Hc. done.
Qed.

Lemma keeps_live P st st' c : keeps P st st' → ¬ P c → live st c → live st' c.
Proof. intros (_&_&Hr&Hc) HP. apply live_preserved; auto. Qed.

Lemma IsWithInputPlugin_clearRunner o :
  IsWithInputPlugin (clearRunner o) = IsWithInputPlugin o.
Proof. by destruct o. Qed.

Lemma tornState_keeps c lc rf st :
  keeps (λ c', c' = c) st (tornState c lc rf st).
Proof.
  repeat split; simpl.
  - intros r. destruct (PluginRunner lc) as [r'|]; [|done].
    rewrite lookup_alter. destruct (decide (r' = r)) as [->|]; [|done].
    destruct (runners st !! r); simpl; [|done].
    by rewrite IsWithInputPlugin_clearRunner.
  - intros c' Hc'. by rewrite lookup_insert_ne.
Qed.

Lemma needStop_Ok withInput c st b :
  live st c → reportsWithInput st c = Some b →
  needStop withInput c st = Ok (bool_decide (b = withInput)) st.
Proof.
  intros (lc & x & r & o & H1 & H2 & H3 & H4) Hb.
  unfold reportsWithInput in Hb. rewrite H1 in Hb; simpl in Hb.
  rewrite H3 in Hb; simpl in Hb. rewrite H4 in Hb; simpl in Hb.
  injection Hb as <-.
  unfold needStop. mrun. by destruct withInput, (IsWithInputPlugin o).
Qed.

Lemma live_reports st c : live st c → is_Some (reportsWithInput st c).
Proof.
  intros (lc & x & r & o & H1 & H2 & H3 & H4). unfold reportsWithInput.
  rewrite H1; simpl. rewrite H3; simpl. rewrite H4; simpl. done.
Qed.

Lemma foldr_delete_lookup (l : list string) (m : gmap string ptr) n :
  foldr delete m l !! n = if decide (n ∈ l) then None else m !! n.
Proof.
  induction l as [|x l IH].
  - by rewrite decide_False by (by intros ?%elem_of_nil).
  - change (foldr delete m (x :: l)) with (delete x (foldr delete m l)).
    rewrite lookup_delete. destruct (decide (x = n)) as [->|Hne].
    + by rewrite decide_True by apply list_elem_of_here.
    + rewrite IH. destruct (decide (n ∈ l)).
      * by rewrite decide_True by by apply list_elem_of_further.
      * rewrite decide_False; [done|]. intros [?|?]%elem_of_cons; congruence.
Qed.

Lemma delete_names_lookup (N : gset string) (m : gmap string ptr) n :
  foldr delete m (elements N) !! n = if decide (n ∈ N) then None else m !! n.
Proof.
  rewrite foldr_delete_lookup.
  destruct (decide (n ∈ N)).
  - by rewrite decide_True by by apply elem_of_elements.
  - by rewrite decide_False by by rewrite elem_of_elements.
Qed.

Lemma delete_name_lookup (x : string) (m : gmap string ptr) n :
  delete x m !! n = if decide (n ∈ ({[x]} : gset string)) then None else m !! n.
Proof.
  rewrite lookup_delete. destruct (decide (x = n)) as [->|].
  - by rewrite decide_True by by apply elem_of_singleton.
  - rewrite decide_False; [done|]. by intros ?%elem_of_singleton.
Qed.

Section StopAllProofs.

Variable stopProc : ptr → bool → StopBehaviour.
Variable selectPicksDone : bool.
Variable mapRange : gmap string ptr → list (string * ptr).

(** One visit of the loop, lines 170-181. *)
Lemma stopEntry_Ok c st :
  live st c → ¬ panicsInTime (stopProc c true) →
  ∃ st', stopEntry stopProc selectPicksDone c st = Ok tt st'
         ∧ keeps (λ c', c' = c) st st'.
Proof.
  intros (lc & x & r & o & H1 & H2 & H3 & H4) Hp.
  unfold stopEntry, timeoutStop, spawnStop, go, GetRuntimeContext, quarantine, closeDone.
  mrun.
  destruct (stopProc c true) as [d| |d]; simpl in Hp.
  - destruct (selectDone selectPicksDone d); mrun.
    + erewrite DeleteLogstoreConfig_ok by (simpl; exact H1).
      eexists; split; [done|].
      destruct (tornState_keeps c lc true st) as (?&?&?&?). done.
    + unfold GetRuntimeContext. mrun. eexists; split; [done|]. done.
  - mrun. unfold GetRuntimeContext. mrun. eexists; split; [done|]. done.
  - rewrite decide_False by done. mrun. unfold GetRuntimeContext. mrun.
    eexists; split; [done|]. done.
Qed.

(** The loop collects the names of exactly the entries that need a stop. *)
Lemma stopAllLoop_Ok withInput entries : ∀ toDelete st,
  NoDup entries.*2 →
  (∀ n c, (n, c) ∈ entries → live st c) →
  (∀ n c, (n, c) ∈ entries → reportsWithInput st c = Some withInput →
          ¬ panicsInTime (stopProc c true)) →
  ∃ st' toDelete',
    stopAllLoop stopProc selectPicksDone withInput entries toDelete st
    = Ok toDelete' st'
    ∧ keeps (λ c, c ∈ entries.*2 ∧ reportsWithInput st c = Some withInput) st st'
    ∧ (∀ n, n ∈ toDelete' ↔
            n ∈ toDelete
            ∨ ∃ c, (n, c) ∈ entries ∧ reportsWithInput st c = Some withInput).
Proof.
  induction entries as [|[n c] entries IH]; intros toDelete st Hnd Hlive Hnp.
  - exists st, toDelete. split; [done|]. split; [done|].
    intros n. split; [auto|]. intros [?|(c & Hc & _)]; [done|].
    by apply elem_of_nil in Hc.
  - simpl in Hnd. apply NoDup_cons in Hnd as [Hc Hnd].
    assert (Hfresh : ∀ n' c', (n', c') ∈ entries → c' ≠ c).
    { intros n' c' Hin ->. apply Hc. apply list_elem_of_fmap. by exists (n', c). }
    assert (Hl : live st c) by (apply (Hlive n); apply list_elem_of_here).
    destruct (live_reports _ _ Hl) as [b Hb].
    simpl. unfold mbind at 1, M_bind at 1.
    rewrite (needStop_Ok _ _ _ b) by done.
    destruct (decide (b = withInput)) as [->|Hne].
    + rewrite bool_decide_eq_true_2 by done.
      destruct (stopEntry_Ok c st) as (st1 & Hst1 & Hk1); [done|..].
      { apply (Hnp n); [apply list_elem_of_here|done]. }
      unfold mbind at 1, M_bind at 1. rewrite Hst1.
      assert (Hrep : ∀ n' c', (n', c') ∈ entries →
                reportsWithInput st1 c' = reportsWithInput st c').
      { intros n' c' Hin. apply (keeps_reportsWithInput _ _ _ _ Hk1). by eapply Hfresh. }
      destruct (IH ({[n]} ∪ toDelete) st1) as (st' & toDelete' & Hloop & Hk & Hdel).
      * done.
      * intros n' c' Hin. apply (keeps_live _ _ _ _ Hk1); [by eapply Hfresh|].
        apply (Hlive n'). by apply list_elem_of_further.
      * intros n' c' Hin Hr. apply (Hnp n'); [by apply list_elem_of_further|].
        by rewrite <-(Hrep n' c').
      * exists st', toDelete'. split; [done|]. split.
        -- destruct (keeps_trans _ _ _ _ _ Hk1 Hk) as (?&?&?&Hcfg).
           repeat split; try done. intros c' Hc'. apply Hcfg.
           intros [->|[Hin Hr]]; apply Hc'.
           ++ split; [apply list_elem_of_here|done].
           ++ split; [by apply list_elem_of_further|].
              apply list_elem_of_fmap in Hin as ([n' c''] & -> & Hin).
              simpl in *. by rewrite <-(Hrep n' c'').
        -- intros n'. rewrite Hdel. split.
           ++ intros [Hin|(c' & Hin & Hr)].
              ** apply elem_of_union in Hin as [Hin|Hin]; [|by left].
                 apply elem_of_singleton in Hin as ->. right. exists c.
                 split; [apply list_elem_of_here|done].
              ** right. exists c'. split; [by apply list_elem_of_further|].
                 by rewrite <-(Hrep n' c').
           ++ intros [Hin|(c' & Hin & Hr)].
              { left. apply elem_of_union. by right. }
              apply elem_of_cons in Hin as [[= -> ->]|Hin].
              { left. apply elem_of_union. left. by apply elem_of_singleton. }
              right. exists c'. split; [done|]. by rewrite (Hrep n' c').
    + rewrite bool_decide_eq_false_2 by done.
      destruct (IH toDelete st) as (st' & toDelete' & Hloop & Hk & Hdel).
      * done.
      * intros n' c' Hin. apply (Hlive n'). by apply list_elem_of_further.
      * intros n' c' Hin. apply (Hnp n'). by apply list_elem_of_further.
      * exists st', toDelete'. split; [done|]. split.
        -- destruct Hk as (?&?&?&Hcfg). repeat split; try done.
           intros c' Hc'. apply Hcfg. intros [Hin Hr]. apply Hc'.
           split; [by apply list_elem_of_further|done].
        -- intros n'. rewrite Hdel. split.
           ++ intros [?|(c' & Hin & Hr)]; [by left|]. right. exists c'.
              split; [by apply list_elem_of_further|done].
           ++ intros [?|(c' & Hin & Hr)]; [by left|].
              apply elem_of_cons in Hin as [[= -> ->]|Hin]; [congruence|].
              right. by exists c'.
Qed.

(** C8: on a registry of live pipelines, each under one name, none of whose
    stop procedures panics while it is waited for, [StopAllPipelines]
    returns nil and the registry afterwards holds exactly the entries
    whose runner reports the other value for [IsWithInputPlugin()]; those
    pipelines are untouched and still live. *)
Theorem StopAllPipelines_filter st withInput :
  mapRange (LogtailConfig st) ≡ₚ map_to_list (LogtailConfig st) →
  LogtailConfigLock st = false →
  (∀ n c, LogtailConfig st !! n = Some c → live st c) →
  (∀ n1 n2 c, LogtailConfig st !! n1 = Some c → LogtailConfig st !! n2 = Some c →
              n1 = n2) →
  (∀ n c, LogtailConfig st !! n = Some c → reportsWithInput st c = Some withInput →
          ¬ panicsInTime (stopProc c true)) →
  ∃ st', StopAllPipelines stopProc selectPicksDone mapRange withInput st = Ok None st'
    ∧ (∀ n c, LogtailConfig st' !! n = Some c ↔
              LogtailConfig st !! n = Some c
              ∧ reportsWithInput st c = Some (negb withInput))
    ∧ (∀ n c, LogtailConfig st' !! n = Some c →
              configs st' !! c = configs st !! c ∧ live st' c).
Proof.
  intros Hperm Hl Hlive Hinj Hnp.
  assert (Hin : ∀ n c, (n, c) ∈ mapRange (LogtailConfig st) ↔
                       LogtailConfig st !! n = Some c).
  { intros n c. rewrite Hperm. apply elem_of_map_to_list. }
  assert (Hnd : NoDup (mapRange (LogtailConfig st)).*2).
  { rewrite Hperm. apply NoDup_fmap_2_strong; [|apply NoDup_map_to_list].
    intros [n1 c1] [n2 c2] H1 H2 Heq. simpl in Heq. subst.
    apply elem_of_map_to_list in H1, H2. f_equal. eauto. }
  destruct (stopAllLoop_Ok withInput (mapRange (LogtailConfig st)) ∅ (set_lock true st))
    as (st1 & toDelete & Hloop & (Hreg & Hlock & Hrun & Hcfg) & Hdel).
  { done. }
  { intros n c Hc. apply (Hlive n). by apply Hin. }
  { intros n c Hc. apply (Hnp n). by apply Hin. }
  simpl in Hloop, Hreg, Hrun, Hcfg.
  change (∀ n, n ∈ toDelete ↔ n ∈ (∅ : gset string)
            ∨ ∃ c, (n, c) ∈ mapRange (LogtailConfig st)
                   ∧ reportsWithInput st c = Some withInput) in Hdel.
  change (∀ c, ¬ (c ∈ (mapRange (LogtailConfig st)).*2
                  ∧ reportsWithInput st c = Some withInput)
               → configs st1 !! c = configs st !! c) in Hcfg.
  unfold StopAllPipelines, panicRecover, deleteNames. mrun.
  eexists. split; [reflexivity|]. simpl.
  assert (Hlook : ∀ n c,
            foldr delete (LogtailConfig st1) (elements toDelete) !! n = Some c ↔
            LogtailConfig st !! n = Some c
            ∧ reportsWithInput st c = Some (negb withInput)).
  { intros n c. rewrite delete_names_lookup, Hreg.
    destruct (decide (n ∈ toDelete)) as [Hn|Hn].
    - apply Hdel in Hn as [Hn|(c' & Hc' & Hr)]; [by apply elem_of_empty in Hn|].
      apply Hin in Hc'. split; [done|]. intros [Hc Hr'].
      assert (c' = c) as -> by congruence.
      rewrite Hr in Hr'. by destruct withInput.
    - split; [|by intros [? _]]. intros Hc. split; [done|].
      destruct (live_reports _ _ (Hlive _ _ Hc)) as [b Hb]. rewrite Hb. f_equal.
      destruct (decide (b = withInput)) as [->|]; [|by destruct b, withInput].
      destruct Hn. apply Hdel. right. exists c.
      split; [by apply Hin|done]. }
  split; [done|].
  intros n c Hc. apply Hlook in Hc as [Hc Hr].
  assert (Hnv : ¬ (c ∈ (mapRange (LogtailConfig st)).*2
                   ∧ reportsWithInput st c = Some withInput)).
  { intros [_ Hr']. rewrite Hr in Hr'. by destruct withInput. }
  split; [by apply Hcfg|].
  apply (live_preserved st); [by apply Hcfg|done|by eapply Hlive].
Qed.

End StopAllProofs.

Lemma demoState_registry n c :
  LogtailConfig demoState !! n = Some c →
  (n = "p/1" ∧ c = 1%positive) ∨ (n = "q/1" ∧ c = 4%positive).
Proof.
  change (LogtailConfig demoState)
    with (<["p/1" := 1%positive]> ({["q/1" := 4%positive]} : gmap string ptr)).
  intros [[<- <-]|[_ [<- <-]%lookup_singleton_Some]]%lookup_insert_Some; auto.
Qed.

Example StopAllPipelines_demo :
  ∃ st', StopAllPipelines stopsQuickly true map_to_list false demoState = Ok None st'
    ∧ LogtailConfig st' !! "q/1" = None
    ∧ LogtailConfig st' !! "p/1" = Some 1%positive
    ∧ configs st' !! 1%positive = Some demoPipeline.
Proof. eexists. split; [by vm_compute|]. repeat split; by vm_compute. Qed.

Lemma StopAllPipelines_filter_witness :
  ∃ st', StopAllPipelines stopsQuickly true map_to_list true demoState = Ok None st'
    ∧ (∀ n c, LogtailConfig st' !! n = Some c ↔
              LogtailConfig demoState !! n = Some c
              ∧ reportsWithInput demoState c = Some (negb true))
    ∧ (∀ n c, LogtailConfig st' !! n = Some c →
              configs st' !! c = configs demoState !! c ∧ live st' c).
Proof.
  apply (StopAllPipelines_filter stopsQuickly true map_to_list demoState true).
  - reflexivity.
  - reflexivity.
  - intros n c [[-> ->]|[-> ->]]%demoState_registry.
    + exists demoPipeline, 3%positive, 2%positive, demoRunner1. by vm_compute.
    + exists (mkLogstoreConfig (Some 6%positive) (Some 5%positive) "q" "q/1"),
        6%positive, 5%positive, demoRunner2. by vm_compute.
  - intros n1 n2 c [[-> ->]|[-> ->]]%demoState_registry
      [[-> ?]|[-> ?]]%demoState_registry; congruence.
  - intros n c _ _ H. exact H.
Defined.

(** ** The invariant of the lifecycle *)

Lemma steady_refl st : steady st st.
Proof. done. Qed.

Lemma sameNames_configs st st' :
  configs st' = configs st → sameNames st st'.
Proof. intros H c. unfold cname. by rewrite H. Qed.

Lemma sameNames_torn st st' c lc :
  configs st !! c = Some lc →
  configs st' = <[c := tornDown lc]> (configs st) → sameNames st st'.
Proof.
  intros Hc H c'. unfold cname. rewrite H, lookup_insert.
  destruct (decide (c = c')) as [<-|]; [|done]. by rewrite Hc.
Qed.

Lemma elem_of_insert_inv {A} (l : list A) i x y :
  x ∈ <[i := y]> l → x = y ∨ x ∈ l.
Proof.
  intros H. apply list_elem_of_lookup in H as [j Hj].
  destruct (decide (i = j)) as [->|Hne].
  - destruct (decide (j < length l)).
    + rewrite list_lookup_insert_eq in Hj by done. left. congruence.
    + rewrite list_insert_ge in Hj by lia. right. by eapply list_elem_of_lookup_2.
  - rewrite list_lookup_insert_ne in Hj by done. right. by eapply list_elem_of_lookup_2.
Qed.

Lemma elem_of_insert_new {A} (l : list A) i x y :
  l !! i = Some x → y ∈ <[i := y]> l.
Proof.
  intros H. apply list_elem_of_lookup. exists i.
  apply list_lookup_insert_eq. by eapply lookup_lt_Some.
Qed.

Lemma elem_of_insert_keep {A} (l : list A) i x y z :
  l !! i = Some x → z ∈ l → z = x ∨ z ∈ <[i := y]> l.
Proof.
  intros Hi Hz. apply list_elem_of_lookup in Hz as [j Hj].
  destruct (decide (i = j)) as [->|Hne].
  - left. congruence.
  - right. apply list_elem_of_lookup. exists j. by rewrite list_lookup_insert_ne.
Qed.

Lemma slotOf_setSlot withInput v st : slotOf withInput (setSlot withInput v st) = v.
Proof. by destruct withInput. Qed.

Lemma slotOf_setSlot_other withInput v st :
  slotOf (negb withInput) (setSlot withInput v st) = slotOf (negb withInput) st.
Proof. by destruct withInput. Qed.

Lemma slotOf_steady withInput st st' :
  ToStartPipelineConfigWithInput st' = ToStartPipelineConfigWithInput st →
  ToStartPipelineConfigWithoutInput st' = ToStartPipelineConfigWithoutInput st →
  slotOf withInput st' = slotOf withInput st.
Proof. by destruct withInput. Qed.

Section LifecycleProofs.
Variable stopProc : ptr → bool → StopBehaviour.
Variable startProc : ptr → StartBehaviour.
Variable mapRange : gmap string ptr → list (string * ptr).
Hypothesis mapRange_sound : ∀ m n c, (n, c) ∈ mapRange m → m !! n = Some c.

Lemma threadStep_Panic dp t st st' :
  threadStep startProc mapRange dp t st = Panic st' →
  steady st st' ∧ inserted t = None.
Proof.
  intros H. destruct t; simpl in H; inv_step DeleteLogstoreConfig_inv H; done.
Qed.

Lemma threadStep_Ok dp t st t' st' :
  threadStep startProc mapRange dp t st = Ok t' st' → effect st t st' t'.
Proof.
  intros H. destruct t; simpl in H; inv_step DeleteLogstoreConfig_inv H.
  all: simpl in *.
  all: try solve
    [ eapply eff_local;
      [ split; [names_tac sameNames_configs sameNames_torn|done]
      | pipes_tac
      | simpl; set_solver
      | done | done | done ] ].
  all: try solve
    [ eapply eff_quarantine;
      [names_tac sameNames_configs sameNames_torn|done|done|done|done| | | | |done|done];
      simpl; set_solver ].
  all: try solve
    [ eapply eff_delete;
      [names_tac sameNames_configs sameNames_torn
      |first [apply delete_name_lookup|apply delete_names_lookup]
      |done|done|done|done|simpl; set_solver|done|done] ].
  - apply (eff_quarantine _ _ _ _ configName config); try done.
    all: simpl; set_solver.
  - eapply eff_insert; try done; eassumption.
  - eapply eff_clear;
      [ done | done
      | destruct withInput; names_tac sameNames_configs sameNames_torn
      | by destruct withInput | by destruct withInput
      | apply slotOf_setSlot | apply slotOf_setSlot_other ].
Qed.

Lemma threadRun_Ok dp t st t' st' :
  threadRun startProc mapRange dp t st = Ok t' st' → effect st t st' t'.
Proof.
  intros H.
  assert (Hpanic : ∀ st'', threadStep startProc mapRange dp t st = Panic st'' →
            ∀ t'', threadPipelines t'' = [] →
              (∀ n, owes t n → owes t'' n) →
              inStart t'' = false → inserted t'' = None →
              ∀ st3, steady st'' st3 → effect st t st3 t'').
  { intros st'' Hp t'' Ht'' Hpend Hin Hins st3 Hs3.
    apply threadStep_Panic in Hp as [Hp Hi].
    apply eff_local; [|rewrite Ht''; set_solver|done|by rewrite Hin|done|done].
    destruct Hp as (H1&H2&H3&H4&H5), Hs3 as (G1&G2&G3&G4&G5).
    split; [|repeat split; congruence].
    intros c. by rewrite G1. }
  unfold threadRun, panicRecover in H.
  destruct (threadStep startProc mapRange dp t st) as [t1 st1|st1| |] eqn:E.
  - apply (threadStep_Ok dp).
    destruct t; cbv beta iota in H; rewrite E in H; by simplify_eq.
  - destruct t; cbv beta iota in H; rewrite E in H; simplify_eq;
      (eapply Hpanic; [reflexivity|done..]).
  - destruct t; cbv beta iota in H; rewrite E in H; done.
  - destruct t; cbv beta iota in H; rewrite E in H; done.
Qed.

(** At most one call of [Start] is in progress, also after a step of a
    call that was not outside [Start] before. *)
Lemma turn_insert (l : list Thread) i t t' :
  (∀ a b ta tb, l !! a = Some ta → l !! b = Some tb →
                inStart ta = true → inStart tb = true → a = b) →
  l !! i = Some t → (inStart t' = true → inStart t = true) →
  ∀ a b ta tb, <[i := t']> l !! a = Some ta → <[i := t']> l !! b = Some tb →
               inStart ta = true → inStart tb = true → a = b.
Proof.
  intros Hl Hi Hin a b ta tb Ha Hb Hta Htb.
  assert (Hback : ∀ c tc, <[i := t']> l !! c = Some tc → inStart tc = true →
            ∃ tc', l !! c = Some tc' ∧ inStart tc' = true).
  { intros c tc Hc Htc. destruct (decide (i = c)) as [<-|Hne].
    - rewrite list_lookup_insert_eq in Hc by by eapply lookup_lt_Some.
      simplify_eq. eauto.
    - rewrite list_lookup_insert_ne in Hc by done. eauto. }
  destruct (Hback a ta Ha Hta) as (ta' & Ha' & Hta').
  destruct (Hback b tb Hb Htb) as (tb' & Hb' & Htb').
  by eapply Hl.
Qed.

Lemma inserted_keep (l : list Thread) i t t' withInput :
  l !! i = Some t → inserted t = None →
  StartInserted withInput ∈ l → StartInserted withInput ∈ <[i := t']> l.
Proof.
  intros Hi Hn Hin.
  destruct (elem_of_insert_keep _ i t t' _ Hi Hin) as [<-|?]; done.
Qed.

Lemma Inv_effect m i t t' st' :
  Inv m → threads m !! i = Some t → effect (globals m) t st' t' →
  Inv (mkMachine st' (<[i := t']> (threads m))).
Proof.
  intros [IK IT ID IU IS IS2 IJ] Hi Heff.
  assert (Ht : t ∈ threads m) by by eapply list_elem_of_lookup_2.
  destruct Heff as [(Hn&Hr&Hd&Hs1&Hs2) Hp Hpend Hin Hit Hit'
                   |n c Hn Hr Hd Hs1 Hs2 Hin Hp Hpn Hpend Hst' Hit
                   |N Hn Hr Hd Hs1 Hs2 Hp Hpend Hst' Hit
                   |wi p lc -> -> Hslot Hc Hn Hr Hd Hs1 Hs2
                   |wi -> -> Hn Hr Hd Hs1 Hs2].
  - (* local *)
    split; simpl.
    + intros n c. rewrite Hr, Hn. apply IK.
    + intros t0 n c [->|H0]%elem_of_insert_inv Hin0; rewrite Hn.
      * destruct (Hp n c Hin0); eauto.
      * eauto.
    + intros c. rewrite Hd, Hn. apply ID.
    + by eapply turn_insert.
    + intros wi p. rewrite (slotOf_steady wi _ _ Hs1 Hs2). intros Hslot.
      destruct (IS wi p Hslot) as [H1 [H2|(H2 & H3 & H4)]].
      * split; [by rewrite Hn|]. left. by eapply inserted_keep.
      * split; [by rewrite Hn|]. right. unfold untouched. simpl.
        rewrite Hr, Hd. repeat split; try done.
        intros t0 n [->|H0]%elem_of_insert_inv Hin0; [|by eapply H4].
        destruct (Hp n p Hin0) as [|Hreg]; [by eapply H4|by eapply H2].
    + intros p. rewrite Hs1, Hs2. apply IS2.
    + intros n c. rewrite Hr, Hd. intros Hreg Hdis.
      destruct (IJ n c Hreg Hdis) as (t0 & Ht0 & Hpd).
      destruct (elem_of_insert_keep _ i t t' t0 Hi Ht0) as [->|?]; [|eauto].
      exists t'. split; [by eapply elem_of_insert_new|auto].
  - (* quarantine *)
    split; simpl.
    + intros n0 c0. rewrite Hr, Hn. apply IK.
    + intros t0 n0 c0 [->|H0]%elem_of_insert_inv Hin0; rewrite Hn; eauto.
    + intros c0. rewrite Hd, Hn. intros [->%elem_of_singleton|?]%elem_of_union; [|auto].
      erewrite IT by done. done.
    + eapply turn_insert; [done..|]. by rewrite Hst'.
    + intros wi p. rewrite (slotOf_steady wi _ _ Hs1 Hs2). intros Hslot.
      destruct (IS wi p Hslot) as [H1 [H2|(H2 & H3 & H4)]].
      * split; [by rewrite Hn|]. left. by eapply inserted_keep.
      * split; [by rewrite Hn|]. right. unfold untouched. simpl.
        rewrite Hr, Hd. repeat split; try done.
        -- intros [->%elem_of_singleton|?]%elem_of_union; [|done]. by eapply H4.
        -- intros t0 n0 [->|H0]%elem_of_insert_inv Hin0; [|by eapply H4].
           eapply H4; [exact Ht|]. by apply Hp.
    + intros p. rewrite Hs1, Hs2. apply IS2.
    + intros n0 c0. rewrite Hr, Hd. intros Hreg [->%elem_of_singleton|Hdis]%elem_of_union.
      * assert (n0 = n) as ->.
        { apply IK in Hreg. rewrite (IT _ _ _ Ht Hin) in Hreg. congruence. }
        exists t'. split; [by eapply elem_of_insert_new|done].
      * destruct (IJ n0 c0 Hreg Hdis) as (t0 & Ht0 & Hpd).
        destruct (elem_of_insert_keep _ i t t' t0 Hi Ht0) as [->|?]; [|eauto].
        exists t'. split; [by eapply elem_of_insert_new|auto].
  - (* delete *)
    assert (Hsub : ∀ n c, LogtailConfig st' !! n = Some c →
               LogtailConfig (globals m) !! n = Some c ∧ n ∉ N).
    { intros n c. rewrite Hr. by case_decide. }
    split; simpl.
    + intros n c [Hreg _]%Hsub. rewrite Hn. by apply IK.
    + intros t0 n c [->|H0]%elem_of_insert_inv Hin; rewrite Hn; [|eauto].
      rewrite Hp in Hin. by apply elem_of_nil in Hin.
    + intros c. rewrite Hd, Hn. apply ID.
    + eapply turn_insert; [done..|]. by rewrite Hst'.
    + intros wi p. rewrite (slotOf_steady wi _ _ Hs1 Hs2). intros Hslot.
      destruct (IS wi p Hslot) as [H1 [H2|(H2 & H3 & H4)]].
      * split; [by rewrite Hn|]. left. by eapply inserted_keep.
      * split; [by rewrite Hn|]. right. unfold untouched. simpl.
        rewrite Hd. repeat split; try done.
        -- intros n [Hreg _]%Hsub. by eapply H2.
        -- intros t0 n [->|H0]%elem_of_insert_inv Hin; [|by eapply H4].
           rewrite Hp in Hin. by apply elem_of_nil in Hin.
    + intros p. rewrite Hs1, Hs2. apply IS2.
    + intros n c [Hreg HnN]%Hsub. rewrite Hd. intros Hdis.
      destruct (IJ n c Hreg Hdis) as (t0 & Ht0 & Hpd).
      destruct (elem_of_insert_keep _ i t t' t0 Hi Ht0) as [->|?]; [|eauto].
      destruct HnN. auto.
  - (* insert: lines 305-307, 312-314 *)
    assert (Hnone : ∀ wi', StartInserted wi' ∉ threads m).
    { intros wi' [j Hj]%list_elem_of_lookup.
      assert (i = j) as -> by by eapply IU.
      congruence. }
    destruct (IS wi p Hslot) as [P0 [P1|(P2 & P3 & P4)]]; [by destruct (Hnone wi)|].
    split; simpl.
    + intros n c. rewrite Hr, Hn. intros [[<- <-]|[_ Hreg]]%lookup_insert_Some.
      * unfold cname. by rewrite Hc.
      * by apply IK.
    + intros t0 n c [->|H0]%elem_of_insert_inv Hin; rewrite Hn; [|eauto].
      by apply elem_of_nil in Hin.
    + intros c. rewrite Hd, Hn. apply ID.
    + by eapply turn_insert.
    + intros wi' q. rewrite (slotOf_steady wi' _ _ Hs1 Hs2). intros Hq.
      destruct (IS wi' q Hq) as [H1 [H2|(H2 & H3 & H4)]]; [by destruct (Hnone wi')|].
      split; [by rewrite Hn|].
      destruct (decide (wi' = wi)) as [->|Hne].
      * left. by eapply elem_of_insert_new.
      * right. unfold untouched. simpl. rewrite Hr, Hd. repeat split; try done.
        -- intros n [[_ ->]|[_ Hreg]]%lookup_insert_Some; [|by eapply H2].
           destruct wi, wi'; simpl in *; try done; by eapply IS2.
        -- intros t0 n [->|H0]%elem_of_insert_inv Hin; [|by eapply H4].
           by apply elem_of_nil in Hin.
    + intros q. rewrite Hs1, Hs2. apply IS2.
    + intros n c. rewrite Hr, Hd.
      intros [[<- <-]|[_ Hreg]]%lookup_insert_Some Hdis; [done|].
      destruct (IJ n c Hreg Hdis) as (t0 & Ht0 & Hpd).
      destruct (elem_of_insert_keep _ i _ (StartInserted wi) t0 Hi Ht0) as [->|?]; [done|eauto].
  - (* clear: lines 308, 315 *)
    split; simpl.
    + intros n c. rewrite Hr, Hn. apply IK.
    + intros t0 n c [->|H0]%elem_of_insert_inv Hin; rewrite Hn; [|eauto].
      by apply elem_of_nil in Hin.
    + intros c. rewrite Hd, Hn. apply ID.
    + by eapply turn_insert.
    + intros wi' q Hq.
      assert (wi' = negb wi) as ->.
      { destruct wi, wi'; simpl in *; congruence. }
      rewrite Hs2 in Hq.
      destruct (IS (negb wi) q Hq) as [H1 [H2|(H2 & H3 & H4)]].
      * apply list_elem_of_lookup in H2 as [j Hj].
        assert (i = j) as -> by by eapply IU.
        rewrite Hi in Hj. by destruct wi.
      * split; [by rewrite Hn|]. right. unfold untouched. simpl.
        rewrite Hr, Hd. repeat split; try done.
        intros t0 n [->|H0]%elem_of_insert_inv Hin; [|by eapply H4].
        by apply elem_of_nil in Hin.
    + intros q Hq1 Hq2. destruct wi; simpl in *; congruence.
    + intros n c. rewrite Hr, Hd. intros Hreg Hdis.
      destruct (IJ n c Hreg Hdis) as (t0 & Ht0 & Hpd).
      destruct (elem_of_insert_keep _ i _ (Returned None) t0 Hi Ht0) as [->|?]; [done|eauto].
Qed.

(** Steps of goroutines only shrink the disabled set. *)
Lemma Inv_shrink m st' :
  Inv m → sameNames (globals m) st' →
  LogtailConfig st' = LogtailConfig (globals m) →
  DisabledLogtailConfig st' ⊆ DisabledLogtailConfig (globals m) →
  ToStartPipelineConfigWithInput st' = ToStartPipelineConfigWithInput (globals m) →
  ToStartPipelineConfigWithoutInput st' = ToStartPipelineConfigWithoutInput (globals m) →
  Inv (mkMachine st' (threads m)).
Proof.
  intros [IK IT ID IU IS IS2 IJ] Hn Hr Hd Hs1 Hs2. split; simpl.
  - intros n c. rewrite Hr, Hn. apply IK.
  - intros t n c. rewrite Hn. apply IT.
  - intros c Hc. rewrite Hn. apply ID. set_solver.
  - done.
  - intros wi p. rewrite (slotOf_steady wi _ _ Hs1 Hs2). intros Hslot.
    destruct (IS wi p Hslot) as [H1 [H2|(H2 & H3 & H4)]].
    + split; [by rewrite Hn|]. by left.
    + split; [by rewrite Hn|]. right. unfold untouched. simpl.
      rewrite Hr. repeat split; try done. set_solver.
  - intros p. rewrite Hs1, Hs2. apply IS2.
  - intros n c. rewrite Hr. intros Hreg Hdis. apply (IJ n c Hreg). set_solver.
Qed.

Lemma stopReturns_Ok g st st' :
  stopReturns stopProc g st = Ok tt st' → steady st st'.
Proof. intros H. unfold stopReturns in H. inv_step DeleteLogstoreConfig_inv H; done. Qed.

Lemma goroutineEnds_Ok g st st' :
  goroutineEnds g st = Ok tt st' →
  sameNames st st'
  ∧ LogtailConfig st' = LogtailConfig st
  ∧ DisabledLogtailConfig st' ⊆ DisabledLogtailConfig st
  ∧ ToStartPipelineConfigWithInput st' = ToStartPipelineConfigWithInput st
  ∧ ToStartPipelineConfigWithoutInput st' = ToStartPipelineConfigWithoutInput st.
Proof.
  intros H. unfold goroutineEnds in H. inv_step DeleteLogstoreConfig_inv H; simpl in *.
  all: split; [names_tac sameNames_configs sameNames_torn|]; repeat split; try done; set_solver.
Qed.

Lemma startIdle_spec m t :
  startIdle m = true → t ∈ threads m → inStart t = false.
Proof.
  unfold startIdle. rewrite forallb_forall. intros H Ht.
  apply negb_true_iff, H. by apply list_elem_of_In.
Qed.

Lemma Inv_call m t :
  Inv m → isCall t = true → (inStart t = true → startIdle m = true) →
  Inv (mkMachine (globals m) (threads m ++ [t])).
Proof.
  intros [IK IT ID IU IS IS2 IJ] Hcall Hturn.
  assert (Hnil : threadPipelines t = []) by by destruct t.
  assert (Hins : ∀ wi, t ≠ StartInserted wi) by by destruct t.
  split; simpl; try done.
  - intros t0 n c [H0| ->%list_elem_of_singleton]%elem_of_app Hin; [eauto|].
    rewrite Hnil in Hin. by apply elem_of_nil in Hin.
  - intros a b ta tb Ha Hb Hta Htb.
    assert (Hold : ∀ c tc, (threads m ++ [t])%list !! c = Some tc → inStart tc = true →
              (threads m !! c = Some tc ∧ inStart t = false)
              ∨ (c = length (threads m) ∧ inStart t = true)).
    { intros c tc Hc Htc. apply lookup_app_Some in Hc as [Hc|[Hlen Hc]].
      - left. split; [done|]. destruct (inStart t) eqn:E; [|done].
        rewrite (startIdle_spec m tc) in Htc; [done|by apply Hturn|].
        by eapply list_elem_of_lookup_2.
      - right. apply list_lookup_singleton_Some in Hc as [Hc ->]. split; [lia|done]. }
    destruct (Hold a ta Ha Hta) as [[Ha' Ea]|[-> Ea]],
             (Hold b tb Hb Htb) as [[Hb' Eb]|[-> Eb]]; try congruence.
    by eapply IU.
  - intros wi p Hslot. destruct (IS wi p Hslot) as [H1 [H2|(H2 & H3 & H4)]].
    + split; [done|]. left. apply elem_of_app. by left.
    + split; [done|]. right. repeat split; try done. simpl.
      intros t0 n [H0| ->%list_elem_of_singleton]%elem_of_app Hin; [by eapply H4|].
      rewrite Hnil in Hin. by apply elem_of_nil in Hin.
  - intros n c Hreg Hdis. destruct (IJ n c Hreg Hdis) as (t0 & Ht0 & Hpd).
    exists t0. split; [|done]. apply elem_of_app. by left.
Qed.

Lemma Inv_stage m withInput p lc ctxs rnrs plgs :
  Inv m → configs (globals m) !! p = None →
  Inv (mkMachine (stage withInput p lc ctxs rnrs plgs (globals m)) (threads m)).
Proof.
  intros [IK IT ID IU IS IS2 IJ] Hfresh.
  set (st' := stage withInput p lc ctxs rnrs plgs (globals m)).
  assert (Hn : ∀ c, is_Some (cname (globals m) c) →
                    cname st' c = cname (globals m) c).
  { intros c Hc. unfold cname, st', stage. destruct withInput; simpl.
    all: rewrite lookup_insert_ne; [done|].
    all: intros <-; unfold cname in Hc; rewrite Hfresh in Hc; by destruct Hc. }
  assert (Hnew : ∀ c, is_Some (cname (globals m) c) → c ≠ p).
  { intros c Hc ->. unfold cname in Hc. rewrite Hfresh in Hc. by destruct Hc. }
  assert (Hr : LogtailConfig st' = LogtailConfig (globals m)) by by destruct withInput.
  assert (Hd : DisabledLogtailConfig st' = DisabledLogtailConfig (globals m))
    by by destruct withInput.
  assert (Hp : cname st' p = Some (ConfigNameWithSuffix lc)).
  { unfold cname, st', stage. destruct withInput; simpl; by rewrite lookup_insert_eq. }
  assert (Hst : ∀ wi q, slotOf wi st' = Some q →
            q = p ∨ slotOf wi (globals m) = Some q).
  { unfold st', stage. destruct withInput; intros [] q; simpl; intros ?;
      simplify_eq; auto. }
  assert (Hfr : untouched (mkMachine st' (threads m)) p).
  { unfold untouched. simpl. rewrite Hr, Hd. repeat split.
    - intros n Hreg. apply IK in Hreg. eapply Hnew; [|done]. by rewrite Hreg.
    - intros Hdis. apply ID in Hdis. by eapply Hnew.
    - intros t n Ht Hin. eapply Hnew; [|done]. by rewrite (IT _ _ _ Ht Hin). }
  split; fold st'; simpl.
  - intros n c Hreg. rewrite Hr in Hreg. rewrite Hn; [eauto|].
    by rewrite (IK _ _ Hreg).
  - intros t n c Ht Hin. rewrite Hn; [eauto|]. by rewrite (IT _ _ _ Ht Hin).
  - intros c Hc. rewrite Hd in Hc. rewrite Hn; eauto.
  - done.
  - intros wi q [->|Hq]%Hst.
    + rewrite Hp. split; [done|]. by right.
    + destruct (IS wi q Hq) as [H1 [H2|(H2 & H3 & H4)]].
      * rewrite Hn by done. split; [done|]. by left.
      * rewrite Hn by done. split; [done|]. right. unfold untouched. simpl.
        by rewrite Hr, Hd.
  - unfold st', stage. destruct withInput; simpl; intros q Hq1 Hq2; simplify_eq.
    + destruct (IS false q) as (H1 & _); [done|]. by eapply Hnew.
    + destruct (IS true q) as (H1 & _); [done|]. by eapply Hnew.
  - intros n c. rewrite Hr, Hd. apply IJ.
Qed.

Lemma Inv_init : Inv initMachine.
Proof.
  split; simpl.
  - intros n c H. by rewrite lookup_empty in H.
  - intros t n c Ht. by apply elem_of_nil in Ht.
  - intros c Hc. by apply elem_of_empty in Hc.
  - intros i j ti tj Hi. by rewrite lookup_nil in Hi.
  - by intros [] p.
  - done.
  - intros n c H. by rewrite lookup_empty in H.
Qed.

Lemma Inv_step a m m' :
  Inv m → step stopProc startProc mapRange a m m' → inTurn a m → Inv m'.
Proof.
  intros HI Hstep Hturn. destruct Hstep as [m t Hcall|m i t dp t' st' Hi Hrun
                                     |m g st' Hg|m g st' Hg|m wi p lc ctxs rnrs plgs Hf].
  - by apply Inv_call.
  - eapply Inv_effect; [done..|]. by eapply threadRun_Ok.
  - apply stopReturns_Ok in Hg as (?&?&Hd&?&?).
    apply Inv_shrink; try done. by rewrite Hd.
  - apply goroutineEnds_Ok in Hg as (?&?&?&?&?). by apply Inv_shrink.
  - by apply Inv_stage.
Qed.

Lemma serial_Inv m : serial stopProc startProc mapRange m → Inv m.
Proof.
  intros H. eapply (rtc_ind_r Inv); [apply Inv_init| |exact H].
  intros y z _ (a & Hs & Hturn) HI. by eapply Inv_step.
Qed.

(** A run with a sequential reload path is a run. *)
Lemma serial_reachable m :
  serial stopProc startProc mapRange m → reachable stopProc startProc mapRange m.
Proof.
  apply rtc_subrel. intros m1 m2 (a & Hs & _). by exists a.
Qed.

(** In every state of such a run, a pipeline that is both in the registry,
    under some name, and in the disabled set was put into the disabled set
    by a call of [Stop] or [StopAllPipelines] that has not run its
    deletion of that name from the registry: the call is between the two,
    or a recovered panic ended it there. *)
Lemma window_owed m n c :
  serial stopProc startProc mapRange m →
  LogtailConfig (globals m) !! n = Some c →
  c ∈ DisabledLogtailConfig (globals m) →
  ∃ t, t ∈ threads m ∧ owes t n.
Proof. intros H. by apply (inv_window m (serial_Inv m H)). Qed.



(** In every state of a run with a sequential reload path, a registry
    entry leads to a pipeline object whose name with suffix is the key of
    the entry: [Start] registers a pipeline under its own name (lines 306,
    313) and nothing changes that name.  So a pipeline is registered under
    one name at most. *)
Theorem registry_keyed_by_name m n c :
  serial stopProc startProc mapRange m →
  LogtailConfig (globals m) !! n = Some c →
  (∃ lc, configs (globals m) !! c = Some lc ∧ ConfigNameWithSuffix lc = n)
  ∧ (∀ n', LogtailConfig (globals m) !! n' = Some c → n' = n).
Proof.
  intros H Hreg. pose proof (serial_Inv m H) as HI.
  pose proof (inv_registry m HI n c Hreg) as Hn. split.
  - unfold cname in Hn. destruct (configs (globals m) !! c) as [lc|]; [|done].
    exists lc. split; [done|]. by injection Hn.
  - intros n' Hreg'. apply (inv_registry m HI) in Hreg'. congruence.
Qed.

(** With no deletion pending and no call ended by a recovered panic, the
    registry and the disabled set are disjoint. *)
Lemma disabled_registered_disjoint m c :
  serial stopProc startProc mapRange m →
  (∀ t n, t ∈ threads m → ¬ owes t n) →
  registered (globals m) c → c ∉ DisabledLogtailConfig (globals m).
Proof.
  intros H Hq [n Hn] Hc.
  destruct (window_owed m n c H Hn Hc) as (t & Ht & Hp).
  by eapply Hq.
Qed.

Lemma perform_step a m :
  perform stopProc startProc mapRange a m = m
  ∨ step stopProc startProc mapRange a m (perform stopProc startProc mapRange a m).
Proof.
  destruct a as [t|i dp|g|g|wi p lc ctxs rnrs plgs]; simpl.
  - destruct (isCall t) eqn:E; [|by left]. right. by apply step_call.
  - destruct (threads m !! i) as [t|] eqn:Ht; [|by left].
    destruct (threadRun startProc mapRange dp t (globals m)) as [t' st'| | |] eqn:E;
      try by left.
    right. by eapply step_thread.
  - destruct (stopReturns stopProc g (globals m)) as [[] st'| | |] eqn:E; try by left.
    right. by apply step_stop_returns.
  - destruct (goroutineEnds g (globals m)) as [[] st'| | |] eqn:E; try by left.
    right. by apply step_goroutine_ends.
  - destruct (configs (globals m) !! p) eqn:E; [by left|].
    right. by apply step_stage.
Qed.

Lemma reachable_perform a m :
  reachable stopProc startProc mapRange m →
  reachable stopProc startProc mapRange (perform stopProc startProc mapRange a m).
Proof.
  intros H. destruct (perform_step a m) as [->|Hs]; [done|].
  eapply rtc_r; [exact H|]. by exists a.
Qed.

Lemma reachable_performAll l : ∀ m,
  reachable stopProc startProc mapRange m →
  reachable stopProc startProc mapRange (performAll stopProc startProc mapRange l m).
Proof.
  induction l as [|a l IH]; intros m H; [done|].
  apply IH. by apply reachable_perform.
Qed.

Lemma serial_performInTurn a m :
  serial stopProc startProc mapRange m →
  serial stopProc startProc mapRange (performInTurn stopProc startProc mapRange a m).
Proof.
  intros H. unfold performInTurn.
  destruct (reloads a && negb (startIdle m)) eqn:E; [done|].
  destruct (perform_step a m) as [->|Hs]; [done|].
  eapply rtc_r; [exact H|]. exists a. split; [done|].
  intros Hr. rewrite Hr in E. simpl in E. by apply negb_false_iff in E.
Qed.

Lemma serial_performAllInTurn l : ∀ m,
  serial stopProc startProc mapRange m →
  serial stopProc startProc mapRange (performAllInTurn stopProc startProc mapRange l m).
Proof.
  induction l as [|a l IH]; intros m H; [done|].
  apply IH. by apply serial_performInTurn.
Qed.

End LifecycleProofs.

(** ** The exported functions as runs of the step relation

    Every run of [Stop], [Start] and [StopAllPipelines] that returns is a
    sequence of steps of the calling thread and of the goroutines it
    launched, and ends in the state and with the result of the function. *)

Section RunProofs.

Variable stopProc : ptr → bool → StopBehaviour.
Variable startProc : ptr → StartBehaviour.
Variable mapRange : gmap string ptr → list (string * ptr).
Variable selectPicksDone : bool.

(** One step of the only thread. *)
Lemma solo_step dp t st t' st' m :
  threadRun startProc mapRange dp t st = Ok t' st' →
  rtc (next stopProc startProc mapRange) (mkMachine st' [t']) m →
  rtc (next stopProc startProc mapRange) (mkMachine st [t]) m.
Proof.
  intros H Hm. eapply rtc_l; [|exact Hm]. exists (Run 0 dp).
  by apply (step_thread _ _ _ (mkMachine st [t]) 0 t dp t' st').
Qed.

Lemma solo_stop_returns g st st' t m :
  stopReturns stopProc g st = Ok tt st' →
  rtc (next stopProc startProc mapRange) (mkMachine st' [t]) m →
  rtc (next stopProc startProc mapRange) (mkMachine st [t]) m.
Proof.
  intros H Hm. eapply rtc_l; [|exact Hm]. exists (StopReturnsIn g).
  by apply (step_stop_returns _ _ _ (mkMachine st [t]) g st').
Qed.

Lemma alter_Exited_DoneClosed g (l : list Goroutine) :
  alter (setPhase Exited) g (alter (setPhase DoneClosed) g l)
  = alter (setPhase Exited) g l.
Proof. rewrite list_alter_alter_eq. by apply list_alter_ext. Qed.

(** Lines 128-139 neither read nor write the goroutine table. *)
Lemma reconcileDisabled_goroutines c rf f st :
  reconcileDisabled c rf (set_goroutines f st)
  = match reconcileDisabled c rf st with
    | Ok a s => Ok a (set_goroutines f s)
    | Panic s => Panic (set_goroutines f s)
    | r => r
    end.
Proof.
  unfold reconcileDisabled, logger, deref. msimpl.
  destruct (decide (c ∈ DisabledLogtailConfig st)); [|done].
  destruct (configs st !! c) as [lc|] eqn:Hc; msimpl; rewrite Hc; [|done].
  rewrite !(DeleteLogstoreConfig_ok _ _ _ lc) by exact Hc. done.
Qed.

(** The goroutine left behind runs to its end by steps of its own: no
    thread takes part. *)
Lemma finishGoroutine_run g st st' ts :
  finishGoroutine stopProc g st = Ok tt st' →
  rtc (next stopProc startProc mapRange) (mkMachine st ts) (mkMachine st' ts).
Proof.
  intros H. unfold finishGoroutine in H. msimpl_in H.
  destruct (goroutines st !! g) as [[c rf []]|] eqn:Hg; msimpl_in H.
  - destruct (stopProc c rf) as [d| |d] eqn:Hs; msimpl_in H; try done.
    eapply rtc_l.
    { exists (StopReturnsIn g).
      apply (step_stop_returns _ _ _ (mkMachine st ts) g). simpl.
      unfold stopReturns. mrun. unfold closeDone. msimpl. reflexivity. }
    eapply rtc_l; [|apply rtc_refl]. exists (GoroutineEnds g).
    apply (step_goroutine_ends _ _ _
             (mkMachine (set_goroutines (alter (setPhase DoneClosed) g) st) ts) g).
    simpl. unfold goroutineEnds. msimpl. rewrite list_lookup_alter_eq, Hg. simpl.
    unfold go in *.
    destruct (reconcileDisabled c rf st) as [[] st1|st1| |] eqn:Hr; try done.
    simplify_eq. rewrite reconcileDisabled_goroutines, Hr. msimpl.
    f_equal. unfold set_goroutines. simpl. by rewrite alter_Exited_DoneClosed.
  - eapply rtc_l; [|apply rtc_refl]. exists (GoroutineEnds g).
    apply (step_goroutine_ends _ _ _ (mkMachine st ts) g). simpl.
    unfold goroutineEnds. msimpl. by rewrite Hg.
  - simplify_eq. apply rtc_refl.
  - simplify_eq. apply rtc_refl.
Qed.

Lemma Stop_run st configName removedFlag err st' :
  Stop stopProc selectPicksDone configName removedFlag st = Ok err st' →
  ∃ t', rtc (next stopProc startProc mapRange)
          (mkMachine st [StopCalled configName removedFlag]) (mkMachine st' [t'])
        ∧ callResult t' = Some err.
Proof.
  intros H. unfold Stop, panicRecover, timeoutStop in H.
  inv_step DeleteLogstoreConfig_inv H; simpl in *; try congruence; dedup.
  - (* in time *)
    eexists. split; [|shelve].
    solo_run solo_step false DeleteLogstoreConfig_ok.
    solo_run solo_step false DeleteLogstoreConfig_ok.
    eapply (solo_stop_returns (length (goroutines st))); [goroutine_run|].
    solo_run solo_step false DeleteLogstoreConfig_ok.
    solo_run solo_step false DeleteLogstoreConfig_ok.
    solo_run solo_step false DeleteLogstoreConfig_ok.
    apply rtc_refl.
    Unshelve. all: reflexivity.
  - eexists. split; [|shelve].
    solo_run solo_step false DeleteLogstoreConfig_ok.
    solo_run solo_step false DeleteLogstoreConfig_ok.
    solo_run solo_step true DeleteLogstoreConfig_ok.
    solo_run solo_step false DeleteLogstoreConfig_ok.
    solo_run solo_step false DeleteLogstoreConfig_ok.
    solo_run solo_step false DeleteLogstoreConfig_ok.
    apply rtc_refl.
    Unshelve. all: reflexivity.
  - eexists. split; [|shelve].
    solo_run solo_step false DeleteLogstoreConfig_ok.
    solo_run solo_step false DeleteLogstoreConfig_ok.
    solo_run solo_step true DeleteLogstoreConfig_ok.
    solo_run solo_step false DeleteLogstoreConfig_ok.
    solo_run solo_step false DeleteLogstoreConfig_ok.
    solo_run solo_step false DeleteLogstoreConfig_ok.
    apply rtc_refl.
    Unshelve. all: reflexivity.
  - eexists. split; [|shelve].
    solo_run solo_step false DeleteLogstoreConfig_ok.
    solo_run solo_step false DeleteLogstoreConfig_ok.
    solo_run solo_step true DeleteLogstoreConfig_ok.
    solo_run solo_step false DeleteLogstoreConfig_ok.
    solo_run solo_step false DeleteLogstoreConfig_ok.
    solo_run solo_step false DeleteLogstoreConfig_ok.
    apply rtc_refl.
    Unshelve. all: reflexivity.
  - eexists. split; [|shelve].
    solo_run solo_step false DeleteLogstoreConfig_ok.
    apply rtc_refl.
    Unshelve. all: reflexivity.
Qed.

Lemma Start_run st configName err st' :
  Start startProc configName st = Ok err st' →
  ∃ t', rtc (next stopProc startProc mapRange)
          (mkMachine st [StartCalled configName]) (mkMachine st' [t'])
        ∧ callResult t' = Some err.
Proof.
  intros H. unfold Start, panicRecover in H.
  inv_step DeleteLogstoreConfig_inv H; simpl in *; try congruence; dedup.
  all: eexists; (split; [|shelve]).
  all: try solve [ repeat (solo_run solo_step false DeleteLogstoreConfig_ok); apply rtc_refl ].
  Unshelve. all: reflexivity.
Qed.


Lemma needStop_inv withInput c st b st' :
  needStop withInput c st = Ok b st' →
  st' = st
  ∧ ∃ lc r o, configs st !! c = Some lc ∧ PluginRunner lc = Some r
      ∧ runners st !! r = Some o
      ∧ (if withInput then IsWithInputPlugin o else negb (IsWithInputPlugin o)) = b.
Proof.
  unfold needStop. msimpl. intros H.
  destruct (configs st !! c) as [lc|] eqn:Hc; [|done]. msimpl_in H.
  destruct (PluginRunner lc) as [r|] eqn:Hr; [|done].
  destruct (runners st !! r) as [o|] eqn:Ho; [|done]. msimpl_in H.
  injection H as <- <-. split; [done|]. by exists lc, r, o.
Qed.

(** One visit of the loop of [StopAllPipelines]. *)
Lemma stopEntry_run withInput n c rest toDelete st :
  needStop withInput c st = Ok true st →
  match stopEntry stopProc selectPicksDone c st with
  | Ok _ st' =>
      rtc (next stopProc startProc mapRange)
        (mkMachine st [StopAllLoop withInput ((n, c) :: rest) toDelete])
        (mkMachine st' [StopAllLoop withInput rest ({[n]} ∪ toDelete)])
  | Panic st' =>
      ∃ t, rtc (next stopProc startProc mapRange)
             (mkMachine st [StopAllLoop withInput ((n, c) :: rest) toDelete])
             (mkMachine (add_log (LogError "PLUGIN_RUNTIME_ALARM" "Run plugin") st')
                [Recovered t])
  | _ => True
  end.
Proof.
  intros Hneed. apply needStop_inv in Hneed as (_ & lc & r & o & Hc & Hr & Ho & Hb).
  destruct (stopEntry stopProc selectPicksDone c st) as [[] st'|st'| |] eqn:H; [| |done..].
  - unfold stopEntry, timeoutStop in H.
    inv_step DeleteLogstoreConfig_inv H; simpl in *; try congruence; dedup.
    + solo_run solo_step false DeleteLogstoreConfig_ok.
      solo_run solo_step false DeleteLogstoreConfig_ok.
      solo_run solo_step false DeleteLogstoreConfig_ok.
      eapply (solo_stop_returns (length (goroutines st))); [goroutine_run|].
      solo_run solo_step false DeleteLogstoreConfig_ok.
      solo_run solo_step false DeleteLogstoreConfig_ok.
      apply rtc_refl.
    + solo_run solo_step false DeleteLogstoreConfig_ok.
      solo_run solo_step false DeleteLogstoreConfig_ok.
      solo_run solo_step false DeleteLogstoreConfig_ok.
      solo_run solo_step true DeleteLogstoreConfig_ok.
      solo_run solo_step false DeleteLogstoreConfig_ok.
      solo_run solo_step false DeleteLogstoreConfig_ok.
      apply rtc_refl.
    + solo_run solo_step false DeleteLogstoreConfig_ok.
      solo_run solo_step false DeleteLogstoreConfig_ok.
      solo_run solo_step false DeleteLogstoreConfig_ok.
      solo_run solo_step true DeleteLogstoreConfig_ok.
      solo_run solo_step false DeleteLogstoreConfig_ok.
      solo_run solo_step false DeleteLogstoreConfig_ok.
      apply rtc_refl.
    + solo_run solo_step false DeleteLogstoreConfig_ok.
      solo_run solo_step false DeleteLogstoreConfig_ok.
      solo_run solo_step false DeleteLogstoreConfig_ok.
      solo_run solo_step true DeleteLogstoreConfig_ok.
      solo_run solo_step false DeleteLogstoreConfig_ok.
      solo_run solo_step false DeleteLogstoreConfig_ok.
      apply rtc_refl.
  - unfold stopEntry, timeoutStop in H.
    inv_step DeleteLogstoreConfig_inv H; simpl in *; try congruence; dedup.
    all: eexists; solo_run solo_step false DeleteLogstoreConfig_ok;
      solo_run solo_step false DeleteLogstoreConfig_ok; apply rtc_refl.
Qed.

Lemma stopAllLoop_run withInput entries : ∀ toDelete st,
  match stopAllLoop stopProc selectPicksDone withInput entries toDelete st with
  | Ok toDelete' st' =>
      rtc (next stopProc startProc mapRange) (mkMachine st [StopAllLoop withInput entries toDelete])
        (mkMachine st' [StopAllLoop withInput [] toDelete'])
  | Panic st' =>
      ∃ t, rtc (next stopProc startProc mapRange)
             (mkMachine st [StopAllLoop withInput entries toDelete])
             (mkMachine (add_log (LogError "PLUGIN_RUNTIME_ALARM" "Run plugin") st')
                [Recovered t])
  | _ => True
  end.
Proof.
  induction entries as [|[n c] rest IH]; intros toDelete st.
  - apply rtc_refl.
  - simpl. unfold mbind at 1, M_bind at 1.
    destruct (needStop withInput c st) as [[] st0|st0| |] eqn:Hneed; [| | |done..].
    + assert (st0 = st) as -> by by apply needStop_inv in Hneed as [-> _].
      pose proof (stopEntry_run withInput n c rest toDelete st Hneed) as Hentry.
      unfold mbind at 1, M_bind at 1.
      destruct (stopEntry stopProc selectPicksDone c st) as [[] st1|st1| |]; try done.
      specialize (IH ({[n]} ∪ toDelete) st1).
      destruct (stopAllLoop stopProc selectPicksDone withInput rest
                  ({[n]} ∪ toDelete) st1) as [toDelete' st'|st'| |]; try done.
      * by etrans.
      * destruct IH as [t Ht]. exists t. by etrans.
    + apply needStop_inv in Hneed as (-> & lc & r & o & Hc & Hr & Ho & Hb).
      assert (Hskip : rtc (next stopProc startProc mapRange)
                        (mkMachine st [StopAllLoop withInput ((n, c) :: rest) toDelete])
                        (mkMachine st [StopAllLoop withInput rest toDelete])).
      { solo_run solo_step false DeleteLogstoreConfig_ok. apply rtc_refl. }
      specialize (IH toDelete st).
      destruct (stopAllLoop stopProc selectPicksDone withInput rest toDelete st)
        as [toDelete' st'|st'| |]; try done.
      * by etrans.
      * destruct IH as [t Ht]. exists t. by etrans.
    + eexists. unfold needStop in Hneed. msimpl_in Hneed.
      destruct (configs st !! c) as [lc|] eqn:Hc; msimpl_in Hneed;
        [destruct (PluginRunner lc) as [r|] eqn:Hr;
         [destruct (runners st !! r) as [o|] eqn:Ho; [done|]|]|];
        msimpl_in Hneed; simplify_eq.
      all: solo_run solo_step false DeleteLogstoreConfig_ok; apply rtc_refl.
Qed.

Lemma StopAllPipelines_run st withInput err st' :
  StopAllPipelines stopProc selectPicksDone mapRange withInput st = Ok err st' →
  ∃ t', rtc (next stopProc startProc mapRange)
          (mkMachine st [StopAllCalled withInput]) (mkMachine st' [t'])
        ∧ callResult t' = Some err.
Proof.
  intros H. unfold StopAllPipelines, panicRecover in H.
  unfold mbind at 1, M_bind at 1 in H. unfold Lock in H.
  destruct (LogtailConfigLock st) eqn:Hl; [done|].
  assert (Hfirst : rtc (next stopProc startProc mapRange) (mkMachine st [StopAllCalled withInput])
            (mkMachine (set_lock true st)
               [StopAllLoop withInput (mapRange (LogtailConfig st)) ∅])).
  { solo_run solo_step false DeleteLogstoreConfig_ok. apply rtc_refl. }
  unfold mbind at 1, M_bind at 1 in H. unfold get in H.
  unfold mbind at 1, M_bind at 1 in H.
  pose proof (stopAllLoop_run withInput (mapRange (LogtailConfig (set_lock true st))) ∅
                (set_lock true st)) as Hloop.
  destruct (stopAllLoop stopProc selectPicksDone withInput
              (mapRange (LogtailConfig (set_lock true st))) ∅ (set_lock true st))
    as [toDelete st1|st1| |]; try done.
  - unfold deleteNames in H. msimpl_in H. simplify_eq.
    eexists. split; [|shelve].
    etrans; [exact Hfirst|]. etrans; [exact Hloop|].
    solo_run solo_step false DeleteLogstoreConfig_ok. apply rtc_refl.
    Unshelve. reflexivity.
  - simplify_eq. destruct Hloop as [t Ht]. exists (Recovered t). split; [|done].
    etrans; [exact Hfirst|]. exact Ht.
Qed.

End RunProofs.

Lemma demoWindow_serial : serial stopsSlowly startsFine map_to_list demoWindow.
Proof.
  unfold demoWindow, demoStarted, demoLoaded.
  repeat first [ apply serial_performAllInTurn | apply serial_performInTurn ].
  apply rtc_refl.
Qed.

Example demoStarted_state :
  LogtailConfig (globals demoStarted) !! "p/1" = Some 1%positive
  ∧ ToStartPipelineConfigWithInput (globals demoStarted) = None
  ∧ threads demoStarted = [Returned None].
Proof. repeat split; by vm_compute. Qed.



(** Both conditions on the runs are needed.  When two calls of [Start]
    overlap, all calls can be over with the pipeline in the registry and in
    the disabled set. *)
Example overlapping_starts :
  reachable stopsSlowly startsFine map_to_list demoOverlap
  ∧ threads demoOverlap = [Returned None; Returned None; Returned None]
  ∧ LogtailConfig (globals demoOverlap) !! "p/1" = Some 1%positive
  ∧ 1%positive ∈ DisabledLogtailConfig (globals demoOverlap).
Proof.
  split; [|repeat split; by vm_compute].
  unfold demoOverlap. apply reachable_performAll.
  apply serial_reachable. unfold demoLoaded. apply serial_performInTurn, rtc_refl.
Qed.

(** When a recovered panic ends a call of [StopAllPipelines], the call is
    over with the pipeline in the registry and in the disabled set, and
    with the registry lock held. *)
Example cut_short_stop_all :
  serial stopsSlowly startsFine map_to_list demoCutShort
  ∧ threads demoCutShort
    = [Returned None; Returned None;
       Recovered (StopAllLoop true [("0/1", 9%positive)] {["p/1"]})]
  ∧ LogtailConfig (globals demoCutShort) !! "p/1" = Some 1%positive
  ∧ 1%positive ∈ DisabledLogtailConfig (globals demoCutShort)
  ∧ LogtailConfigLock (globals demoCutShort) = true.
Proof.
  split; [|repeat split; by vm_compute].
  unfold demoCutShort, demoStarted, demoLoaded.
  repeat first [ apply serial_performAllInTurn | apply serial_performInTurn ].
  apply rtc_refl.
Qed.

Lemma registry_keyed_by_name_witness :
  (∃ lc, configs (globals demoWindow) !! 1%positive = Some lc
         ∧ ConfigNameWithSuffix lc = "p/1")
  ∧ (∀ n', LogtailConfig (globals demoWindow) !! n' = Some 1%positive → n' = "p/1").
Proof.
  apply (registry_keyed_by_name stopsSlowly startsFine map_to_list
           (λ m n c, proj1 (elem_of_map_to_list m n c)) demoWindow "p/1" 1).
  - apply demoWindow_serial.
  - by vm_compute.
Defined.

(** ** Further properties of the exported functions *)

Lemma set_lock_idle st :
  LogtailConfigLock st = false → set_lock false (set_lock true st) = st.
Proof. destruct st. simpl. by intros ->. Qed.

Section DeleteProofs.

Variable stopProc : ptr → bool → StopBehaviour.
Variable selectPicksDone : bool.

(** [DeleteLogstoreConfigFromLogtailConfig] of a name that is not
    registered changes nothing. *)
Theorem DeleteFromLogtailConfig_missing st configName removedFlag :
  LogtailConfigLock st = false →
  LogtailConfig st !! configName = None →
  DeleteLogstoreConfigFromLogtailConfig configName removedFlag st = Ok tt st.
Proof.
  intros Hl Hn. unfold DeleteLogstoreConfigFromLogtailConfig. mrun.
  by rewrite set_lock_idle.
Qed.

(** [DeleteLogstoreConfigFromLogtailConfig] of a registered pipeline tears
    it down and removes the name without running the stop procedure: no
    goroutine is launched, nothing is logged, the disabled set is as
    before, the lock is free again, and a [Stop] of the name afterwards
    finds nothing. *)
Theorem DeleteFromLogtailConfig_found st configName removedFlag c lc :
  LogtailConfigLock st = false →
  LogtailConfig st !! configName = Some c →
  configs st !! c = Some lc →
  ∃ st', DeleteLogstoreConfigFromLogtailConfig configName removedFlag st = Ok tt st'
    ∧ LogtailConfig st' = delete configName (LogtailConfig st)
    ∧ configs st' !! c = Some (tornDown lc)
    ∧ DisabledLogtailConfig st' = DisabledLogtailConfig st
    ∧ goroutines st' = goroutines st
    ∧ logs st' = logs st
    ∧ LogtailConfigLock st' = false
    ∧ ∀ rf, Stop stopProc selectPicksDone configName rf st'
            = Ok (Some (errNotFound configName)) st'.
Proof.
  intros Hl Hn Hc. unfold DeleteLogstoreConfigFromLogtailConfig. mrun.
  erewrite DeleteLogstoreConfig_ok by (simpl; exact Hc). mrun.
  eexists. split; [reflexivity|]. simpl.
  repeat split; try done.
  - apply lookup_insert_eq.
  - intros rf. unfold Stop, panicRecover. mrun. by rewrite lookup_delete_eq.
Qed.

(** A registry entry that holds a nil pointer: the teardown panics, nothing
    in [DeleteLogstoreConfigFromLogtailConfig] recovers, the entry stays
    and the registry lock stays held, so that a later [Stop] of any name
    never returns. *)
Theorem DeleteFromLogtailConfig_nil_entry st configName removedFlag c :
  LogtailConfigLock st = false →
  LogtailConfig st !! configName = Some c →
  configs st !! c = None →
  DeleteLogstoreConfigFromLogtailConfig configName removedFlag st
  = Panic (set_lock true st)
  ∧ ∀ n rf, Stop stopProc selectPicksDone n rf (set_lock true st) = Block.
Proof.
  intros Hl Hn Hc. split.
  - unfold DeleteLogstoreConfigFromLogtailConfig. mrun.
    by rewrite DeleteLogstoreConfig_nil.
  - intros n rf. unfold Stop, panicRecover. by mrun.
Qed.

End DeleteProofs.

Section StopMore.

Variable stopProc : ptr → bool → StopBehaviour.
Variable selectPicksDone : bool.

(** Whatever a [Stop] that returns has done, of the registry it has
    removed the given name and nothing else, and it has not touched the
    staging slots; with the removed flag set it has not touched the
    last-unsent-buffer map either. *)
Theorem Stop_frame st configName removedFlag err st' :
  Stop stopProc selectPicksDone configName removedFlag st = Ok err st' →
  LogtailConfig st' = delete configName (LogtailConfig st)
  ∧ ToStartPipelineConfigWithInput st' = ToStartPipelineConfigWithInput st
  ∧ ToStartPipelineConfigWithoutInput st' = ToStartPipelineConfigWithoutInput st
  ∧ (removedFlag = true → LastUnsendBuffer st' = LastUnsendBuffer st).
Proof.
  intros H. unfold Stop, panicRecover, timeoutStop in H.
  inv_step DeleteLogstoreConfig_inv H; simpl in *; try congruence.
  all: repeat split; try done.
  all: try (by intros ->).
  all: by rewrite delete_id.
Qed.

(** A pipeline is stopped once: when [Stop] of a registered name has
    returned, a second [Stop] of that name answers that the config is not
    found, and changes nothing. *)
Theorem Stop_again_not_found st configName rf1 rf2 err st1 :
  is_Some (LogtailConfig st !! configName) →
  Stop stopProc selectPicksDone configName rf1 st = Ok err st1 →
  err = None
  ∧ Stop stopProc selectPicksDone configName rf2 st1
    = Ok (Some (errNotFound configName)) st1.
Proof.
  intros [c Hc] H. unfold Stop, panicRecover, timeoutStop in H.
  inv_step DeleteLogstoreConfig_inv H; simpl in *; try congruence.
  all: split; [done|].
  all: unfold Stop, panicRecover; mrun; by rewrite lookup_delete_eq.
Qed.


(** A stop procedure that never returns: [Stop] comes back after the
    deadline, the goroutine never gets to its reconciliation, and the
    pipeline stays in the disabled set as it was, with its context, its
    runner and the back-references of its plugin instances in place. *)
Theorem Stop_hang_leaks st configName removedFlag c lc :
  LogtailConfigLock st = false →
  LogtailConfig st !! configName = Some c →
  configs st !! c = Some lc → is_Some (Context_ lc) →
  stopProc c removedFlag = StopHangs →
  ∃ st1,
    Stop stopProc selectPicksDone configName removedFlag st = Ok None st1
    ∧ finishGoroutine stopProc (length (goroutines st)) st1 = Block
    ∧ c ∈ DisabledLogtailConfig st1
    ∧ configs st1 = configs st ∧ contexts st1 = contexts st
    ∧ runners st1 = runners st ∧ plugins st1 = plugins st.
Proof.
  intros Hl Hn Hc Hx Hs.
  rewrite (Stop_found _ _ _ _ _ c) by done.
  unfold panicRecover.
  erewrite bind_Ok; [|eapply timeoutStop_false; [done..|by rewrite Hs]]. simpl.
  destruct Hx as [x Hx].
  unfold quarantine, forget, GetRuntimeContext. mrun.
  eexists. split; [reflexivity|]. simpl.
  split; [|split; [set_solver|done]].
  unfold finishGoroutine. mrun.
  rewrite lookup_app_r, Nat.sub_diag by done. mrun. done.
Qed.

End StopMore.

Section StopAllMore.

Variable stopProc : ptr → bool → StopBehaviour.
Variable selectPicksDone : bool.
Variable mapRange : gmap string ptr → list (string * ptr).

(** The visits of [StopAllPipelines] tear down with the removed flag set:
    whether the loop ends or panics, the last-unsent-buffer map, the
    registry and the staging slots are as before. *)
Lemma stopAllLoop_frame withInput entries : ∀ toDelete st,
  match stopAllLoop stopProc selectPicksDone withInput entries toDelete st with
  | Ok _ st' | Panic st' =>
      LastUnsendBuffer st' = LastUnsendBuffer st
      ∧ LogtailConfig st' = LogtailConfig st
      ∧ LogtailConfigLock st' = LogtailConfigLock st
      ∧ ToStartPipelineConfigWithInput st' = ToStartPipelineConfigWithInput st
      ∧ ToStartPipelineConfigWithoutInput st' = ToStartPipelineConfigWithoutInput st
  | _ => True
  end.
Proof.
  induction entries as [|[n c] rest IH]; intros toDelete st; [done|].
  simpl. unfold mbind at 1, M_bind at 1.
  destruct (needStop withInput c st) as [b st0|st0| |] eqn:Hneed; [| |done..].
  - assert (st0 = st) as ->.
    { unfold needStop in Hneed. inv_step DeleteLogstoreConfig_inv Hneed; done. }
    destruct b; [|apply IH].
    unfold mbind at 1, M_bind at 1.
    destruct (stopEntry stopProc selectPicksDone c st) as [[] st1|st1| |] eqn:He;
      [| |done..].
    + assert (Hst : LastUnsendBuffer st1 = LastUnsendBuffer st
                    ∧ LogtailConfig st1 = LogtailConfig st
                    ∧ LogtailConfigLock st1 = LogtailConfigLock st
                    ∧ ToStartPipelineConfigWithInput st1 = ToStartPipelineConfigWithInput st
                    ∧ ToStartPipelineConfigWithoutInput st1
                      = ToStartPipelineConfigWithoutInput st).
      { unfold stopEntry, timeoutStop in He.
        inv_step DeleteLogstoreConfig_inv He; done. }
      destruct Hst as (E1 & E2 & E3 & E4 & E5).
      specialize (IH ({[n]} ∪ toDelete) st1).
      destruct (stopAllLoop stopProc selectPicksDone withInput rest
                  ({[n]} ∪ toDelete) st1); try done.
      all: destruct IH as (F1 & F2 & F3 & F4 & F5); repeat split; congruence.
    + unfold stopEntry, timeoutStop in He.
      inv_step DeleteLogstoreConfig_inv He; done.
  - unfold needStop in Hneed. inv_step DeleteLogstoreConfig_inv Hneed; done.
Qed.

(** [StopAllPipelines] never preserves a runner for a later reload: when it
    returns, after a recovered panic or not, the last-unsent-buffer map and
    the staging slots are as before, and the registry has lost entries at
    most. *)
Theorem StopAllPipelines_frame st withInput err st' :
  StopAllPipelines stopProc selectPicksDone mapRange withInput st = Ok err st' →
  err = None
  ∧ LastUnsendBuffer st' = LastUnsendBuffer st
  ∧ ToStartPipelineConfigWithInput st' = ToStartPipelineConfigWithInput st
  ∧ ToStartPipelineConfigWithoutInput st' = ToStartPipelineConfigWithoutInput st
  ∧ LogtailConfig st' ⊆ LogtailConfig st.
Proof.
  intros H. unfold StopAllPipelines, panicRecover in H.
  unfold mbind at 1, M_bind at 1 in H. unfold Lock in H.
  destruct (LogtailConfigLock st) eqn:Hl; [done|].
  unfold mbind at 1, M_bind at 1 in H. unfold get in H.
  unfold mbind at 1, M_bind at 1 in H.
  pose proof (stopAllLoop_frame withInput (mapRange (LogtailConfig (set_lock true st))) ∅
                (set_lock true st)) as Hloop.
  destruct (stopAllLoop stopProc selectPicksDone withInput
              (mapRange (LogtailConfig (set_lock true st))) ∅ (set_lock true st))
    as [toDelete st1|st1| |]; try done.
  - destruct Hloop as (E1 & E2 & E3 & E4 & E5).
    unfold deleteNames in H. msimpl_in H. simplify_eq. simpl.
    repeat split; try done. rewrite E2. simpl.
    generalize (elements toDelete). intros l. induction l as [|n l IH]; [done|].
    simpl. etrans; [apply delete_subseteq|done].
  - destruct Hloop as (E1 & E2 & E3 & E4 & E5). simplify_eq. simpl.
    repeat split; try done. by rewrite E2.
Qed.

(** A panic on the caller's goroutine inside the loop: when the first
    pipeline that the loop visits has a nil runner, [StopAllPipelines]
    returns nil with the alarm logged, nothing is deleted from the registry,
    and the registry lock is still held, so that no later [Stop] or
    [StopAllPipelines] returns. *)
Theorem StopAllPipelines_panic_keeps_lock st withInput n c lc rest :
  LogtailConfigLock st = false →
  mapRange (LogtailConfig st) = (n, c) :: rest →
  configs st !! c = Some lc → PluginRunner lc = None →
  ∃ st', StopAllPipelines stopProc selectPicksDone mapRange withInput st = Ok None st'
    ∧ st' = add_log (LogError "PLUGIN_RUNTIME_ALARM" "Run plugin") (set_lock true st)
    ∧ LogtailConfig st' = LogtailConfig st
    ∧ LogtailConfigLock st' = true
    ∧ (∀ n' rf, Stop stopProc selectPicksDone n' rf st' = Block)
    ∧ (∀ wi, StopAllPipelines stopProc selectPicksDone mapRange wi st' = Block).
Proof.
  intros Hl Hr Hc Hp. eexists. split.
  - unfold StopAllPipelines, panicRecover. mrun. rewrite Hr. simpl.
    unfold needStop. mrun. reflexivity.
  - split; [done|]. split; [done|]. split; [done|]. split.
    + intros n' rf. unfold Stop, panicRecover. by mrun.
    + intros wi. unfold StopAllPipelines, panicRecover. by mrun.
Qed.

(** When no registered pipeline is of the requested kind,
    [StopAllPipelines] changes nothing; the empty registry is one such
    case. *)
Theorem StopAllPipelines_none st withInput :
  LogtailConfigLock st = false →
  (∀ n c, (n, c) ∈ mapRange (LogtailConfig st) →
          reportsWithInput st c = Some (negb withInput)) →
  StopAllPipelines stopProc selectPicksDone mapRange withInput st = Ok None st.
Proof.
  intros Hl Hall.
  assert (Hloop : ∀ entries toDelete st0,
            (∀ n c, (n, c) ∈ entries → reportsWithInput st0 c = Some (negb withInput)) →
            stopAllLoop stopProc selectPicksDone withInput entries toDelete st0
            = Ok toDelete st0).
  { induction entries as [|[n c] rest IH]; intros toDelete st0 Hrep; [done|].
    simpl. pose proof (Hrep n c ltac:(left)) as Hc.
    unfold reportsWithInput in Hc.
    destruct (configs st0 !! c) as [lc|] eqn:E1; [|done]. simpl in Hc.
    destruct (PluginRunner lc) as [r|] eqn:E2; [|done]. simpl in Hc.
    destruct (runners st0 !! r) as [o|] eqn:E3; [|done]. simpl in Hc.
    injection Hc as Hc.
    unfold needStop. mrun.
    replace (if withInput then IsWithInputPlugin o else negb (IsWithInputPlugin o))
      with false by (rewrite Hc; by destruct withInput).
    apply IH. intros n' c' Hin. apply (Hrep n' c'). by right. }
  unfold StopAllPipelines, panicRecover. mrun.
  rewrite Hloop by done. unfold deleteNames. mrun.
  rewrite elements_empty. simpl.
  f_equal. destruct st. simpl in *. by subst.
Qed.

End StopAllMore.

Section StartMore.

Variable stopProc : ptr → bool → StopBehaviour.
Variable startProc : ptr → StartBehaviour.
Variable selectPicksDone : bool.

(** A panic of the start procedure of the staged pipeline is contained:
    [Start] returns nil with the alarm logged, the pipeline is not
    registered and stays in its slot, and the registry lock is not taken. *)
Theorem Start_panic_contained st configName :
  slotNamed st (ToStartPipelineConfigWithInput st) configName
  ∨ (¬ slotNamed st (ToStartPipelineConfigWithInput st) configName
     ∧ slotValid st (ToStartPipelineConfigWithInput st)
     ∧ slotNamed st (ToStartPipelineConfigWithoutInput st) configName) →
  (∀ q, startProc q = StartPanics) →
  ∃ st', Start startProc configName st = Ok None st'
    ∧ st' = add_log (LogError "PLUGIN_RUNTIME_ALARM" "Run plugin") st
    ∧ LogtailConfig st' = LogtailConfig st
    ∧ ToStartPipelineConfigWithInput st' = ToStartPipelineConfigWithInput st
    ∧ ToStartPipelineConfigWithoutInput st' = ToStartPipelineConfigWithoutInput st
    ∧ LogtailConfigLock st' = LogtailConfigLock st.
Proof.
  intros [(p1 & lc1 & H1 & Hc1 & Hn1)|(Hn & Hv & p2 & lc2 & H2 & Hc2 & Hn2)] Hp.
  - rewrite (Start_with_input _ _ _ p1 lc1) by done. rewrite Hp. eauto 10.
  - rewrite (Start_without_input _ _ _ p2 lc2) by done. rewrite Hp. eauto 10.
Qed.

(** [Start] of a name that is registered already replaces the entry: the
    pipeline that was registered under the name is not stopped and not torn
    down (no goroutine is launched, its object is as before), and the
    registry does not lead to it any more. *)
Theorem Start_replaces_registered st configName p lc c0 :
  LogtailConfigLock st = false →
  ToStartPipelineConfigWithInput st = Some p →
  configs st !! p = Some lc → ConfigNameWithSuffix lc = configName →
  startProc p = StartReturns →
  LogtailConfig st !! configName = Some c0 → c0 ≠ p →
  (∀ n, LogtailConfig st !! n = Some c0 → n = configName) →
  ∃ st', Start startProc configName st = Ok None st'
    ∧ LogtailConfig st' !! configName = Some p
    ∧ ¬ registered st' c0
    ∧ configs st' = configs st ∧ contexts st' = contexts st
    ∧ runners st' = runners st ∧ plugins st' = plugins st
    ∧ goroutines st' = goroutines st
    ∧ DisabledLogtailConfig st' = DisabledLogtailConfig st.
Proof.
  intros Hl H1 Hc Hn Hs Hreg Hne Honly.
  rewrite (Start_with_input _ _ _ p lc) by done. rewrite Hs, Hl.
  eexists. split; [reflexivity|]. simpl.
  split; [apply lookup_insert_eq|]. split; [|done].
  intros [n Hn']. simpl in Hn'.
  apply lookup_insert_Some in Hn' as [[_ ?]|[Hnn Hn']]; [done|].
  by apply Honly in Hn'.
Qed.

(** Round trip: a staged pipeline is started and then stopped in time.
    The registry is what it was before the two calls, the slot is consumed
    and the pipeline is torn down. *)
Theorem Start_then_Stop st configName removedFlag p lc elapsed :
  LogtailConfigLock st = false →
  ToStartPipelineConfigWithInput st = Some p →
  configs st !! p = Some lc → ConfigNameWithSuffix lc = configName →
  is_Some (Context_ lc) →
  LogtailConfig st !! configName = None →
  startProc p = StartReturns →
  stopProc p removedFlag = StopReturns elapsed → (elapsed < stopDeadline)%Z →
  ∃ st1 st2, Start startProc configName st = Ok None st1
    ∧ Stop stopProc selectPicksDone configName removedFlag st1 = Ok None st2
    ∧ LogtailConfig st2 = LogtailConfig st
    ∧ ToStartPipelineConfigWithInput st2 = None
    ∧ configs st2 !! p = Some (tornDown lc)
    ∧ DisabledLogtailConfig st2 = DisabledLogtailConfig st
    ∧ LogtailConfigLock st2 = false.
Proof.
  intros Hl H1 Hc Hn Hx Hreg Hs Hstop Hlt.
  rewrite (Start_with_input _ _ _ p lc) by done. rewrite Hs, Hl.
  eexists _, _. split; [reflexivity|].
  erewrite (Stop_found _ _ _ _ _ p); [|done|apply lookup_insert_eq].
  unfold panicRecover.
  erewrite bind_Ok by (eapply timeoutStop_true; [exact Hc|done..]). simpl.
  destruct Hx as [x Hx].
  unfold stopNow, GetRuntimeContext. mrun.
  erewrite DeleteLogstoreConfig_ok by (simpl; exact Hc). mrun.
  split; [reflexivity|]. simpl.
  split; [|split; [done|split; [apply lookup_insert_eq|done]]].
  rewrite delete_insert_eq. by apply delete_id.
Qed.

End StartMore.

(** ** Further properties of the teardown *)

(** The last-unsent-buffer map is keyed by the config name, not by the name
    with suffix: after the teardown of two pipelines of one config name,
    both with the removed flag unset, the map holds the runner of the
    second one under that name and the runner of the first is not kept. *)
Theorem teardown_buffer_shared_key st c1 c2 lc1 lc2 :
  c1 ≠ c2 →
  configs st !! c1 = Some lc1 → configs st !! c2 = Some lc2 →
  ConfigName lc1 = ConfigName lc2 →
  ∃ st1 st2, DeleteLogstoreConfig c1 false st = Ok tt st1
    ∧ LastUnsendBuffer st1 !! ConfigName lc1 = Some (PluginRunner lc1)
    ∧ DeleteLogstoreConfig c2 false st1 = Ok tt st2
    ∧ LastUnsendBuffer st2 !! ConfigName lc1 = Some (PluginRunner lc2).
Proof.
  intros Hne H1 H2 Hk.
  rewrite (DeleteLogstoreConfig_ok _ _ _ lc1) by done.
  eexists _, _. split; [reflexivity|]. simpl.
  split; [apply lookup_insert_eq|].
  rewrite (DeleteLogstoreConfig_ok _ _ _ lc2)
    by (simpl; by rewrite lookup_insert_ne).
  split; [reflexivity|]. simpl. rewrite Hk. apply lookup_insert_eq.
Qed.

(** The teardown of a pipeline leaves every other pipeline object, every
    plugin instance that is not of its runner, the registry, the disabled
    set and the staging slots as they are: a pipeline that is torn down
    directly stays registered. *)
Theorem teardown_frame st c removedFlag st' :
  DeleteLogstoreConfig c removedFlag st = Ok tt st' →
  (∀ c', c' ≠ c → configs st' !! c' = configs st !! c')
  ∧ (∀ p, (∀ lc r o, configs st !! c = Some lc → PluginRunner lc = Some r →
                     runners st !! r = Some o → p ∉ runnerPlugins o) →
          plugins st' !! p = plugins st !! p)
  ∧ LogtailConfig st' = LogtailConfig st
  ∧ DisabledLogtailConfig st' = DisabledLogtailConfig st
  ∧ ToStartPipelineConfigWithInput st' = ToStartPipelineConfigWithInput st
  ∧ ToStartPipelineConfigWithoutInput st' = ToStartPipelineConfigWithoutInput st
  ∧ goroutines st' = goroutines st ∧ logs st' = logs st.
Proof.
  intros H.
  destruct (DeleteLogstoreConfig_inv c removedFlag st _ H) as [(lc & Hc & E)|[_ E]];
    [|done].
  injection E as ->. simpl. repeat split; try done.
  - intros c' Hne. by rewrite lookup_insert_ne.
  - intros p Hp. destruct (PluginRunner lc) as [r|] eqn:Hr; simpl; [|done].
    destruct (runners st !! r) as [o|] eqn:Ho; simpl; [|done].
    rewrite clearPlugins_lookup, decide_False; [done|]. by eapply Hp.
Qed.

(** ** The properties above on the demo states *)

Lemma DeleteFromLogtailConfig_missing_witness :
  DeleteLogstoreConfigFromLogtailConfig "r/1" false demoState = Ok tt demoState.
Proof. apply (DeleteFromLogtailConfig_missing demoState "r/1" false); by vm_compute. Defined.

Lemma DeleteFromLogtailConfig_found_witness :
  ∃ st', DeleteLogstoreConfigFromLogtailConfig "p/1" false demoState = Ok tt st'
    ∧ LogtailConfig st' = delete "p/1" (LogtailConfig demoState)
    ∧ configs st' !! 1%positive = Some (tornDown demoPipeline)
    ∧ DisabledLogtailConfig st' = DisabledLogtailConfig demoState
    ∧ goroutines st' = goroutines demoState
    ∧ logs st' = logs demoState
    ∧ LogtailConfigLock st' = false
    ∧ ∀ rf, Stop stopsQuickly true "p/1" rf st' = Ok (Some (errNotFound "p/1")) st'.
Proof.
  apply (DeleteFromLogtailConfig_found stopsQuickly true demoState "p/1" false 1 demoPipeline);
    by vm_compute.
Defined.

Lemma DeleteFromLogtailConfig_nil_entry_witness :
  DeleteLogstoreConfigFromLogtailConfig "z/1" true demoNilEntry
  = Panic (set_lock true demoNilEntry)
  ∧ ∀ n rf, Stop stopsQuickly true n rf (set_lock true demoNilEntry) = Block.
Proof.
  apply (DeleteFromLogtailConfig_nil_entry stopsQuickly true demoNilEntry "z/1" true 99);
    by vm_compute.
Defined.

Lemma Stop_frame_witness :
  LogtailConfig demoQuarantined = delete "p/1" (LogtailConfig demoState)
  ∧ ToStartPipelineConfigWithInput demoQuarantined = ToStartPipelineConfigWithInput demoState
  ∧ ToStartPipelineConfigWithoutInput demoQuarantined
    = ToStartPipelineConfigWithoutInput demoState
  ∧ (true = true → LastUnsendBuffer demoQuarantined = LastUnsendBuffer demoState).
Proof.
  apply (Stop_frame stopsSlowly true demoState "p/1" true None demoQuarantined).
  by vm_compute.
Defined.

Lemma Stop_again_not_found_witness :
  @None string = None
  ∧ Stop stopsSlowly true "p/1" false demoQuarantined
    = Ok (Some (errNotFound "p/1")) demoQuarantined.
Proof.
  apply (Stop_again_not_found stopsSlowly true demoState "p/1" true false None demoQuarantined).
  - by eexists.
  - by vm_compute.
Defined.


Lemma Stop_hang_leaks_witness :
  ∃ st1,
    Stop neverReturns true "p/1" true demoState = Ok None st1
    ∧ finishGoroutine neverReturns (length (goroutines demoState)) st1 = Block
    ∧ 1%positive ∈ DisabledLogtailConfig st1
    ∧ configs st1 = configs demoState ∧ contexts st1 = contexts demoState
    ∧ runners st1 = runners demoState ∧ plugins st1 = plugins demoState.
Proof.
  apply (Stop_hang_leaks neverReturns true demoState "p/1" true 1 demoPipeline);
    first [by vm_compute | by eexists].
Defined.

Lemma StopAllPipelines_frame_witness :
  @None string = None
  ∧ LastUnsendBuffer demoStoppedAll = LastUnsendBuffer demoState
  ∧ ToStartPipelineConfigWithInput demoStoppedAll = ToStartPipelineConfigWithInput demoState
  ∧ ToStartPipelineConfigWithoutInput demoStoppedAll
    = ToStartPipelineConfigWithoutInput demoState
  ∧ LogtailConfig demoStoppedAll ⊆ LogtailConfig demoState.
Proof.
  apply (StopAllPipelines_frame stopsQuickly true map_to_list demoState true None
           demoStoppedAll).
  by vm_compute.
Defined.

Lemma StopAllPipelines_panic_keeps_lock_witness :
  ∃ st', StopAllPipelines stopsQuickly true map_to_list true demoNoRunner = Ok None st'
    ∧ st' = add_log (LogError "PLUGIN_RUNTIME_ALARM" "Run plugin") (set_lock true demoNoRunner)
    ∧ LogtailConfig st' = LogtailConfig demoNoRunner
    ∧ LogtailConfigLock st' = true
    ∧ (∀ n' rf, Stop stopsQuickly true n' rf st' = Block)
    ∧ (∀ wi, StopAllPipelines stopsQuickly true map_to_list wi st' = Block).
Proof.
  apply (StopAllPipelines_panic_keeps_lock stopsQuickly true map_to_list demoNoRunner true
           "z/1" 9 (mkLogstoreConfig (Some 3%positive) None "z" "z/1") []);
    by vm_compute.
Defined.

Lemma StopAllPipelines_none_witness :
  StopAllPipelines stopsQuickly true map_to_list true demoOnlyQ = Ok None demoOnlyQ.
Proof.
  apply (StopAllPipelines_none stopsQuickly true map_to_list demoOnlyQ true).
  - by vm_compute.
  - intros n c H. vm_compute in H. apply list_elem_of_singleton in H as [= -> ->].
    by vm_compute.
Defined.

Lemma Start_panic_contained_witness :
  ∃ st', Start startPanics "r/1" demoStaged = Ok None st'
    ∧ st' = add_log (LogError "PLUGIN_RUNTIME_ALARM" "Run plugin") demoStaged
    ∧ LogtailConfig st' = LogtailConfig demoStaged
    ∧ ToStartPipelineConfigWithInput st' = ToStartPipelineConfigWithInput demoStaged
    ∧ ToStartPipelineConfigWithoutInput st' = ToStartPipelineConfigWithoutInput demoStaged
    ∧ LogtailConfigLock st' = LogtailConfigLock demoStaged.
Proof.
  apply (Start_panic_contained startPanics demoStaged "r/1"); [|reflexivity].
  left. eexists _, _. repeat split; by vm_compute.
Defined.

Lemma Start_replaces_registered_witness :
  ∃ st', Start startsFine "r/1" demoRestaged = Ok None st'
    ∧ LogtailConfig st' !! "r/1" = Some 7%positive
    ∧ ¬ registered st' 8%positive
    ∧ configs st' = configs demoRestaged ∧ contexts st' = contexts demoRestaged
    ∧ runners st' = runners demoRestaged ∧ plugins st' = plugins demoRestaged
    ∧ goroutines st' = goroutines demoRestaged
    ∧ DisabledLogtailConfig st' = DisabledLogtailConfig demoRestaged.
Proof.
  apply (Start_replaces_registered startsFine demoRestaged "r/1" 7
           (mkLogstoreConfig (Some 3%positive) (Some 2%positive) "r" "r/1") 8);
    try (by vm_compute).
  intros n H. change (LogtailConfig demoRestaged) with (<["r/1" := 8%positive]> (∅ : gmap string positive)) in H.
  apply lookup_insert_Some in H as [[<- _]|[_ H]]; [done|].
  by rewrite lookup_empty in H.
Defined.

Lemma Start_then_Stop_witness :
  ∃ st1 st2, Start startsFine "r/1" demoStaged = Ok None st1
    ∧ Stop stopsQuickly true "r/1" false st1 = Ok None st2
    ∧ LogtailConfig st2 = LogtailConfig demoStaged
    ∧ ToStartPipelineConfigWithInput st2 = None
    ∧ configs st2 !! 7%positive
      = Some (tornDown (mkLogstoreConfig (Some 3%positive) (Some 2%positive) "r" "r/1"))
    ∧ DisabledLogtailConfig st2 = DisabledLogtailConfig demoStaged
    ∧ LogtailConfigLock st2 = false.
Proof.
  apply (Start_then_Stop stopsQuickly startsFine true demoStaged "r/1" false 7
           (mkLogstoreConfig (Some 3%positive) (Some 2%positive) "r" "r/1") (5 * Second));
    first [by vm_compute | by eexists].
Defined.

Lemma teardown_buffer_shared_key_witness :
  ∃ st1 st2, DeleteLogstoreConfig 7 false demoStaged = Ok tt st1
    ∧ LastUnsendBuffer st1 !! "r" = Some (Some 2%positive)
    ∧ DeleteLogstoreConfig 8 false st1 = Ok tt st2
    ∧ LastUnsendBuffer st2 !! "r" = Some (Some 5%positive).
Proof.
  apply (teardown_buffer_shared_key demoStaged 7 8
           (mkLogstoreConfig (Some 3%positive) (Some 2%positive) "r" "r/1")
           (mkLogstoreConfig (Some 6%positive) (Some 5%positive) "r" "r/1"));
    by vm_compute.
Defined.

Lemma teardown_frame_witness :
  (∀ c', c' ≠ 1%positive → configs demoTornDown !! c' = configs demoState !! c')
  ∧ (∀ p, (∀ lc r o, configs demoState !! 1%positive = Some lc → PluginRunner lc = Some r →
                     runners demoState !! r = Some o → p ∉ runnerPlugins o) →
          plugins demoTornDown !! p = plugins demoState !! p)
  ∧ LogtailConfig demoTornDown = LogtailConfig demoState
  ∧ DisabledLogtailConfig demoTornDown = DisabledLogtailConfig demoState
  ∧ ToStartPipelineConfigWithInput demoTornDown = ToStartPipelineConfigWithInput demoState
  ∧ ToStartPipelineConfigWithoutInput demoTornDown
    = ToStartPipelineConfigWithoutInput demoState
  ∧ goroutines demoTornDown = goroutines demoState ∧ logs demoTornDown = logs demoState.
Proof.
  apply (teardown_frame demoState 1 false demoTornDown).
  by apply DeleteLogstoreConfig_ok.
Defined.

(** ** The built-in pipelines *)

Section BuiltInProofs.

Variable stopProc : ptr → bool → StopBehaviour.
Variable ForceSelfCollect : bool.
Variable runPlugins : ptr → CallBehaviour.
Variable waitCancel : ptr → CallBehaviour.
Variable checkpointStop : CallBehaviour.

Lemma pbind_Done {A B} (m : PM A) (k : A → PM B) pk a pk' :
  m pk = Done a pk' → (m ≫= k) pk = k a pk'.
Proof. intros H. unfold mbind, PM_bind. by rewrite H. Qed.

Lemma stopBuiltIn_Done what config pk d :
  (ForceSelfCollect = true →
   ∃ lc r, configs (manager pk) !! config = Some lc ∧ PluginRunner lc = Some r
           ∧ runPlugins r = CallReturns ∧ waitCancel r = CallReturns) →
  stopProc config true = StopReturns d →
  ∃ st, stopBuiltIn stopProc ForceSelfCollect runPlugins waitCancel what config pk
        = Done tt (set_manager st pk)
      ∧ (ForceSelfCollect = false → st = manager pk)
      ∧ configs st = configs (manager pk) ∧ contexts st = contexts (manager pk)
      ∧ runners st = runners (manager pk) ∧ plugins st = plugins (manager pk)
      ∧ LogtailConfig st = LogtailConfig (manager pk)
      ∧ DisabledLogtailConfig st = DisabledLogtailConfig (manager pk)
      ∧ goroutines st = goroutines (manager pk).
Proof.
  intros Hf Hs. unfold stopBuiltIn. destruct ForceSelfCollect.
  - destruct Hf as (lc & r & Hc & Hr & H1 & H2); [done|].
    psimpl. rewrite Hc. psimpl. rewrite Hr. psimpl. rewrite H1, H2, Hs.
    eexists. split; [reflexivity|]. by repeat split.
  - psimpl. rewrite Hs. exists (manager pk). split; [by destruct pk|done].
Qed.

(** [StopBuiltInModulesConfig] stops the two built-in pipelines with no
    deadline and sets both variables to nil, however long the stop
    procedures take; it does not tear the pipelines down, launches no
    goroutine and leaves the registry and the disabled set alone.  Called
    again, it only stops the checkpoint manager. *)
Theorem StopBuiltInModulesConfig_done pk a c da dc :
  AlarmConfig pk = Some a → ContainerConfig pk = Some c →
  (ForceSelfCollect = true →
   ∀ p, p = a ∨ p = c →
   ∃ lc r, configs (manager pk) !! p = Some lc ∧ PluginRunner lc = Some r
           ∧ runPlugins r = CallReturns ∧ waitCancel r = CallReturns) →
  stopProc a true = StopReturns da → stopProc c true = StopReturns dc →
  checkpointStop = CallReturns →
  ∃ pk', StopBuiltInModulesConfig stopProc ForceSelfCollect runPlugins waitCancel
           checkpointStop pk = Done tt pk'
    ∧ AlarmConfig pk' = None ∧ ContainerConfig pk' = None
    ∧ configs (manager pk') = configs (manager pk)
    ∧ contexts (manager pk') = contexts (manager pk)
    ∧ runners (manager pk') = runners (manager pk)
    ∧ plugins (manager pk') = plugins (manager pk)
    ∧ LogtailConfig (manager pk') = LogtailConfig (manager pk)
    ∧ DisabledLogtailConfig (manager pk') = DisabledLogtailConfig (manager pk)
    ∧ goroutines (manager pk') = goroutines (manager pk)
    ∧ StopBuiltInModulesConfig stopProc ForceSelfCollect runPlugins waitCancel
        checkpointStop pk' = Done tt pk'.
Proof.
  intros Ha Hc Hf Hsa Hsc Hk.
  destruct (stopBuiltIn_Done "force collect the alarm metrics" a pk da) as (st1 & E1 & _ & A1); [auto|done|].
  destruct (stopBuiltIn_Done "force collect the container metrics" c (set_AlarmConfig None (set_manager st1 pk)) dc)
    as (st2 & E2 & _ & A2); [|done|].
  { intros Ht. destruct (Hf Ht c) as (lc & r & ? & ?); [by right|].
    exists lc, r. simpl. destruct A1 as (-> & _). done. }
  unfold StopBuiltInModulesConfig.
  rewrite (pbind_Done _ _ pk pk pk) by done. rewrite Ha.
  erewrite pbind_Done; [|erewrite pbind_Done; [|exact E1]; reflexivity].
  erewrite pbind_Done by reflexivity. simpl. rewrite Hc.
  erewrite pbind_Done; [|erewrite pbind_Done; [|exact E2]; reflexivity].
  unfold call. rewrite Hk.
  eexists. split; [reflexivity|]. simpl in *.
  destruct A1 as (?&?&?&?&?&?&?), A2 as (?&?&?&?&?&?&?).
  repeat split; congruence.
Qed.

(** [StopBuiltInModulesConfig] has neither the deadline nor the recovery of
    [Stop]: when the stop procedure of the alarm pipeline never returns, it
    never returns; when that procedure panics, the panic unwinds into the
    caller, with [AlarmConfig] still set and the container pipeline and the
    checkpoint manager not stopped. *)
Theorem StopBuiltInModulesConfig_no_deadline pk a :
  AlarmConfig pk = Some a → ForceSelfCollect = false →
  match stopProc a true with
  | StopHangs =>
      StopBuiltInModulesConfig stopProc ForceSelfCollect runPlugins waitCancel
        checkpointStop pk = Hung
  | StopPanics _ =>
      StopBuiltInModulesConfig stopProc ForceSelfCollect runPlugins waitCancel
        checkpointStop pk = Panicked pk
  | StopReturns _ => True
  end.
Proof.
  intros Ha ->. unfold StopBuiltInModulesConfig, stopBuiltIn.
  destruct (stopProc a true) eqn:E; [done| |].
  - psimpl. rewrite Ha. psimpl. by rewrite E.
  - psimpl. rewrite Ha. psimpl. by rewrite E.
Qed.

End BuiltInProofs.

Lemma StopBuiltInModulesConfig_done_witness :
  ∃ pk', StopBuiltInModulesConfig stopsSlowly false (λ _, CallReturns) (λ _, CallReturns)
           CallReturns demoPackage = Done tt pk'
    ∧ AlarmConfig pk' = None ∧ ContainerConfig pk' = None
    ∧ configs (manager pk') = configs (manager demoPackage)
    ∧ contexts (manager pk') = contexts (manager demoPackage)
    ∧ runners (manager pk') = runners (manager demoPackage)
    ∧ plugins (manager pk') = plugins (manager demoPackage)
    ∧ LogtailConfig (manager pk') = LogtailConfig (manager demoPackage)
    ∧ DisabledLogtailConfig (manager pk') = DisabledLogtailConfig (manager demoPackage)
    ∧ goroutines (manager pk') = goroutines (manager demoPackage)
    ∧ StopBuiltInModulesConfig stopsSlowly false (λ _, CallReturns) (λ _, CallReturns)
        CallReturns pk' = Done tt pk'.
Proof.
  apply (StopBuiltInModulesConfig_done stopsSlowly false (λ _, CallReturns)
           (λ _, CallReturns) CallReturns demoPackage 1 4 (31 * Second) (31 * Second));
    by vm_compute.
Defined.

Lemma StopBuiltInModulesConfig_no_deadline_witness :
  StopBuiltInModulesConfig neverReturns false (λ _, CallReturns) (λ _, CallReturns)
    CallReturns demoPackage = Hung.
Proof.
  apply (StopBuiltInModulesConfig_no_deadline neverReturns false (λ _, CallReturns)
           (λ _, CallReturns) CallReturns demoPackage 1); reflexivity.
Defined.
